(** * google-cloud-gui: background workers and the terminal read loop

    A shallow embedding of [cloud.py], [worker.py] and the connect form of
    [window.py], with the properties of the worker/task model and of the
    terminal streaming pipeline stated and proved over it.

    Conventions.
    - A Python [str] is a list of code points ([N]).
    - A Python call either returns or raises: [Res].
    - A worker thread emits Qt signals while it runs: [Run] records the
      signals in the order of emission together with the way [run()] ends.
    - Objects that are shared by reference (the cloud client) live in a
      store and are named by a location. *)

From Stdlib Require Import ZArith NArith Ascii String List Lia.
From stdpp Require Import base option list gmap strings pretty.

Open Scope Z_scope.

(* ===================================================================== *)
(** ** Python values *)
(* ===================================================================== *)

Module Py.

(** A character is its code point, a [str] the list of its characters. *)
Definition char := N.
Definition str := list N.

(** A literal of the development as a Python [str]. *)
Definition lit (s : string) : str :=
  List.map N_of_ascii (list_ascii_of_string s).

(** The values that travel through argument dictionaries and signals.
    [VObj] is an object of a library class given by its keyword
    arguments ([Instance(name=..., ...)], [Tags], [Metadata]). *)
#[warnings="-register-all"]
Inductive Value :=
| VNone
| VBool (b : bool)
| VInt (z : Z)
| VStr (s : str)
| VList (l : list Value)
| VObj (cls : string) (fields : list (string * Value)).

#[global] Instance Value_inhabited : Inhabited Value := populate VNone.

(** Exceptions, by the classes the handlers of the program tell apart.
    A constructor stands for the class and all its subclasses. *)
Inductive Exn :=
| GoogleAPICallError (message : string)
    (* google.api_core.exceptions.GoogleAPICallError *)
| OperationTimeoutError (message : string)
    (* the built-in TimeoutError: what [operation.result] raises when its
       timeout expires (concurrent.futures.TimeoutError, the built-in
       class since Python 3.11) and what a socket operation raises when
       its timeout expires (socket.timeout, the built-in class since
       Python 3.10, a subclass of OSError before).  TimeoutError is a
       subclass of OSError *)
| socket_error (message : string)
    (* socket.error, which is OSError; the constructor stands for the
       errors of that class other than the timeouts above *)
| SSHException (message : string)
    (* paramiko.SSHException *)
| AttributeError (message : string)
| TypeError (message : string)
| OtherException (message : string).

(** The result of a call. *)
Inductive Res (A : Type) :=
| Ret (a : A)
| Raise (e : Exn).
Arguments Ret {A} a.
Arguments Raise {A} e.

Definition res_bind {A B} (r : Res A) (k : A -> Res B) : Res B :=
  match r with
  | Ret a => k a
  | Raise e => Raise e
  end.

(** [str.isspace] on one character, as [str.strip()] uses it: the ASCII
    table entries and the Unicode white space code points. *)
Definition isspace (c : char) : bool :=
  ((9 <=? c) && (c <=? 13) || (28 <=? c) && (c <=? 32)
   || (c =? 133) || (c =? 160) || (c =? 5760)
   || (8192 <=? c) && (c <=? 8202)
   || (c =? 8232) || (c =? 8233) || (c =? 8239) || (c =? 8287)
   || (c =? 12288))%N.

Fixpoint lstrip (s : str) : str :=
  match s with
  | [] => []
  | c :: s' => if isspace c then lstrip s' else s
  end.

Definition rstrip (s : str) : str := rev (lstrip (rev s)).

(** [s.strip()]: leading and trailing white space of the whole text. *)
Definition strip (s : str) : str := rstrip (lstrip s).

(** [sep.join(rows)]. *)
Fixpoint join (sep : str) (rows : list str) : str :=
  match rows with
  | [] => []
  | [r] => r
  | r :: rest => r ++ sep ++ join sep rest
  end.

(** [str(v)] as an f-string field formats it.  The callers pass [str]
    values; objects are shown by their class name only. *)
Definition format (v : Value) : str :=
  match v with
  | VNone => lit "None"
  | VBool true => lit "True"
  | VBool false => lit "False"
  | VInt z => lit (pretty z)
  | VStr s => s
  | VList _ => lit "[...]"
  | VObj cls _ => lit cls
  end.

(** A call with the dictionary unpacked into keywords, for a function
    whose parameters [params] are all required: a missing or an unexpected keyword is a [TypeError]. *)
Definition check_kwargs (params : list string) (kwargs : gmap string Value)
  : Res unit :=
  if decide (dom kwargs = list_to_set params)
  then Ret tt
  else Raise (TypeError "missing or unexpected keyword argument").

(** The value bound to parameter [name] once [check_kwargs] passed. *)
Definition arg (kwargs : gmap string Value) (name : string) : Value :=
  kwargs !!! name.

End Py.
Import Py.

(* ===================================================================== *)
(** ** Signals and the worker thread *)
(* ===================================================================== *)

(** The signals declared by the worker classes of [worker.py]. *)
Inductive Signal :=
| completed (value : Value)       (* GoogleCloudWorker / SSHWorker *)
| failed (e : Exn)                (* GoogleCloudWorker / SSHWorker *)
| created                         (* CreateInstanceWorker *)
| started                         (* StartInstanceWorker *)
| resumed                         (* ResumeInstanceWorker *)
| stopped                         (* StopInstanceWorker *)
| suspended                       (* SuspendInstanceWorker *)
| reset                           (* ResetInstanceWorker *)
| deleted                         (* DeleteInstanceWorker *)
| set_                            (* SetInstanceTagsWorker, SetInstanceMetadataWorker *)
| received (frame : str).         (* SSHReadStdIOWorker *)

(** A run of thread code: the signals emitted, first to last, and how the
    code ended.  [Raise e] at the level of [run()] is an exception that
    leaves the thread uncaught. *)
Record Run (A : Type) := MkRun {
  emitted : list Signal;
  outcome : Res A
}.
Arguments MkRun {A} emitted outcome.
Arguments emitted {A} r.
Arguments outcome {A} r.

Module Thread.

Definition ret {A} (a : A) : Run A := MkRun [] (Ret a).

Definition bind {A B} (m : Run A) (k : A -> Run B) : Run B :=
  match outcome m with
  | Ret a => let r := k a in MkRun (emitted m ++ emitted r) (outcome r)
  | Raise e => MkRun (emitted m) (Raise e)
  end.

(** [signal.emit(...)]. *)
Definition emit (s : Signal) : Run unit := MkRun [s] (Ret tt).

(** A collaborator call made by the thread. *)
Definition call {A} (r : Res A) : Run A := MkRun [] r.

(** [try: body except <classes> as e: handler(e)]. *)
Definition try_except {A} (body : Run A) (classes : Exn -> bool)
    (handler : Exn -> Run A) : Run A :=
  match outcome body with
  | Ret _ => body
  | Raise e =>
      if classes e
      then let h := handler e in MkRun (emitted body ++ emitted h) (outcome h)
      else body
  end.

End Thread.

Declare Scope thread_scope.
Delimit Scope thread_scope with thread.
Notation "x <- m ;; k" := (Thread.bind m (fun x => k))
  (at level 100, m at next level, right associativity) : thread_scope.
Notation "m ;; k" := (Thread.bind m (fun _ => k))
  (at level 100, right associativity) : thread_scope.

Declare Scope res_scope.
Delimit Scope res_scope with res.
Notation "x <- m ;; k" := (res_bind m (fun x => k))
  (at level 100, m at next level, right associativity) : res_scope.
Notation "m ;; k" := (res_bind m (fun _ => k))
  (at level 100, right associativity) : res_scope.

(* ===================================================================== *)
(** ** cloud.py *)
(* ===================================================================== *)

Module Cloud.

(** [google.api_core.extended_operation.ExtendedOperation], seen through
    the one method the program calls: [operation.result(timeout=...)]. *)
Record ExtendedOperation := MkOperation {
  result : Z -> Res Value
}.

(** Keyword arguments of a call into the client library, as written. *)
Definition Request := list (string * Value).

(** [google.cloud.compute_v1.InstancesClient], the remote collaborator. *)
Record InstancesClient := MkInstancesClient {
  ic_list : Request -> Res Value;
  ic_get : Request -> Res Value;
  ic_insert : Request -> Res ExtendedOperation;
  ic_start : Request -> Res ExtendedOperation;
  ic_resume : Request -> Res ExtendedOperation;
  ic_stop : Request -> Res ExtendedOperation;
  ic_suspend : Request -> Res ExtendedOperation;
  ic_delete : Request -> Res ExtendedOperation;
  ic_reset : Request -> Res ExtendedOperation;
  ic_set_tags : Request -> Res ExtendedOperation;
  ic_set_metadata : Request -> Res ExtendedOperation
}.

(** An object of class [GoogleCloudClient]: its one attribute. *)
Record GoogleCloudClient := MkClient {
  instances_client : option InstancesClient
}.

(** References to client objects, the store they point into and the class
    attribute [GoogleCloudClient.default_client]. *)
Definition loc := positive.

Record Process := MkProcess {
  objects : gmap loc GoogleCloudClient;
  default_client : option loc
}.

(** [GoogleCloudClient()]: a new object with [instances_client = None]. *)
Definition GoogleCloudClient_new (p : Process) : loc * Process :=
  let l := fresh (dom (objects p)) in
  (l, MkProcess (<[l := MkClient None]> (objects p)) (default_client p)).

(** Importing the module: the class body sets [default_client = None], the
    last line rebinds it to a new client. *)
Definition module_init : Process :=
  let p0 := MkProcess ∅ None in
  let '(l, p1) := GoogleCloudClient_new p0 in
  MkProcess (objects p1) (Some l).

Definition wait_for_extended_operation (operation : ExtendedOperation)
    (timeout : option Z) : Res Value :=
  result operation (default 300 timeout).

(** [load_credentials]; [from_service_account_info] is the class method of
    the client library. *)
Definition load_credentials
    (from_service_account_info : Value -> Res InstancesClient)
    (self : loc) (credentials : Value) (p : Process) : Res Process :=
  (ic <- from_service_account_info credentials ;;
   Ret (MkProcess (alter (fun _ => MkClient (Some ic)) self (objects p))
                  (default_client p)))%res.

(** [self.instances_client.<method>]: the attribute lookup fails on
    [None]. *)
Definition the_instances_client (self : GoogleCloudClient)
  : Res InstancesClient :=
  match instances_client self with
  | Some ic => Ret ic
  | None => Raise (AttributeError "'NoneType' object has no attribute")
  end.

Definition list_instances (self : GoogleCloudClient)
    (kwargs : gmap string Value) : Res Value :=
  (check_kwargs ["project"; "zone"] kwargs ;;
   ic <- the_instances_client self ;;
   ic_list ic [("project", arg kwargs "project");
               ("zone", arg kwargs "zone")])%res.

Definition get_instance (self : GoogleCloudClient)
    (kwargs : gmap string Value) : Res Value :=
  (check_kwargs ["project"; "zone"; "instance_name"] kwargs ;;
   ic <- the_instances_client self ;;
   ic_get ic [("project", arg kwargs "project");
              ("zone", arg kwargs "zone");
              ("instance", arg kwargs "instance_name")])%res.

Definition create_instance (self : GoogleCloudClient)
    (kwargs : gmap string Value) : Res ExtendedOperation :=
  (check_kwargs ["project"; "zone"; "name"; "description"; "hostname";
                 "machine_type"; "network_tier"; "disk_size"; "image"]
                kwargs ;;
   ic <- the_instances_client self ;;
   ic_insert ic
     [("project", arg kwargs "project");
      ("zone", arg kwargs "zone");
      ("instance_resource",
       VObj "Instance"
         [("name", arg kwargs "name");
          ("description", arg kwargs "description");
          ("hostname", arg kwargs "hostname");
          ("machine_type",
           VStr (lit "zones/" ++ format (arg kwargs "zone")
                 ++ lit "/machineTypes/"
                 ++ format (arg kwargs "machine_type")));
          ("network_interfaces",
           VList [VObj "NetworkInterface"
                    [("access_configs",
                      VList [VObj "AccessConfig"
                               [("name", VStr (lit "External NAT"));
                                ("network_tier",
                                 arg kwargs "network_tier")]])]]);
          ("disks",
           VList [VObj "AttachedDisk"
                    [("initialize_params",
                      VObj "AttachedDiskInitializeParams"
                        [("disk_size_gb", arg kwargs "disk_size");
                         ("source_image", arg kwargs "image")]);
                     ("boot", VBool true);
                     ("auto_delete", VBool true)]])])])%res.

(** The lifecycle verbs on one instance share their shape: the three
    identifiers, passed on under the library's names. *)
Definition instance_request (kwargs : gmap string Value) : Request :=
  [("project", arg kwargs "project");
   ("zone", arg kwargs "zone");
   ("instance", arg kwargs "instance_name")].

Definition start_instance (self : GoogleCloudClient)
    (kwargs : gmap string Value) : Res ExtendedOperation :=
  (check_kwargs ["project"; "zone"; "instance_name"] kwargs ;;
   ic <- the_instances_client self ;;
   ic_start ic (instance_request kwargs))%res.

Definition resume_instance (self : GoogleCloudClient)
    (kwargs : gmap string Value) : Res ExtendedOperation :=
  (check_kwargs ["project"; "zone"; "instance_name"] kwargs ;;
   ic <- the_instances_client self ;;
   ic_resume ic (instance_request kwargs))%res.

Definition stop_instance (self : GoogleCloudClient)
    (kwargs : gmap string Value) : Res ExtendedOperation :=
  (check_kwargs ["project"; "zone"; "instance_name"] kwargs ;;
   ic <- the_instances_client self ;;
   ic_stop ic (instance_request kwargs))%res.

Definition suspend_instance (self : GoogleCloudClient)
    (kwargs : gmap string Value) : Res ExtendedOperation :=
  (check_kwargs ["project"; "zone"; "instance_name"] kwargs ;;
   ic <- the_instances_client self ;;
   ic_suspend ic (instance_request kwargs))%res.

Definition delete_instance (self : GoogleCloudClient)
    (kwargs : gmap string Value) : Res ExtendedOperation :=
  (check_kwargs ["project"; "zone"; "instance_name"] kwargs ;;
   ic <- the_instances_client self ;;
   ic_delete ic (instance_request kwargs))%res.

Definition reset_instance (self : GoogleCloudClient)
    (kwargs : gmap string Value) : Res ExtendedOperation :=
  (check_kwargs ["project"; "zone"; "instance_name"] kwargs ;;
   ic <- the_instances_client self ;;
   ic_reset ic (instance_request kwargs))%res.

Definition set_instance_tags (self : GoogleCloudClient)
    (kwargs : gmap string Value) : Res ExtendedOperation :=
  (check_kwargs ["project"; "zone"; "instance_name"; "tags"] kwargs ;;
   ic <- the_instances_client self ;;
   ic_set_tags ic (instance_request kwargs
                   ++ [("tags_resource", arg kwargs "tags")]))%res.

Definition set_instance_metadata (self : GoogleCloudClient)
    (kwargs : gmap string Value) : Res ExtendedOperation :=
  (check_kwargs ["project"; "zone"; "instance_name"; "metadata"] kwargs ;;
   ic <- the_instances_client self ;;
   ic_set_metadata ic (instance_request kwargs
                       ++ [("metadata_resource", arg kwargs "metadata")]))%res.

End Cloud.

(* ===================================================================== *)
(** ** The terminal emulator used by the read loop *)
(* ===================================================================== *)

Module Pyte.

(** Modelled from the spec: the emulator is a library ([pyte]'s [Screen]
    with the [Stream] bound to it, not part of the sources); the read
    loop uses it through four operations.  [State] is everything the pair
    holds between two calls; it consumes its input one character at a
    time, and rendering reads the state (section 4.5). *)
Record Emulator := MkEmulator {
  State : Type;
  initial : State;                 (* Screen(256, 24) and Stream(screen) *)
  step : State -> char -> State;   (* the stream consumes one character *)
  display : State -> list str;     (* screen.display *)
  screen_reset : State -> State    (* screen.reset() *)
}.

(** Modelled from the spec: [stream.feed(data)] consumes the characters
    of [data], first to last, and the state persists from one call to the
    next. *)
Definition feed (E : Emulator) (st : State E) (data : str) : State E :=
  fold_left (step E) data st.

(** Modelled from the spec: the two objects behind the emulator, as
    worker.py builds them: [Screen(256, 24)], then [Stream(screen)].  The
    stream holds the interpreter state (mode, partial accumulator); it
    reads one character at a time and has the screen carry out what the
    character asks for.  The screen holds the cells and the cursor.
    [reset] is a method of the screen: the stream is not reached by it. *)
Record Pair := MkPair {
  Screen : Type;
  Parser : Type;
  new_screen : Screen;             (* Screen(256, 24) *)
  new_parser : Parser;             (* Stream(screen), nothing read yet *)
  parse : Parser -> char -> Parser;
      (* the stream reads one character *)
  draw : Parser -> char -> Screen -> Screen;
      (* what the screen is asked to do for that character *)
  Screen_display : Screen -> list str;   (* screen.display *)
  Screen_reset : Screen -> Screen        (* screen.reset() *)
}.


End Pyte.

(* ===================================================================== *)
(** ** worker.py *)
(* ===================================================================== *)

Module Worker.
Import Cloud Thread.
Local Open Scope thread_scope.

(** *** GoogleCloudWorker and its subclasses *)

Inductive WorkerClass :=
| LoadInstanceListWorker
| LoadInstanceDetailsWorker
| CreateInstanceWorker
| StartInstanceWorker
| ResumeInstanceWorker
| StopInstanceWorker
| SuspendInstanceWorker
| ResetInstanceWorker
| DeleteInstanceWorker
| SetInstanceTagsWorker
| SetInstanceMetadataWorker.

Record GoogleCloudWorker := MkWorker {
  class_of : WorkerClass;
  google_cloud_client : option loc;
  args : gmap string Value
}.

(** [__init__]: [google_cloud_client or GoogleCloudClient.default_client].
    A client object is truthy, [None] is not. *)
Definition init (cls : WorkerClass) (p : Process)
    (google_cloud_client : option loc) : GoogleCloudWorker :=
  MkWorker cls
    (match google_cloud_client with
     | Some c => Some c
     | None => default_client p
     end)
    ∅.

Definition set_args (self : GoogleCloudWorker) (args : gmap string Value)
  : GoogleCloudWorker :=
  MkWorker (class_of self) (google_cloud_client self) args.

(** The object [self.google_cloud_client] refers to.  A reference always
    points to a live object; the attribute may hold [None], and a method
    looked up on [None] is an [AttributeError]. *)
Definition client_of (p : Process) (self : GoogleCloudWorker)
  : Res GoogleCloudClient :=
  match google_cloud_client self ≫= (fun l => objects p !! l) with
  | Some c => Ret c
  | None => Raise (AttributeError "'NoneType' object has no attribute")
  end.

(** [self.google_cloud_client.<method>(...)]. *)
Definition on_client {A} (p : Process) (self : GoogleCloudWorker)
    (method : GoogleCloudClient -> Res A) : Run A :=
  call (res_bind (client_of p self) method).

Definition LoadInstanceListWorker_work (p : Process)
    (self : GoogleCloudWorker) : Run unit :=
  instances <- on_client p self (fun c => list_instances c (args self)) ;;
  emit (completed instances).

Definition LoadInstanceDetailsWorker_work (p : Process)
    (self : GoogleCloudWorker) : Run unit :=
  instance <- on_client p self (fun c => get_instance c (args self)) ;;
  emit (completed instance).

Definition CreateInstanceWorker_work (p : Process)
    (self : GoogleCloudWorker) : Run unit :=
  operation <- on_client p self (fun c => create_instance c (args self)) ;;
  emit created ;;
  on_client p self (fun _ => wait_for_extended_operation operation None) ;;
  emit (completed (VBool true)).

Definition StartInstanceWorker_work (p : Process)
    (self : GoogleCloudWorker) : Run unit :=
  operation <- on_client p self (fun c => start_instance c (args self)) ;;
  emit started ;;
  on_client p self (fun _ => wait_for_extended_operation operation None) ;;
  emit (completed (VBool true)).

Definition ResumeInstanceWorker_work (p : Process)
    (self : GoogleCloudWorker) : Run unit :=
  operation <- on_client p self (fun c => resume_instance c (args self)) ;;
  emit resumed ;;
  on_client p self (fun _ => wait_for_extended_operation operation None) ;;
  emit (completed (VBool true)).

Definition StopInstanceWorker_work (p : Process)
    (self : GoogleCloudWorker) : Run unit :=
  operation <- on_client p self (fun c => stop_instance c (args self)) ;;
  emit stopped ;;
  on_client p self (fun _ => wait_for_extended_operation operation None) ;;
  emit (completed (VBool true)).

Definition SuspendInstanceWorker_work (p : Process)
    (self : GoogleCloudWorker) : Run unit :=
  operation <- on_client p self (fun c => suspend_instance c (args self)) ;;
  emit suspended ;;
  on_client p self (fun _ => wait_for_extended_operation operation None) ;;
  emit (completed (VBool true)).

Definition ResetInstanceWorker_work (p : Process)
    (self : GoogleCloudWorker) : Run unit :=
  operation <- on_client p self (fun c => reset_instance c (args self)) ;;
  emit reset ;;
  on_client p self (fun _ => wait_for_extended_operation operation None) ;;
  emit (completed (VBool true)).

Definition DeleteInstanceWorker_work (p : Process)
    (self : GoogleCloudWorker) : Run unit :=
  operation <- on_client p self (fun c => delete_instance c (args self)) ;;
  emit deleted ;;
  on_client p self (fun _ => wait_for_extended_operation operation None) ;;
  emit (completed (VBool true)).

Definition SetInstanceTagsWorker_work (p : Process)
    (self : GoogleCloudWorker) : Run unit :=
  operation <- on_client p self (fun c => set_instance_tags c (args self)) ;;
  emit set_ ;;
  on_client p self (fun _ => wait_for_extended_operation operation None) ;;
  emit (completed (VBool true)).

Definition SetInstanceMetadataWorker_work (p : Process)
    (self : GoogleCloudWorker) : Run unit :=
  operation <-
    on_client p self (fun c => set_instance_metadata c (args self)) ;;
  emit set_ ;;
  on_client p self (fun _ => wait_for_extended_operation operation None) ;;
  emit (completed (VBool true)).

(** [self.work()]: the method of the object's class. *)
Definition work (p : Process) (self : GoogleCloudWorker) : Run unit :=
  match class_of self with
  | LoadInstanceListWorker => LoadInstanceListWorker_work p self
  | LoadInstanceDetailsWorker => LoadInstanceDetailsWorker_work p self
  | CreateInstanceWorker => CreateInstanceWorker_work p self
  | StartInstanceWorker => StartInstanceWorker_work p self
  | ResumeInstanceWorker => ResumeInstanceWorker_work p self
  | StopInstanceWorker => StopInstanceWorker_work p self
  | SuspendInstanceWorker => SuspendInstanceWorker_work p self
  | ResetInstanceWorker => ResetInstanceWorker_work p self
  | DeleteInstanceWorker => DeleteInstanceWorker_work p self
  | SetInstanceTagsWorker => SetInstanceTagsWorker_work p self
  | SetInstanceMetadataWorker => SetInstanceMetadataWorker_work p self
  end.

(** [except GoogleAPICallError]. *)
Definition is_GoogleAPICallError (e : Exn) : bool :=
  match e with
  | GoogleAPICallError _ => true
  | _ => false
  end.

Definition run (p : Process) (self : GoogleCloudWorker) : Run unit :=
  try_except (work p self) is_GoogleAPICallError
    (fun e => emit (failed e)).

(** *** SSHWorker and its subclasses *)

(** [paramiko.SSHClient], through [connect]. *)
Record SSHClient := MkSSHClient {
  connect : gmap string Value -> Res unit
}.

(** [paramiko.channel.ChannelFile], through [readline]: what the
    successive calls give.  Past the end of the list, and at an empty
    line in it, the stream is at its end and [readline] returns the empty
    [str]. *)
Definition ChannelFile := list (Res str).

Inductive SSHWorker :=
| SSHConnectWorker (ssh_client : option SSHClient)
    (args : gmap string Value)
| SSHReadStdIOWorker (stdio : option ChannelFile)
    (args : gmap string Value).

Definition SSHConnectWorker_work (ssh_client : option SSHClient)
    (args : gmap string Value) : Run unit :=
  call (match ssh_client with
        | Some c => connect c args
        | None => Raise (AttributeError "'NoneType' object has no attribute")
        end) ;;
  emit (completed (VBool true)).

(** The frame sent after a feed: ["\n".join(screen.display).strip()]. *)
Definition frame (E : Pyte.Emulator) (st : Pyte.State E) : str :=
  strip (join [10%N] (Pyte.display E st)).

(** The [while True] loop, by recursion on what is left of the stream. *)
Fixpoint read_loop (E : Pyte.Emulator) (stdio : ChannelFile)
    (st : Pyte.State E) : Run unit :=
  match stdio with
  | [] => ret tt
  | r :: rest =>
      line <- call r ;;
      match line with
      | [] => ret tt
      | _ :: _ =>
          let st' := Pyte.feed E st line in
          emit (received (frame E st')) ;;
          read_loop E rest (Pyte.screen_reset E st')
      end
  end.

Definition SSHReadStdIOWorker_work (E : Pyte.Emulator)
    (stdio : option ChannelFile) : Run unit :=
  match stdio with
  | None =>
      call (Raise (AttributeError "'NoneType' object has no attribute"))
  | Some f => read_loop E f (Pyte.initial E)
  end ;;
  emit (completed (VBool true)).

Definition SSHWorker_work (E : Pyte.Emulator) (self : SSHWorker)
  : Run unit :=
  match self with
  | SSHConnectWorker ssh_client args => SSHConnectWorker_work ssh_client args
  | SSHReadStdIOWorker stdio _ => SSHReadStdIOWorker_work E stdio
  end.

(** [except (socket.error, SSHException)].  [socket.error] is [OSError],
    and the handler catches the subclasses of the classes it names: a
    timeout ([TimeoutError], a subclass of [OSError]) is caught too. *)
Definition is_socket_error_or_SSHException (e : Exn) : bool :=
  match e with
  | socket_error _ | SSHException _ | OperationTimeoutError _ => true
  | _ => false
  end.

Definition SSHWorker_run (E : Pyte.Emulator) (self : SSHWorker) : Run unit :=
  try_except (SSHWorker_work E self) is_socket_error_or_SSHException
    (fun e => emit (failed e)).

End Worker.

(* ===================================================================== *)
(** ** The emulator and the operation handle of the specification *)
(* ===================================================================== *)

Module TerminalEmulator.

(** Modelled from the spec: the TerminalEmulator (the screen and stream
    classes of the emulator library are not part of the sources).  A grid
    of fixed size, a cursor, and the three-state interpreter: Normal,
    EscapeSequenceStart, EscapeSequenceAccumulating.  Display attributes
    of a cell do not show in the rendered text and are left out. *)
Inductive Mode :=
| Normal
| EscapeSequenceStart
| EscapeSequenceAccumulating.

(** Modelled from the spec: the terminal grid (cells, cursor) and the
    interpreter state (mode, partial accumulator) of one emulator. *)
Record t := Mk {
  grid : list (list char);
  row : nat;
  col : nat;
  mode : Mode;
  acc : list char
}.

(** [Screen(256, 24)]: 256 columns, 24 rows. *)
Definition columns : nat := 256.
Definition rows : nat := 24.

Definition blank : char := 32%N.
Definition blank_row : list char := replicate columns blank.

(** Modelled from the spec: a fresh emulator is all blank, its cursor at
    the origin, with no escape state. *)
Definition fresh : t := Mk (replicate rows blank_row) 0 0 Normal [].

(** Modelled from the spec: [reset()] clears all cells to blank, moves the
    cursor to the origin and discards any partially accumulated escape
    state, whatever came before. *)
Definition reset (st : t) : t := fresh.

(** The oldest row is discarded. *)
Definition scroll_up (g : list (list char)) : list (list char) :=
  drop 1 g ++ [blank_row].

Definition line_feed (st : t) : t :=
  if (S (row st) <? rows)%nat
  then Mk (grid st) (S (row st)) (col st) (mode st) (acc st)
  else Mk (scroll_up (grid st)) (row st) (col st) (mode st) (acc st).

(** Write at the cursor and advance; wrap at the column end. *)
Definition put (c : char) (st : t) : t :=
  let g := alter (fun r => <[col st := c]> r) (row st) (grid st) in
  if (S (col st) <? columns)%nat
  then Mk g (row st) (S (col st)) (mode st) (acc st)
  else line_feed (Mk g (row st) 0 (mode st) (acc st)).

(** The parameters of a sequence body: decimal numbers between [;]. *)
Definition is_digit (c : char) : bool := ((48 <=? c) && (c <=? 57))%N.

Fixpoint params_from (body : list char) (cur : nat) : list nat :=
  match body with
  | [] => [cur]
  | c :: body' =>
      if (c =? 59)%N then cur :: params_from body' 0
      else if is_digit c
           then params_from body' (10 * cur + N.to_nat (c - 48))%nat
           else params_from body' cur
  end.

Definition params (body : list char) : list nat := params_from body 0.

Definition param (ps : list nat) (i : nat) : nat := nth i ps 0%nat.

(** Blank the cells of a row with index in [[from, to)]. *)
Definition erase_cells (from to : nat) (r : list char) : list char :=
  imap (fun i c => if ((from <=? i) && (i <? to))%nat then blank else c) r.

Definition erase_in_line (how : nat) (st : t) : list (list char) :=
  let range :=
    match how with
    | 0%nat => (col st, columns)
    | 1%nat => (0%nat, S (col st))
    | _ => (0%nat, columns)
    end in
  alter (erase_cells (fst range) (snd range)) (row st) (grid st).

Definition erase_in_display (how : nat) (st : t) : list (list char) :=
  imap (fun i r =>
          match how with
          | 0%nat => if (row st <? i)%nat then blank_row
                     else if (i =? row st)%nat
                          then erase_cells (col st) columns r else r
          | 1%nat => if (i <? row st)%nat then blank_row
                     else if (i =? row st)%nat
                          then erase_cells 0 (S (col st)) r else r
          | _ => blank_row
          end) (grid st).

(** The effect of a complete sequence: cursor movement, erase in line and
    in display; attribute changes and unrecognised sequences leave grid
    and cursor alone.  The cursor stays inside the grid. *)
Definition apply_sequence (body : list char) (final : char) (st : t) : t :=
  let ps := params body in
  let n := Nat.max 1 (param ps 0) in
  let back g r c := Mk g r c Normal [] in
  if (final =? 65)%N then back (grid st) (row st - n)%nat (col st)
  else if (final =? 66)%N
       then back (grid st) (Nat.min (rows - 1) (row st + n)) (col st)
  else if (final =? 67)%N
       then back (grid st) (row st) (Nat.min (columns - 1) (col st + n))
  else if (final =? 68)%N then back (grid st) (row st) (col st - n)%nat
  else if (final =? 72)%N
       then back (grid st)
                 (Nat.min (rows - 1) (Nat.max 1 (param ps 0) - 1))
                 (Nat.min (columns - 1) (Nat.max 1 (param ps 1) - 1))
  else if (final =? 74)%N
       then back (erase_in_display (param ps 0) st) (row st) (col st)
  else if (final =? 75)%N
       then back (erase_in_line (param ps 0) st) (row st) (col st)
  else back (grid st) (row st) (col st).

(** Modelled from the spec: the transition on one byte.  Normal: a
    printable byte is written, a control byte has its effect, the escape
    byte starts a sequence.  EscapeSequenceStart: the introducer is
    followed by the body.  EscapeSequenceAccumulating: bytes are
    collected up to the terminator, which applies the sequence. *)
Definition step (st : t) (c : char) : t :=
  match mode st with
  | Normal =>
      if (c =? 27)%N
      then Mk (grid st) (row st) (col st) EscapeSequenceStart []
      else if (c =? 13)%N then Mk (grid st) (row st) 0 Normal []
      else if (c =? 10)%N then line_feed st
      else if (c =? 8)%N then Mk (grid st) (row st) (col st - 1) Normal []
      else if ((c <? 32) || (c =? 127))%N then st
      else put c st
  | EscapeSequenceStart =>
      if (c =? 91)%N
      then Mk (grid st) (row st) (col st) EscapeSequenceAccumulating []
      else Mk (grid st) (row st) (col st) Normal []
  | EscapeSequenceAccumulating =>
      if ((64 <=? c) && (c <=? 126))%N
      then apply_sequence (acc st) c st
      else Mk (grid st) (row st) (col st) EscapeSequenceAccumulating
              (acc st ++ [c])
  end.

(** Modelled from the spec: the emulator behind the interface the read
    loop uses ([render()] gives the rows of the grid). *)
Definition emulator : Pyte.Emulator :=
  Pyte.MkEmulator t fresh step grid reset.

(** Modelled from the spec: the same grid and interpreter as the two
    objects of worker.py.  The screen holds the cells and the cursor, the
    stream the mode and the partial accumulator. *)
Record screen := MkScreen {
  cells : list (list char);
  cursor_row : nat;
  cursor_col : nat
}.

Definition stream : Type := Mode * list char.

Definition together (s : screen) (p : stream) : t :=
  Mk (cells s) (cursor_row s) (cursor_col s) (fst p) (snd p).

Definition screen_of (st : t) : screen := MkScreen (grid st) (row st) (col st).
Definition stream_of (st : t) : stream := (mode st, acc st).

Definition blank_screen : screen := screen_of fresh.

(** Modelled from the spec: the transition on one byte, seen from each of
    the two objects; [reset] of the screen clears all cells to blank and
    moves the cursor to the origin, and leaves the stream as it is. *)
Definition pair : Pyte.Pair :=
  Pyte.MkPair screen stream blank_screen (Normal, [])
    (fun p c => stream_of (step (together blank_screen p) c))
    (fun p c s => screen_of (step (together s p) c))
    cells
    (fun _ => blank_screen).

End TerminalEmulator.

Module Waiter.
Import Cloud.

(** Modelled from the spec: the operation handle and the blocking wait of
    the ExtendedOperationWaiter ([operation.result] belongs to the client
    library, which is not part of the sources).  Time is counted in ticks;
    [status_at k] is what the remote system reports at tick [k]. *)
Inductive Status :=
| Pending
| Running
| Done
| Error (e : Exn).

(** Modelled from the spec: the operation handle, a read-only view of the
    status the remote system keeps. *)
Record Handle := MkHandle {
  status_at : nat -> Status
}.

(** Modelled from the spec: the blocking wait.  Look at the handle at
    tick [tick]; while it is not terminal and time is left, wait one tick.
    Returns the tick at which the wait ended and its result: normal
    return on Done, the remote error on Error, the timeout error when the
    time is up. *)
Fixpoint poll (h : Handle) (tick : nat) (left : nat) : nat * Res Value :=
  match status_at h tick with
  | Done => (tick, Ret VNone)
  | Error e => (tick, Raise e)
  | Pending | Running =>
      match left with
      | O => (tick, Raise (OperationTimeoutError "operation did not complete in time"))
      | S left' => poll h (S tick) left'
      end
  end.

(** Modelled from the spec: [wait(handle, timeout)], that is
    [operation.result(timeout=timeout)]. *)
Definition wait (h : Handle) (timeout : Z) : Res Value :=
  snd (poll h 0 (Z.to_nat timeout)).

(** The tick at which [wait] hands control back. *)
Definition blocked_until (h : Handle) (timeout : Z) : nat :=
  fst (poll h 0 (Z.to_nat timeout)).

(** The handle as the [ExtendedOperation] the remote call returns. *)
Definition operation (h : Handle) : ExtendedOperation :=
  MkOperation (wait h).

End Waiter.

(* ===================================================================== *)
(** ** window.py: the connect form of the SSH client window *)
(* ===================================================================== *)

Module Window.

(** [QValidator.State]. *)
Inductive ValidatorState :=
| Invalid
| Intermediate
| Acceptable.

(** [\s] of the regular expression engine: the ASCII white space. *)
Definition regex_space (c : char) : bool :=
  ((9 <=? c) && (c <=? 13) || (c =? 32))%N.

(** [QRegularExpressionValidator(r"^\S+$").validate(text, 0)]. *)
Definition validate (text : str) : ValidatorState :=
  match text with
  | [] => Intermediate
  | _ :: _ =>
      if forallb (fun c => negb (regex_space c)) text
      then Acceptable else Invalid
  end.

(** The widgets of [ConnectPage] the handlers read and write. *)
Record ConnectPage := MkPage {
  input_host : str;
  input_username : str;
  button_password : bool;          (* isChecked() *)
  input_password : str;
  input_password_enabled : bool;
  button_key : bool;               (* isChecked() *)
  input_key : str;
  input_key_enabled : bool;
  button_choose_key_enabled : bool
}.

(** [init_widgets]: the password button is checked, the key input and its
    button are disabled. *)
Definition init_widgets : ConnectPage :=
  MkPage [] [] true [] true false [] false false.

(** [group_auth_clicked], the slot of both buttons' [toggled]. *)
Definition group_auth_clicked (self : ConnectPage) : ConnectPage :=
  MkPage (input_host self) (input_username self)
    (button_password self) (input_password self)
    (if button_password self then true else false)
    (button_key self) (input_key self)
    (if button_key self then true else false)
    (if button_key self then true else false).

(** What the operator can do on the form.  The two radio buttons belong
    to one [QButtonGroup], which is exclusive: a click checks the button
    and unchecks the other one. *)
Inductive Action :=
| TypeHost (text : str)
| TypeUsername (text : str)
| TypePassword (text : str)
| TypeKey (text : str)
| ChooseKey (path : str)           (* button_choose_key_clicked *)
| ClickPassword
| ClickKey.

Definition handle (self : ConnectPage) (a : Action) : ConnectPage :=
  match a with
  | TypeHost text =>
      MkPage text (input_username self)
        (button_password self) (input_password self)
        (input_password_enabled self)
        (button_key self) (input_key self) (input_key_enabled self)
        (button_choose_key_enabled self)
  | TypeUsername text =>
      MkPage (input_host self) text
        (button_password self) (input_password self)
        (input_password_enabled self)
        (button_key self) (input_key self) (input_key_enabled self)
        (button_choose_key_enabled self)
  | TypePassword text =>
      MkPage (input_host self) (input_username self)
        (button_password self)
        (if input_password_enabled self then text else input_password self)
        (input_password_enabled self)
        (button_key self) (input_key self) (input_key_enabled self)
        (button_choose_key_enabled self)
  | TypeKey text =>
      MkPage (input_host self) (input_username self)
        (button_password self) (input_password self)
        (input_password_enabled self)
        (button_key self)
        (if input_key_enabled self then text else input_key self)
        (input_key_enabled self)
        (button_choose_key_enabled self)
  | ChooseKey path =>
      MkPage (input_host self) (input_username self)
        (button_password self) (input_password self)
        (input_password_enabled self)
        (button_key self)
        (if button_choose_key_enabled self
         then match path with [] => input_key self | _ :: _ => path end
         else input_key self)
        (input_key_enabled self)
        (button_choose_key_enabled self)
  | ClickPassword =>
      group_auth_clicked
        (MkPage (input_host self) (input_username self)
           true (input_password self) (input_password_enabled self)
           false (input_key self) (input_key_enabled self)
           (button_choose_key_enabled self))
  | ClickKey =>
      group_auth_clicked
        (MkPage (input_host self) (input_username self)
           false (input_password self) (input_password_enabled self)
           true (input_key self) (input_key_enabled self)
           (button_choose_key_enabled self))
  end.

(** The pages the operator can bring about. *)
Inductive Reachable : ConnectPage -> Prop :=
| reach_init : Reachable init_widgets
| reach_step self a : Reachable self -> Reachable (handle self a).

(** [button_connect_clicked]: [None] when a validator refuses and the
    handler returns with a warning, otherwise the dictionary handed to
    [worker_connect.set_args] before the worker is started. *)
Definition button_connect_clicked (self : ConnectPage)
  : option (gmap string Value) :=
  match validate (input_host self) with
  | Acceptable =>
      match validate (input_username self) with
      | Acceptable =>
          Some (list_to_map
            [("hostname", VStr (input_host self));
             ("username", VStr (input_username self));
             ("password",
              if button_password self
              then VStr (input_password self) else VNone);
             ("key_filename",
              if button_key self then VStr (input_key self) else VNone);
             ("timeout", VInt 5);
             ("banner_timeout", VInt 5);
             ("auth_timeout", VInt 5);
             ("channel_timeout", VInt 5)])
      | _ => None
      end
  | _ => None
  end.

End Window.

(* ===================================================================== *)
(** * Properties *)
(* ===================================================================== *)

Import Cloud Worker Thread Waiter Window.

(** ** Vocabulary of the statements *)

(** *** The read loop *)

(** The frames carried by the [received] signals of a run, in order. *)
Definition received_frames (signals : list Signal) : list str :=
  omap (fun s => match s with received f => Some f | _ => None end) signals.

(** The terminal notifications of a run: [completed] and [failed]. *)
Definition is_terminal (s : Signal) : bool :=
  match s with
  | completed _ | failed _ => true
  | _ => false
  end.

Definition terminal_signals (signals : list Signal) : list Signal :=
  List.filter is_terminal signals.

(** What one pass of the read loop does to the emulator: feed the line,
    then reset the screen. *)
Definition next_screen (E : Pyte.Emulator) (st : Pyte.State E) (line : str)
  : Pyte.State E :=
  Pyte.screen_reset E (Pyte.feed E st line).

(** The emulator as the loop holds it when it reads line number [i]. *)
Definition screen_before (E : Pyte.Emulator) (st : Pyte.State E)
    (lines : list str) (i : nat) : Pyte.State E :=
  fold_left (next_screen E) (take i lines) st.


(** The two chunks of the end-to-end scenario. *)
Definition hello : str := lit "hello" ++ [13%N; 10%N].
Definition world : str := lit "world".






(** The frame the loop sends for line [i] of [lines] when it starts from
    [st]. *)
Definition frame_at (E : Pyte.Emulator) (st : Pyte.State E)
    (lines : list str) (i : nat) (line : str) : str :=
  frame E (Pyte.feed E (screen_before E st lines i) line).

(** The stream is at its end: the next [readline] gives the empty [str],
    either because nothing is left or because the end was reached
    explicitly. *)
Definition at_end (f : ChannelFile) : Prop :=
  match f with
  | [] => True
  | Ret [] :: _ => True
  | _ => False
  end.

(** *** The cloud verb workers *)

(** The nine mutating verbs, with the worker class, the progress signal
    and the client method of each. *)
Inductive Verb :=
| Create | Start | Resume | Stop | Suspend | Reset | Delete
| SetTags | SetMetadata.

Definition worker_class (v : Verb) : WorkerClass :=
  match v with
  | Create => CreateInstanceWorker
  | Start => StartInstanceWorker
  | Resume => ResumeInstanceWorker
  | Stop => StopInstanceWorker
  | Suspend => SuspendInstanceWorker
  | Reset => ResetInstanceWorker
  | Delete => DeleteInstanceWorker
  | SetTags => SetInstanceTagsWorker
  | SetMetadata => SetInstanceMetadataWorker
  end.

Definition submitted (v : Verb) : Signal :=
  match v with
  | Create => created
  | Start => started
  | Resume => resumed
  | Stop => stopped
  | Suspend => suspended
  | Reset => reset
  | Delete => deleted
  | SetTags => set_
  | SetMetadata => set_
  end.

Definition remote_call (v : Verb)
  : GoogleCloudClient -> gmap string Value -> Res ExtendedOperation :=
  match v with
  | Create => create_instance
  | Start => start_instance
  | Resume => resume_instance
  | Stop => stop_instance
  | Suspend => suspend_instance
  | Reset => reset_instance
  | Delete => delete_instance
  | SetTags => set_instance_tags
  | SetMetadata => set_instance_metadata
  end.

(** The first statement of [work]: the call that starts the operation. *)
Definition initiating_call (v : Verb) (p : Process)
    (self : GoogleCloudWorker) : Res ExtendedOperation :=
  res_bind (client_of p self) (fun c => remote_call v c (args self)).

(** Exactly one terminal notification was sent. *)
Definition exactly_one_terminal (r : Run unit) : Prop :=
  length (terminal_signals (emitted r)) = 1%nat.

(** *** Processes and workers of the examples *)

(** A handle that stays pending for ever. *)
Definition never : Waiter.Handle := Waiter.MkHandle (fun _ => Waiter.Pending).

(** A client library whose operation-starting calls all give [op]. *)
Definition client_returning (op : Res ExtendedOperation) : InstancesClient :=
  MkInstancesClient
    (fun _ => Ret (VList [])) (fun _ => Ret VNone)
    (fun _ => op) (fun _ => op) (fun _ => op) (fun _ => op) (fun _ => op)
    (fun _ => op) (fun _ => op) (fun _ => op) (fun _ => op).

(** The process after the import of the module and a successful
    [load_credentials] on the default client, which gave it [ic]. *)
Definition process_with (ic : InstancesClient) : Process :=
  match default_client module_init with
  | Some l =>
      match load_credentials (fun _ => Ret ic) l VNone module_init with
      | Ret p => p
      | Raise _ => module_init
      end
  | None => module_init
  end.

(** The arguments the instance page sets for a verb on one instance. *)
Definition instance_args : gmap string Value :=
  list_to_map [("project", VStr (lit "p")); ("zone", VStr (lit "z"));
               ("instance_name", VStr (lit "vm"))].

(** A start worker built the way the instance page builds it (no client
    argument), with its arguments set. *)
Definition start_worker (p : Process) : GoogleCloudWorker :=
  set_args (init StartInstanceWorker p None) instance_args.

(** A body that sends [completed] last and only on return, and no
    terminal notification before. *)
Definition completes_last (body : Run unit) : Prop :=
  (exists pre value,
      body = MkRun (pre ++ [completed value]) (Ret tt)
      /\ terminal_signals pre = [])
  \/ (exists pre e, body = MkRun pre (Raise e) /\ terminal_signals pre = []).

(** What [run] sends at the end, by the way [work] ended: [completed] on
    return, [failed] on an error of a class the handler names, and nothing
    on any other error, which then leaves [run] as it came. *)
Definition one_terminal_or_uncaught (catches : Exn -> bool)
    (body r : Run unit) : Prop :=
  match outcome body with
  | Ret _ =>
      (exists value,
          terminal_signals (emitted r) = [completed value]
          /\ last (emitted r) = Some (completed value))
      /\ outcome r = Ret tt
  | Raise e =>
      if catches e
      then terminal_signals (emitted r) = [failed e]
           /\ last (emitted r) = Some (failed e)
           /\ outcome r = Ret tt
      else terminal_signals (emitted r) = []
           /\ outcome r = Raise e
  end.

(** The operation never resolves. *)
Definition stuck_process : Process :=
  process_with (client_returning (Ret (Waiter.operation never))).

(** The operation fails on the remote side. *)
Definition quota_error : Exn := GoogleAPICallError "quota exceeded".

Definition failing_operation : ExtendedOperation :=
  MkOperation (fun _ => Raise quota_error).

Definition failing_process : Process :=
  process_with (client_returning (Ret failing_operation)).

(** The initiating call itself fails, and not with an error of the
    client library's own class. *)
Definition transport_error : Exn := OtherException "connection refused".

Definition unreachable_process : Process :=
  process_with (client_returning (Raise transport_error)).

(** The task sends the failure notification for [e] and nothing else. *)
Definition only_failure_notification (e : Exn) (r : Run unit) : Prop :=
  emitted r = [failed e].

(** The operation is done at once. *)
Definition done_operation : ExtendedOperation :=
  MkOperation (fun _ => Ret VNone).

Definition working_process : Process :=
  process_with (client_returning (Ret done_operation)).

(** *** The wait *)

(** The handle is terminal: done, or failed with an error. *)
Definition is_final (s : Status) : bool :=
  match s with
  | Done | Error _ => true
  | Pending | Running => false
  end.

(** Tick [k] is the first one, if any, at which the handle is terminal. *)
Definition not_final_before (h : Handle) (k : nat) : Prop :=
  forall j, (j < k)%nat -> is_final (status_at h j) = false.

(** The error of an expired wait. *)
Definition timeout_error : Exn :=
  OperationTimeoutError "operation did not complete in time".

(** What [wait] gives for a terminal status. *)
Definition result_of (s : Status) : Res Value :=
  match s with
  | Error e => Raise e
  | _ => Ret VNone
  end.

(** The handle of the first end-to-end scenario: running, done after two
    ticks. *)
Definition done_after_two : Handle :=
  MkHandle (fun k => if (k <? 2)%nat then Running else Done).

(** *** The connect form *)

(** The form with host and user name typed in, nothing else touched, and
    the dictionary a click on Connect then submits. *)
Definition filled_page : ConnectPage :=
  handle (handle init_widgets (TypeHost (lit "example.org")))
         (TypeUsername (lit "admin")).

Definition filled_args : gmap string Value :=
  list_to_map
    [("hostname", VStr (lit "example.org"));
     ("username", VStr (lit "admin"));
     ("password", VStr []);
     ("key_filename", VNone);
     ("timeout", VInt 5);
     ("banner_timeout", VInt 5);
     ("auth_timeout", VInt 5);
     ("channel_timeout", VInt 5)].

(** *** Keyword parameters of the client methods *)

(** The parameters of the client method the [work] of each class calls. *)
Definition params_of (cls : WorkerClass) : list string :=
  match cls with
  | LoadInstanceListWorker => ["project"; "zone"]
  | CreateInstanceWorker =>
      ["project"; "zone"; "name"; "description"; "hostname";
       "machine_type"; "network_tier"; "disk_size"; "image"]
  | SetInstanceTagsWorker => ["project"; "zone"; "instance_name"; "tags"]
  | SetInstanceMetadataWorker =>
      ["project"; "zone"; "instance_name"; "metadata"]
  | _ => ["project"; "zone"; "instance_name"]
  end.

(** The arguments name exactly the parameters of the method. *)
Definition keywords_match (self : GoogleCloudWorker) : Prop :=
  dom (args self) = list_to_set (params_of (class_of self)).

Definition no_attribute : Exn :=
  AttributeError "'NoneType' object has no attribute".

Definition bad_keywords : Exn :=
  TypeError "missing or unexpected keyword argument".

(** What [run] sends for a read-only worker, by the result of its one
    call into the library. *)
Definition deliver (r : Res Value) : Run unit :=
  match r with
  | Ret value => MkRun [completed value] (Ret tt)
  | Raise e =>
      if is_GoogleAPICallError e
      then MkRun [failed e] (Ret tt) else MkRun [] (Raise e)
  end.

(* ===================================================================== *)
(** ** widget.py: the spinner *)
(* ===================================================================== *)

Module Widget.

(** The parent widget, as far as the spinner reads and writes it. *)
Record Parent := MkParent {
  parent_width : Z;
  parent_height : Z;
  parent_enabled : bool
}.

(** The spinner: the attributes that [start], [stop], [rotate] and
    [update_position] read or write, with the state Qt keeps for the
    widget (geometry, visibility) and for its timer.  The attributes of
    the drawing (colour, roundness, opacity, revolutions) are floats read
    by the painting only. *)
Record Spinner := MkSpinner {
  parentWidget : option Parent;
  _center_on_parent : bool;
  _disable_parent_when_spinning : bool;
  _number_of_lines : Z;
  _current_counter : Z;
  _is_spinning : bool;
  timer_isActive : bool;
  isVisible : bool;
  x : Z;
  y : Z;
  width : Z;
  height : Z
}.

(** [line_count_distance_from_primary], a static method. *)
Definition line_count_distance_from_primary
    (current primary total_nr_of_lines : Z) : Z :=
  let distance := primary - current in
  if distance <? 0 then distance + total_nr_of_lines else distance.

(** [rotate], the slot of the timer; [self.update()] asks for a repaint
    and changes nothing here. *)
Definition rotate (self : Spinner) : Spinner :=
  let counter := _current_counter self + 1 in
  MkSpinner (parentWidget self) (_center_on_parent self)
    (_disable_parent_when_spinning self) (_number_of_lines self)
    (if counter >=? _number_of_lines self then 0 else counter)
    (_is_spinning self) (timer_isActive self) (isVisible self)
    (x self) (y self) (width self) (height self).

(** [int(a / 2 - b / 2)] on two integers: the halves and their difference
    are exact in floating point for every size a widget can have, and
    [int] truncates towards zero. *)
Definition half_difference (a b : Z) : Z := Z.quot (a - b) 2.

(** [update_position]. *)
Definition update_position (self : Spinner) : Spinner :=
  match parentWidget self with
  | Some parent =>
      if _center_on_parent self
      then MkSpinner (parentWidget self) (_center_on_parent self)
             (_disable_parent_when_spinning self) (_number_of_lines self)
             (_current_counter self) (_is_spinning self)
             (timer_isActive self) (isVisible self)
             (half_difference (parent_width parent) (width self))
             (half_difference (parent_height parent) (height self))
             (width self) (height self)
      else self
  | None => self
  end.

(** [self.parentWidget().setEnabled(enabled)]: on [None] the attribute
    lookup fails. *)
Definition set_parent_enabled (enabled : bool) (self : Spinner)
  : Spinner * Res unit :=
  match parentWidget self with
  | Some parent =>
      (MkSpinner
         (Some (MkParent (parent_width parent) (parent_height parent)
                  enabled))
         (_center_on_parent self) (_disable_parent_when_spinning self)
         (_number_of_lines self) (_current_counter self)
         (_is_spinning self) (timer_isActive self) (isVisible self)
         (x self) (y self) (width self) (height self),
       Ret tt)
  | None =>
      (self, Raise (AttributeError "'NoneType' object has no attribute"))
  end.

(** The last statement of [start] and of [stop]: the timer is switched,
    and the counter set back, only when the timer is not yet in the state
    asked for. *)
Definition switch_timer (active : bool) (self : Spinner) : Spinner :=
  if Bool.eqb (timer_isActive self) active then self
  else MkSpinner (parentWidget self) (_center_on_parent self)
         (_disable_parent_when_spinning self) (_number_of_lines self)
         0 (_is_spinning self) active (isVisible self)
         (x self) (y self) (width self) (height self).

(** [start].  Its test reads [self.parentWidget], the bound method, which
    is true whether or not there is a parent.  The result is the spinner
    as the call leaves it, and how the call ended. *)
Definition start (self : Spinner) : Spinner * Res unit :=
  let s1 := update_position self in
  let s2 := MkSpinner (parentWidget s1) (_center_on_parent s1)
              (_disable_parent_when_spinning s1) (_number_of_lines s1)
              (_current_counter s1) true (timer_isActive s1) true
              (x s1) (y s1) (width s1) (height s1) in
  let '(s3, r) :=
    if _disable_parent_when_spinning s2
    then set_parent_enabled false s2
    else (s2, Ret tt) in
  match r with
  | Ret _ => (switch_timer true s3, Ret tt)
  | Raise e => (s3, Raise e)
  end.

(** [stop].  Its test calls [self.parentWidget()]. *)
Definition stop (self : Spinner) : Spinner * Res unit :=
  let s1 := MkSpinner (parentWidget self) (_center_on_parent self)
              (_disable_parent_when_spinning self) (_number_of_lines self)
              (_current_counter self) false (timer_isActive self) false
              (x self) (y self) (width self) (height self) in
  let '(s2, r) :=
    match parentWidget s1 with
    | Some _ =>
        if _disable_parent_when_spinning s1
        then set_parent_enabled true s1
        else (s1, Ret tt)
    | None => (s1, Ret tt)
    end in
  match r with
  | Ret _ => (switch_timer false s2, Ret tt)
  | Raise e => (s2, Raise e)
  end.

End Widget.

(** *** The spinner *)

(** The spinner with its counter replaced. *)
Definition with_counter (self : Widget.Spinner) (counter : Z)
  : Widget.Spinner :=
  Widget.MkSpinner (Widget.parentWidget self) (Widget._center_on_parent self)
    (Widget._disable_parent_when_spinning self)
    (Widget._number_of_lines self) counter
    (Widget._is_spinning self) (Widget.timer_isActive self)
    (Widget.isVisible self)
    (Widget.x self) (Widget.y self) (Widget.width self) (Widget.height self).

(** A spinner without parent that is set to disable its parent. *)
Definition orphan_spinner : Widget.Spinner :=
  Widget.MkSpinner None true true 20 0 false false false 0 0 40 40.

(** A spinner on a parent of 101 by 80. *)
Definition child_spinner : Widget.Spinner :=
  Widget.MkSpinner (Some (Widget.MkParent 101 80 true)) true true
    20 7 false false false 0 0 40 40.

(* ===================================================================== *)
(** ** dialog.py: the tags dialog *)
(* ===================================================================== *)

Module TagsDialog.

(** [compute_v1.Tags]: the tags and the fingerprint of the set. *)
Record Tags := MkTags {
  items : list str;
  fingerprint : option str
}.

(** The truth value of a message: some field of it is set. *)
Definition Tags_bool (t : Tags) : bool :=
  match items t, fingerprint t with
  | [], None => false
  | _, _ => true
  end.

Record SetInstanceTagsDialog := MkDialog {
  tags : option Tags;
  check_http_server : bool;        (* isChecked() *)
  check_https_server : bool;       (* isChecked() *)
  accepted : bool                  (* accept() was called *)
}.

(** [__init__] and [init_widgets]: no tags yet, both boxes unchecked. *)
Definition init : SetInstanceTagsDialog := MkDialog None false false false.

Definition http_server : str := lit "http-server".
Definition https_server : str := lit "https-server".

(** [x in l]. *)
Definition contains (x : str) (l : list str) : bool := bool_decide (x ∈ l).

(** [l.remove(x)]: the first occurrence goes; [ValueError] if there is
    none. *)
Fixpoint remove_first (x : str) (l : list str) : option (list str) :=
  match l with
  | [] => None
  | y :: l' =>
      if decide (y = x) then Some l'
      else cons y <$> remove_first x l'
  end.

Definition list_remove (x : str) (l : list str) : Res (list str) :=
  match remove_first x l with
  | Some l' => Ret l'
  | None => Raise (OtherException "ValueError: list.remove(x): x not in list")
  end.

(** [update_widgets]. *)
Definition update_widgets (self : SetInstanceTagsDialog)
  : SetInstanceTagsDialog :=
  match tags self with
  | Some t =>
      if Tags_bool t
      then MkDialog (tags self)
             (contains http_server (items t))
             (contains https_server (items t))
             (accepted self)
      else self
  | None => self
  end.

(** [button_set_clicked]: on [None] tags the first attribute lookup
    fails. *)
Definition button_set_clicked (self : SetInstanceTagsDialog)
  : Res SetInstanceTagsDialog :=
  match tags self with
  | None => Raise (AttributeError "'NoneType' object has no attribute")
  | Some t =>
      (items1 <- (if contains http_server (items t)
                  then list_remove http_server (items t)
                  else Ret (items t)) ;;
       items2 <- (if contains https_server items1
                  then list_remove https_server items1
                  else Ret items1) ;;
       let items3 := if check_http_server self
                     then items2 ++ [http_server] else items2 in
       let items4 := if check_https_server self
                     then items3 ++ [https_server] else items3 in
       Ret (MkDialog (Some (MkTags items4 (fingerprint t)))
              (check_http_server self) (check_https_server self) true))%res
  end.

End TagsDialog.

(** *** The tags dialog *)

(** The tags other than the two the dialog manages, in their order. *)
Definition other_tags (l : list str) : list str :=
  List.filter
    (fun s => negb (bool_decide (s = TagsDialog.http_server))
              && negb (bool_decide (s = TagsDialog.https_server))) l.

(** The tags the two check boxes stand for. *)
Definition checked_tags (http https : bool) : list str :=
  (if http then [TagsDialog.http_server] else [])
  ++ (if https then [TagsDialog.https_server] else []).

(** The dialog as the instance page opens it: built, given its copy of
    the tags of the instance, and updated. *)
Definition opened_tags_dialog (t : TagsDialog.Tags)
  : TagsDialog.SetInstanceTagsDialog :=
  TagsDialog.update_widgets
    (TagsDialog.MkDialog (Some t) false false false).

Definition web_tags : TagsDialog.Tags :=
  TagsDialog.MkTags [lit "db"; TagsDialog.http_server; lit "internal"]
    (Some (lit "42WmSpB8rSM=")).

(* ===================================================================== *)
(** ** dialog.py: the metadata dialog *)
(* ===================================================================== *)

Module MetadataDialog.

(** [compute_v1.Metadata]: the [Items] (key and value) and the
    fingerprint. *)
Record Metadata := MkMetadata {
  items : list (str * str);
  fingerprint : option str
}.

(** A [dict] from [str] to [str], in insertion order. *)
Definition Dict := list (str * str).

(** [d[k] = v]: the value of a key already there is replaced in place, a
    new key goes to the end. *)
Fixpoint dict_set (k v : str) (d : Dict) : Dict :=
  match d with
  | [] => [(k, v)]
  | (k', v') :: d' =>
      if decide (k' = k) then (k, v) :: d' else (k', v') :: dict_set k v d'
  end.

(** [d.get(k)]: [None] when [k not in d]. *)
Fixpoint dict_get (k : str) (d : Dict) : option str :=
  match d with
  | [] => None
  | (k', v') :: d' => if decide (k' = k) then Some v' else dict_get k d'
  end.

(** A [QComboBox] that is not editable: the texts of its items and the
    current index ([None] for -1). *)
Record QComboBox := MkCombo {
  texts : list str;
  currentIndex : option nat
}.

Definition currentText (cb : QComboBox) : str :=
  match currentIndex cb with
  | Some i => default [] (texts cb !! i)
  | None => []
  end.

(** [findText]: the index of the first item with that text. *)
Fixpoint findText (text : str) (l : list str) : option nat :=
  match l with
  | [] => None
  | t :: l' => if decide (t = text) then Some O else S <$> findText text l'
  end.

Record SetInstanceMetadataDialog := MkDialog {
  metadata : option Metadata;
  metadata_items : Dict;
  select_key : QComboBox;
  input_value : str;               (* toPlainText() *)
  accepted : bool                  (* accept() was called *)
}.

(** [__init__] and [init_widgets]. *)
Definition init : SetInstanceMetadataDialog :=
  MkDialog None [] (MkCombo [] None) [] false.

Section WithTextEdit.

(** [QTextEdit.setText] guesses the format of the text it is given;
    [as_plain_text v] is what [toPlainText()] gives after [setText(v)]. *)
Variable as_plain_text : str -> str.

Definition input_value_setText (self : SetInstanceMetadataDialog)
    (text : str) : SetInstanceMetadataDialog :=
  MkDialog (metadata self) (metadata_items self) (select_key self)
    (as_plain_text text) (accepted self).

(** [select_key_item_changed], the slot of [currentIndexChanged]. *)
Definition select_key_item_changed (self : SetInstanceMetadataDialog)
  : SetInstanceMetadataDialog :=
  match dict_get (currentText (select_key self)) (metadata_items self) with
  | Some value => input_value_setText self value
  | None => input_value_setText self []
  end.

(** [select_key.setCurrentIndex(i)]: the signal is sent when the index
    changes. *)
Definition select_key_setCurrentIndex (self : SetInstanceMetadataDialog)
    (i : nat) : SetInstanceMetadataDialog :=
  if decide (currentIndex (select_key self) = Some i) then self
  else select_key_item_changed
         (MkDialog (metadata self) (metadata_items self)
            (MkCombo (texts (select_key self)) (Some i))
            (input_value self) (accepted self)).

(** [select_key.addItem(text)]: the first item of an empty box becomes
    the current one. *)
Definition select_key_addItem (self : SetInstanceMetadataDialog)
    (text : str) : SetInstanceMetadataDialog :=
  let added :=
    MkDialog (metadata self) (metadata_items self)
      (MkCombo (texts (select_key self) ++ [text])
         (currentIndex (select_key self)))
      (input_value self) (accepted self) in
  match texts (select_key self), currentIndex (select_key self) with
  | [], None => select_key_setCurrentIndex added 0
  | _, _ => added
  end.

(** [select_key.setCurrentText(text)]. *)
Definition select_key_setCurrentText (self : SetInstanceMetadataDialog)
    (text : str) : SetInstanceMetadataDialog :=
  match findText text (texts (select_key self)) with
  | Some i => select_key_setCurrentIndex self i
  | None => self
  end.

(** One pass of the loop of [update_widgets]. *)
Definition update_item (self : SetInstanceMetadataDialog)
    (item : str * str) : SetInstanceMetadataDialog :=
  select_key_addItem
    (MkDialog (metadata self)
       (dict_set (fst item) (snd item) (metadata_items self))
       (select_key self) (input_value self) (accepted self))
    (fst item).

(** [update_widgets]. *)
Definition update_widgets (self : SetInstanceMetadataDialog)
  : Res SetInstanceMetadataDialog :=
  match metadata self with
  | None => Raise (AttributeError "'NoneType' object has no attribute")
  | Some m => Ret (fold_left update_item (items m) self)
  end.

(** [button_add_key_clicked]; [answer] is the key typed into the add-key
    dialog when that dialog was accepted, [None] when it was not. *)
Definition button_add_key_clicked (self : SetInstanceMetadataDialog)
    (answer : option str) : SetInstanceMetadataDialog :=
  match answer with
  | None => self
  | Some key =>
      let s1 :=
        match dict_get key (metadata_items self) with
        | None =>
            select_key_addItem
              (MkDialog (metadata self)
                 (dict_set key [] (metadata_items self))
                 (select_key self) (input_value self) (accepted self))
              key
        | Some _ => self
        end in
      select_key_setCurrentText s1 key
  end.

(** [button_set_clicked]. *)
Definition button_set_clicked (self : SetInstanceMetadataDialog)
  : Res SetInstanceMetadataDialog :=
  let key := currentText (select_key self) in
  let value := input_value self in
  let metadata_items' :=
    match key with
    | [] => metadata_items self
    | _ :: _ => dict_set key value (metadata_items self)
    end in
  match metadata self with
  | None => Raise (AttributeError "'NoneType' object has no attribute")
  | Some m =>
      Ret (MkDialog (Some (MkMetadata metadata_items' (fingerprint m)))
             metadata_items' (select_key self) (input_value self) true)
  end.

(** What the operator does between opening the dialog and Set: pick an
    item of the box, type into the value field, add a key. *)
Inductive Action :=
| SelectKey (i : nat)
| TypeValue (text : str)
| AddKey (answer : option str).

Definition handle (self : SetInstanceMetadataDialog) (a : Action)
  : SetInstanceMetadataDialog :=
  match a with
  | SelectKey i =>
      if (i <? length (texts (select_key self)))%nat
      then select_key_setCurrentIndex self i else self
  | TypeValue text =>
      MkDialog (metadata self) (metadata_items self) (select_key self)
        text (accepted self)
  | AddKey answer => button_add_key_clicked self answer
  end.

End WithTextEdit.

End MetadataDialog.

(** *** The metadata dialog *)

(** The keys of a [dict], in order. *)
Definition keys (d : MetadataDialog.Dict) : list str := fst <$> d.

(** The keys added in the dialog, each with the empty value. *)
Definition blank_entries (added : list str) : MetadataDialog.Dict :=
  (fun k => (k, [])) <$> added.

(** The box lists the keys of the dictionary, no key twice, and its
    current index, if any, is the index of an item; an empty box has
    none. *)
Definition box_shows_keys (d : MetadataDialog.SetInstanceMetadataDialog)
  : Prop :=
  MetadataDialog.texts (MetadataDialog.select_key d)
  = keys (MetadataDialog.metadata_items d)
  /\ NoDup (keys (MetadataDialog.metadata_items d))
  /\ match MetadataDialog.currentIndex (MetadataDialog.select_key d) with
     | Some i =>
         (i < length (MetadataDialog.texts (MetadataDialog.select_key d)))%nat
     | None => MetadataDialog.texts (MetadataDialog.select_key d) = []
     end.

(** What an action may change in the dictionary: keys are added at the
    end, each with the empty value. *)
Definition only_blank_keys_added
    (d d' : MetadataDialog.SetInstanceMetadataDialog) : Prop :=
  box_shows_keys d'
  /\ MetadataDialog.metadata d' = MetadataDialog.metadata d
  /\ MetadataDialog.accepted d' = MetadataDialog.accepted d
  /\ exists added,
       MetadataDialog.metadata_items d'
       = MetadataDialog.metadata_items d ++ blank_entries added.

(** The dialog as the instance page hands it to [update_widgets]: built,
    and given its copy of the metadata of the instance. *)
Definition metadata_dialog_for (m : MetadataDialog.Metadata)
  : MetadataDialog.SetInstanceMetadataDialog :=
  MetadataDialog.MkDialog (Some m) [] (MetadataDialog.MkCombo [] None)
    [] false.

Definition some_metadata : MetadataDialog.Metadata :=
  MetadataDialog.MkMetadata
    [(lit "ssh-keys", lit "admin:ssh-ed25519 AAAA");
     (lit "startup-script", lit "echo hi")]
    (Some (lit "8vw0Lg=="))
  .

(* ===================================================================== *)
(** ** The regular expressions of the validators *)
(* ===================================================================== *)

Module Regex.

(** The patterns the validators are built from, as syntax trees. *)
Inductive re :=
| Void                         (* matches nothing *)
| Eps                          (* the empty text *)
| Class (p : char -> bool)     (* one character of a class: [a-z], \S *)
| Seq (r1 r2 : re)             (* r1r2 *)
| Alt (r1 r2 : re)             (* r1|r2 *)
| Star (r : re).               (* r* *)

(** [r?], [r+] and [r{0,n}]. *)
Definition Opt (r : re) : re := Alt r Eps.
Definition Plus (r : re) : re := Seq r (Star r).

Fixpoint UpTo (n : nat) (r : re) : re :=
  match n with
  | O => Eps
  | S n' => Opt (Seq r (UpTo n' r))
  end.

(** The whole text matches the pattern. *)
Inductive matches : re -> str -> Prop :=
| matches_eps : matches Eps []
| matches_class p c : p c = true -> matches (Class p) [c]
| matches_seq r1 r2 s1 s2 :
    matches r1 s1 -> matches r2 s2 -> matches (Seq r1 r2) (s1 ++ s2)
| matches_alt_l r1 r2 s : matches r1 s -> matches (Alt r1 r2) s
| matches_alt_r r1 r2 s : matches r2 s -> matches (Alt r1 r2) s
| matches_star_nil r : matches (Star r) []
| matches_star_more r s1 s2 :
    matches r s1 -> matches (Star r) s2 -> matches (Star r) (s1 ++ s2).

(** The matcher: does the pattern match the empty text, and what is left
    of the pattern after one character. *)
Fixpoint nullable (r : re) : bool :=
  match r with
  | Void => false
  | Eps => true
  | Class _ => false
  | Seq r1 r2 => nullable r1 && nullable r2
  | Alt r1 r2 => nullable r1 || nullable r2
  | Star _ => true
  end.

Fixpoint after (c : char) (r : re) : re :=
  match r with
  | Void => Void
  | Eps => Void
  | Class p => if p c then Eps else Void
  | Seq r1 r2 =>
      if nullable r1
      then Alt (Seq (after c r1) r2) (after c r2)
      else Seq (after c r1) r2
  | Alt r1 r2 => Alt (after c r1) (after c r2)
  | Star r' => Seq (after c r') (Star r')
  end.

Definition fullmatch (r : re) (text : str) : bool :=
  nullable (fold_left (fun r' c => after c r') text r).

End Regex.

(** [QRegularExpressionValidator(pattern).validate(text, 0)] gives the
    state [Acceptable]: the whole text matches the pattern. *)
Definition acceptable (pattern : Regex.re) (text : str) : bool :=
  Regex.fullmatch pattern text.

(** The character classes of the patterns. *)
Definition lower (c : char) : bool := ((97 <=? c) && (c <=? 122))%N.
Definition upper (c : char) : bool := ((65 <=? c) && (c <=? 90))%N.
Definition digit (c : char) : bool := ((48 <=? c) && (c <=? 57))%N.

(** [[a-z0-9]] and [[-a-z0-9]]. *)
Definition lower_or_digit (c : char) : bool := lower c || digit c.
Definition label_char (c : char) : bool := (c =? 45)%N || lower c || digit c.

(** [[a-zA-Z0-9_-]]. *)
Definition key_char (c : char) : bool :=
  lower c || upper c || digit c || (c =? 95)%N || (c =? 45)%N.

(** [^[a-z]([-a-z0-9]{0,61}[a-z0-9])?$], the pattern of the instance
    name and of one label of a host name. *)
Definition label_pattern : Regex.re :=
  Regex.Seq (Regex.Class lower)
    (Regex.Opt (Regex.Seq (Regex.UpTo 61 (Regex.Class label_char))
                  (Regex.Class lower_or_digit))).

(** [^label(\.label)+$], the pattern of the host name. *)
Definition hostname_pattern : Regex.re :=
  Regex.Seq label_pattern
    (Regex.Plus (Regex.Seq (Regex.Class (fun c => (c =? 46)%N))
                   label_pattern)).

(** [^[a-zA-Z0-9_-]+$], the pattern of a metadata key. *)
Definition key_pattern : Regex.re := Regex.Plus (Regex.Class key_char).

(** [^\S+$], the pattern of host and user name of the connect form. *)
Definition no_space_pattern : Regex.re :=
  Regex.Plus (Regex.Class (fun c => negb (Window.regex_space c))).

(** *** The rules the warnings of the dialogs state *)

(** "Instance name must start with a lowercase letter followed by up to
    62 lowercase letters, numbers, or hyphens, and cannot end with a
    hyphen."  Also the rule of one label of a host name. *)
Definition name_rule (text : str) : bool :=
  match text with
  | [] => false
  | c :: rest =>
      lower c && (length rest <=? 62)%nat && forallb label_char rest
      && negb (bool_decide (last text = Some 45%N))
  end.

(** [text.split(sep)] for a separator of one character. *)
Fixpoint split (sep : char) (text : str) : list str :=
  match text with
  | [] => [[]]
  | c :: rest =>
      if (c =? sep)%N then [] :: split sep rest
      else match split sep rest with
           | [] => [[c]]
           | piece :: pieces => (c :: piece) :: pieces
           end
  end.

(** The labels of a host name: the pieces between its dots. *)
Definition labels (text : str) : list str := split 46%N text.

(** "Use at least 2 labels", "Separate labels with dots", "Start your
    labels with a letter", "End them with a letter or a digit", "Have
    letters, digits, or a hyphen in between": the rules of the host name
    warning but the one on the length of the whole name. *)
Definition hostname_rule (text : str) : bool :=
  (2 <=? length (labels text))%nat && forallb name_rule (labels text).

(** "Only letters, numbers, underscores(_) and hyphens(-) are allowed." *)
Definition key_rule (text : str) : bool :=
  match text with
  | [] => false
  | _ :: _ => forallb key_char text
  end.

(** A host name of [n + 2] labels [a]. *)
Definition long_hostname (n : nat) : str :=
  Py.join [46%N] (replicate (n + 2) (lit "a")).

(* ===================================================================== *)
(** ** dialog.py: the add-key dialog *)
(* ===================================================================== *)

Module AddKeyDialog.

Record AddKeyDialog := MkDialog {
  input_key : str;
  accepted : bool;                 (* accept() was called *)
  warned : bool                    (* the warning box was shown *)
}.

(** [__init__] and [init_widgets]. *)
Definition init : AddKeyDialog := MkDialog [] false false.

(** [button_add_clicked]. *)
Definition button_add_clicked (self : AddKeyDialog) : AddKeyDialog :=
  if acceptable key_pattern (input_key self)
  then MkDialog (input_key self) true (warned self)
  else MkDialog (input_key self) (accepted self) true.

(** What the operator does in the dialog; it is closed once accepted. *)
Inductive Action :=
| TypeKey (text : str)
| ClickAdd.

Definition handle (self : AddKeyDialog) (a : Action) : AddKeyDialog :=
  if accepted self then self
  else match a with
       | TypeKey text => MkDialog text (accepted self) (warned self)
       | ClickAdd => button_add_clicked self
       end.

(** [dialog.exec()] over what the operator does, and what
    [button_add_key_clicked] reads off the dialog then: the key, when
    [exec()] is true. *)
Definition exec (acts : list Action) : AddKeyDialog :=
  fold_left handle acts init.

Definition answer (self : AddKeyDialog) : option str :=
  if accepted self then Some (input_key self) else None.

End AddKeyDialog.

(* ===================================================================== *)
(** ** dialog.py: the create dialog *)
(* ===================================================================== *)

Module CreateDialog.

(** A [QComboBox] whose items carry user data: text and data of each
    item, and the current index ([None] for -1). *)
Record QComboBox := MkCombo {
  items : list (str * str);
  currentIndex : option nat
}.

(** [addItem(text, data)]: the first item of an empty box becomes the
    current one. *)
Definition addItem (cb : QComboBox) (item : str * str) : QComboBox :=
  MkCombo (items cb ++ [item])
    (match items cb, currentIndex cb with
     | [], None => Some 0%nat
     | _, i => i
     end).

(** [setCurrentIndex(i)]: an index out of range leaves no current item. *)
Definition setCurrentIndex (cb : QComboBox) (i : nat) : QComboBox :=
  MkCombo (items cb)
    (if (i <? length (items cb))%nat then Some i else None).

(** [currentData()]: [None] when there is no current item. *)
Definition currentData (cb : QComboBox) : Value :=
  match currentIndex cb ≫= (fun i => items cb !! i) with
  | Some (_, data) => VStr data
  | None => VNone
  end.

Definition INSTANCE_MACHINE_TYPES : list (str * str) :=
  [(lit "E2 Micro (2 vCPU, 1 core, 1 GB memory)", lit "e2-micro");
   (lit "E2 Small (2 vCPU, 1 core, 2 GB memory)", lit "e2-small");
   (lit "E2 Medium (2 vCPU, 2 core, 4 GB memory)", lit "e2-medium")].

Definition INSTANCE_NETWORK_TIERS : list (str * str) :=
  [(lit "Standard", lit "STANDARD");
   (lit "Premium", lit "PREMIUM")].

Definition INSTANCE_IMAGES : list (str * str) :=
  [(lit "Debian 12",
    lit "projects/debian-cloud/global/images/family/debian-12");
   (lit "Debian 11",
    lit "projects/debian-cloud/global/images/family/debian-11");
   (lit "Debian 10",
    lit "projects/debian-cloud/global/images/family/debian-10")].

(** The warning boxes of [button_create_clicked]. *)
Inductive Warning :=
| InstanceNameInvalid
| HostnameInvalid.

Record CreateInstanceDialog := MkDialog {
  input_instance_name : str;
  input_instance_description : str;
  input_instance_hostname : str;
  input_instance_machine_type : QComboBox;
  input_instance_network_tier : QComboBox;
  input_instance_disk_size : str;
  input_instance_image : QComboBox;
  instance_info : option (gmap string Value);  (* unset until accepted *)
  accepted : bool;                             (* accept() was called *)
  warnings : list Warning                      (* the boxes shown so far *)
}.

Definition init_widgets : CreateInstanceDialog :=
  MkDialog [] [] [] (MkCombo [] None) (MkCombo [] None) (lit "10")
    (MkCombo [] None) None false [].

(** One of the three loops of [update_widgets] and the
    [setCurrentIndex(1)] after it. *)
Definition fill (cb : QComboBox) (table : list (str * str)) : QComboBox :=
  setCurrentIndex (fold_left addItem table cb) 1.

Definition update_widgets (self : CreateInstanceDialog)
  : CreateInstanceDialog :=
  MkDialog (input_instance_name self) (input_instance_description self)
    (input_instance_hostname self)
    (fill (input_instance_machine_type self) INSTANCE_MACHINE_TYPES)
    (fill (input_instance_network_tier self) INSTANCE_NETWORK_TIERS)
    (input_instance_disk_size self)
    (fill (input_instance_image self) INSTANCE_IMAGES)
    (instance_info self) (accepted self) (warnings self).

(** [__init__]. *)
Definition init : CreateInstanceDialog := update_widgets init_widgets.

Definition warning (w : Warning) (self : CreateInstanceDialog)
  : CreateInstanceDialog :=
  MkDialog (input_instance_name self) (input_instance_description self)
    (input_instance_hostname self) (input_instance_machine_type self)
    (input_instance_network_tier self) (input_instance_disk_size self)
    (input_instance_image self) (instance_info self) (accepted self)
    (warnings self ++ [w]).

(** The dictionary display of [button_create_clicked], [disk_size] being
    the value of [int(self.input_instance_disk_size.text())]. *)
Definition info (self : CreateInstanceDialog) (disk_size : Z)
  : gmap string Value :=
  list_to_map
    [("name", VStr (input_instance_name self));
     ("description", VStr (input_instance_description self));
     ("hostname",
      match input_instance_hostname self with
      | [] => VNone
      | _ :: _ => VStr (input_instance_hostname self)
      end);
     ("machine_type", currentData (input_instance_machine_type self));
     ("network_tier", currentData (input_instance_network_tier self));
     ("disk_size", VInt disk_size);
     ("image", currentData (input_instance_image self))].

Section WithInt.

(** The built-in [int] on a text: the number, or the error it raises. *)
Variable int_ : str -> Res Z.

(** [button_create_clicked]. *)
Definition button_create_clicked (self : CreateInstanceDialog)
  : Res CreateInstanceDialog :=
  if negb (acceptable label_pattern (input_instance_name self))
  then Ret (warning InstanceNameInvalid self)
  else
    if match input_instance_hostname self with
       | [] => false
       | _ :: _ =>
           negb (acceptable hostname_pattern (input_instance_hostname self))
       end
    then Ret (warning HostnameInvalid self)
    else
      (disk_size <- int_ (input_instance_disk_size self) ;;
       Ret (MkDialog (input_instance_name self)
              (input_instance_description self)
              (input_instance_hostname self)
              (input_instance_machine_type self)
              (input_instance_network_tier self)
              (input_instance_disk_size self)
              (input_instance_image self)
              (Some (info self disk_size)) true (warnings self)))%res.

(** What the operator does in the dialog: type into a field (any text;
    the validators of the fields let fewer texts through), pick an item
    of a box, click Create. *)
Inductive Action :=
| TypeName (text : str)
| TypeDescription (text : str)
| TypeHostname (text : str)
| TypeDiskSize (text : str)
| PickMachineType (i : nat)
| PickNetworkTier (i : nat)
| PickImage (i : nat)
| ClickCreate.

Definition pick (cb : QComboBox) (i : nat) : QComboBox :=
  if (i <? length (items cb))%nat then setCurrentIndex cb i else cb.

(** One action on the open dialog.  The dialog is closed once accepted.
    An error that leaves the slot of the button is reported by the
    binding and the event loop goes on: the dialog stays as it was. *)
Definition handle (self : CreateInstanceDialog) (a : Action)
  : CreateInstanceDialog :=
  if accepted self then self
  else
    match a with
    | TypeName text =>
        MkDialog text (input_instance_description self)
          (input_instance_hostname self) (input_instance_machine_type self)
          (input_instance_network_tier self) (input_instance_disk_size self)
          (input_instance_image self) (instance_info self) (accepted self)
          (warnings self)
    | TypeDescription text =>
        MkDialog (input_instance_name self) text
          (input_instance_hostname self) (input_instance_machine_type self)
          (input_instance_network_tier self) (input_instance_disk_size self)
          (input_instance_image self) (instance_info self) (accepted self)
          (warnings self)
    | TypeHostname text =>
        MkDialog (input_instance_name self)
          (input_instance_description self) text
          (input_instance_machine_type self)
          (input_instance_network_tier self) (input_instance_disk_size self)
          (input_instance_image self) (instance_info self) (accepted self)
          (warnings self)
    | TypeDiskSize text =>
        MkDialog (input_instance_name self)
          (input_instance_description self) (input_instance_hostname self)
          (input_instance_machine_type self)
          (input_instance_network_tier self) text
          (input_instance_image self) (instance_info self) (accepted self)
          (warnings self)
    | PickMachineType i =>
        MkDialog (input_instance_name self)
          (input_instance_description self) (input_instance_hostname self)
          (pick (input_instance_machine_type self) i)
          (input_instance_network_tier self) (input_instance_disk_size self)
          (input_instance_image self) (instance_info self) (accepted self)
          (warnings self)
    | PickNetworkTier i =>
        MkDialog (input_instance_name self)
          (input_instance_description self) (input_instance_hostname self)
          (input_instance_machine_type self)
          (pick (input_instance_network_tier self) i)
          (input_instance_disk_size self)
          (input_instance_image self) (instance_info self) (accepted self)
          (warnings self)
    | PickImage i =>
        MkDialog (input_instance_name self)
          (input_instance_description self) (input_instance_hostname self)
          (input_instance_machine_type self)
          (input_instance_network_tier self) (input_instance_disk_size self)
          (pick (input_instance_image self) i)
          (instance_info self) (accepted self) (warnings self)
    | ClickCreate =>
        match button_create_clicked self with
        | Ret self' => self'
        | Raise _ => self
        end
    end.

(** The dialog when [exec()] returns, after what the operator did. *)
Definition exec (acts : list Action) : CreateInstanceDialog :=
  fold_left handle acts init.

End WithInt.

End CreateDialog.

(* ===================================================================== *)
(** ** page.py: the argument dictionaries of the instance page *)
(* ===================================================================== *)

Module Page.

(** [compute_v1.Instance], as far as the handlers read it. *)
Record Instance := MkInstance {
  name : str;
  tags : TagsDialog.Tags;
  metadata : MetadataDialog.Metadata
}.

Record InstancePage := MkPage {
  project_id : Value;              (* self.parent.project_id: str | None *)
  zone_id : Value;                 (* str | None *)
  instance : option Instance;
  currentItem : option str         (* list_instances.currentItem().text() *)
}.

(** The messages of the dialogs as argument values. *)
Definition Tags_value (t : option TagsDialog.Tags) : Value :=
  match t with
  | None => VNone
  | Some t =>
      VObj "Tags"
        [("items", VList (VStr <$> TagsDialog.items t));
         ("fingerprint",
          from_option VStr VNone (TagsDialog.fingerprint t))]
  end.

Definition Metadata_value (m : option MetadataDialog.Metadata) : Value :=
  match m with
  | None => VNone
  | Some m =>
      VObj "Metadata"
        [("items",
          VList ((fun kv : str * str =>
                    VObj "Items" [("key", VStr kv.1); ("value", VStr kv.2)])
                 <$> MetadataDialog.items m));
         ("fingerprint",
          from_option VStr VNone (MetadataDialog.fingerprint m))]
  end.

(** What a handler does with a worker: the class of the worker it
    starts and the dictionary it hands to [set_args] before; [None] when
    the handler returns without starting one. *)
Definition Started := option (WorkerClass * gmap string Value).

(** [self.instance.name]. *)
Definition instance_name (self : InstancePage) : Res Value :=
  match instance self with
  | Some i => Ret (VStr (name i))
  | None => Raise (AttributeError "'NoneType' object has no attribute")
  end.

Definition button_list_instances_clicked (self : InstancePage) : Started :=
  Some (LoadInstanceListWorker,
        list_to_map [("project", project_id self);
                     ("zone", zone_id self)]).

Definition list_instances_item_changed (self : InstancePage) : Started :=
  match currentItem self with
  | Some text =>
      Some (LoadInstanceDetailsWorker,
            list_to_map [("project", project_id self);
                         ("zone", zone_id self);
                         ("instance_name", VStr text)])
  | None => None
  end.

(** The handlers of the six verbs on the instance shown build the same
    dictionary. *)
Definition on_instance (cls : WorkerClass) (self : InstancePage)
  : Res Started :=
  (instance_name <- instance_name self ;;
   Ret (Some (cls,
              list_to_map [("project", project_id self);
                           ("zone", zone_id self);
                           ("instance_name", instance_name)])))%res.

Definition button_start_instance_clicked (self : InstancePage)
  : Res Started :=
  on_instance StartInstanceWorker self.

Definition button_resume_instance_clicked (self : InstancePage)
  : Res Started :=
  on_instance ResumeInstanceWorker self.

(** [yes]: the answer to the question box was Yes. *)
Definition button_stop_instance_clicked (self : InstancePage) (yes : bool)
  : Res Started :=
  if yes then on_instance StopInstanceWorker self else Ret None.

Definition button_suspend_instance_clicked (self : InstancePage)
    (yes : bool) : Res Started :=
  if yes then on_instance SuspendInstanceWorker self else Ret None.

Definition button_reset_instance_clicked (self : InstancePage) (yes : bool)
  : Res Started :=
  if yes then on_instance ResetInstanceWorker self else Ret None.

Definition button_delete_instance_clicked (self : InstancePage)
    (yes : bool) : Res Started :=
  if yes then on_instance DeleteInstanceWorker self else Ret None.

(** [button_create_instance_clicked]; [dialog] is the create dialog when
    its [exec()] returns.  The entries of [instance_info] come last in
    the dictionary display and so win over the two before them. *)
Definition button_create_instance_clicked (self : InstancePage)
    (dialog : CreateDialog.CreateInstanceDialog) : Res Started :=
  if CreateDialog.accepted dialog
  then
    match CreateDialog.instance_info dialog with
    | Some instance_info =>
        Ret (Some (CreateInstanceWorker,
                   instance_info
                   ∪ list_to_map [("project", project_id self);
                                  ("zone", zone_id self)]))
    | None =>
        Raise (AttributeError
                 "'CreateInstanceDialog' object has no attribute")
    end
  else Ret None.

(** [button_set_instance_tags_clicked]; [operate] is what happens to the
    dialog between its opening and the return of its [exec()]. *)
Definition button_set_instance_tags_clicked (self : InstancePage)
    (operate : TagsDialog.SetInstanceTagsDialog
               -> TagsDialog.SetInstanceTagsDialog) : Res Started :=
  match instance self with
  | None => Raise (AttributeError "'NoneType' object has no attribute")
  | Some i =>
      let dialog :=
        operate
          (TagsDialog.update_widgets
             (TagsDialog.MkDialog (Some (tags i)) false false false)) in
      if TagsDialog.accepted dialog
      then Ret (Some (SetInstanceTagsWorker,
                      list_to_map
                        [("project", project_id self);
                         ("zone", zone_id self);
                         ("instance_name", VStr (name i));
                         ("tags", Tags_value (TagsDialog.tags dialog))]))
      else Ret None
  end.

(** [button_set_instance_metadata_clicked]; [operate] takes the dialog
    from after its [update_widgets] to the return of its [exec()]. *)
Definition button_set_instance_metadata_clicked
    (update_widgets : MetadataDialog.SetInstanceMetadataDialog
                      -> Res MetadataDialog.SetInstanceMetadataDialog)
    (self : InstancePage)
    (operate : MetadataDialog.SetInstanceMetadataDialog
               -> MetadataDialog.SetInstanceMetadataDialog) : Res Started :=
  match instance self with
  | None => Raise (AttributeError "'NoneType' object has no attribute")
  | Some i =>
      (opened <- update_widgets
                   (MetadataDialog.MkDialog (Some (metadata i)) []
                      (MetadataDialog.MkCombo [] None) [] false) ;;
       let dialog := operate opened in
       if MetadataDialog.accepted dialog
       then Ret (Some (SetInstanceMetadataWorker,
                       list_to_map
                         [("project", project_id self);
                          ("zone", zone_id self);
                          ("instance_name", VStr (name i));
                          ("metadata",
                           Metadata_value
                             (MetadataDialog.metadata dialog))]))
       else Ret None)%res
  end.

End Page.

(** *** The handlers of the instance page *)

(** The handlers that start a worker, with what the operator answers or
    does in the dialog a handler opens. *)
Inductive Handler :=
| ListInstances
| ItemChanged
| CreateInstance (acts : list CreateDialog.Action)
| StartInstance
| ResumeInstance
| StopInstance (yes : bool)
| SuspendInstance (yes : bool)
| ResetInstance (yes : bool)
| DeleteInstance (yes : bool)
| SetInstanceTags (operate : TagsDialog.SetInstanceTagsDialog
                     -> TagsDialog.SetInstanceTagsDialog)
| SetInstanceMetadata (operate : MetadataDialog.SetInstanceMetadataDialog
                         -> MetadataDialog.SetInstanceMetadataDialog).

Definition clicked (int_ : str -> Res Z) (as_plain_text : str -> str)
    (self : Page.InstancePage) (h : Handler) : Res Page.Started :=
  match h with
  | ListInstances => Ret (Page.button_list_instances_clicked self)
  | ItemChanged => Ret (Page.list_instances_item_changed self)
  | CreateInstance acts =>
      Page.button_create_instance_clicked self (CreateDialog.exec int_ acts)
  | StartInstance => Page.button_start_instance_clicked self
  | ResumeInstance => Page.button_resume_instance_clicked self
  | StopInstance yes => Page.button_stop_instance_clicked self yes
  | SuspendInstance yes => Page.button_suspend_instance_clicked self yes
  | ResetInstance yes => Page.button_reset_instance_clicked self yes
  | DeleteInstance yes => Page.button_delete_instance_clicked self yes
  | SetInstanceTags operate => Page.button_set_instance_tags_clicked self operate
  | SetInstanceMetadata operate =>
      Page.button_set_instance_metadata_clicked
        (MetadataDialog.update_widgets as_plain_text) self operate
  end.

(** The worker of a class as [init_workers] builds it (no client
    argument), with the arguments a handler set. *)
Definition page_worker (p : Process) (cls : WorkerClass)
    (args : gmap string Value) : GoogleCloudWorker :=
  set_args (init cls p None) args.

(** A page with an instance shown, and a session of the create dialog. *)
Definition some_page : Page.InstancePage :=
  Page.MkPage (VStr (lit "my-project")) (VStr (lit "asia-east1-a"))
    (Some (Page.MkInstance (lit "vm-1") web_tags some_metadata))
    (Some (lit "vm-1")).

Definition ascii_int (text : str) : Res Z :=
  if decide (text = lit "10") then Ret 10
  else Raise (OtherException "ValueError: invalid literal for int()").

Definition create_session : list CreateDialog.Action :=
  [CreateDialog.TypeName (lit "web-1");
   CreateDialog.TypeHostname (lit "web-1.example.org");
   CreateDialog.ClickCreate].

(** *** The create dialog *)

(** The box shows the table and one of its items is the current one. *)
Definition shows_table (table : list (str * str))
    (cb : CreateDialog.QComboBox) : Prop :=
  CreateDialog.items cb = table
  /\ exists i, CreateDialog.currentIndex cb = Some i
               /\ (i < length table)%nat.

(** What holds of the create dialog whatever the operator did: the boxes
    show their tables; once accepted, the name and the host name follow
    their rules and the dictionary is the one of the fields as they are;
    before, there is no dictionary. *)
Definition create_dialog_invariant (int_ : str -> Res Z)
    (d : CreateDialog.CreateInstanceDialog) : Prop :=
  shows_table CreateDialog.INSTANCE_MACHINE_TYPES
    (CreateDialog.input_instance_machine_type d)
  /\ shows_table CreateDialog.INSTANCE_NETWORK_TIERS
       (CreateDialog.input_instance_network_tier d)
  /\ shows_table CreateDialog.INSTANCE_IMAGES
       (CreateDialog.input_instance_image d)
  /\ if CreateDialog.accepted d
     then name_rule (CreateDialog.input_instance_name d) = true
          /\ (CreateDialog.input_instance_hostname d = []
              \/ hostname_rule (CreateDialog.input_instance_hostname d)
                 = true)
          /\ exists z,
               int_ (CreateDialog.input_instance_disk_size d) = Ret z
               /\ CreateDialog.instance_info d
                  = Some (CreateDialog.info d z)
     else CreateDialog.instance_info d = None.

(** The arguments the page sets after [create_session] on [some_page]. *)
Definition create_args : gmap string Value :=
  list_to_map
    [("project", VStr (lit "my-project"));
     ("zone", VStr (lit "asia-east1-a"));
     ("name", VStr (lit "web-1"));
     ("description", VStr []);
     ("hostname", VStr (lit "web-1.example.org"));
     ("machine_type", VStr (lit "e2-small"));
     ("network_tier", VStr (lit "PREMIUM"));
     ("disk_size", VInt 10);
     ("image",
      VStr (lit "projects/debian-cloud/global/images/family/debian-11"))].

(* ===================================================================== *)
(** ** menu.py: the tool windows of the menu bar *)
(* ===================================================================== *)

Module Menu.

(** The classes of window.py the menu bar builds. *)
Inductive WindowClass :=
| SSHClientWindow
| SSHKeygenWindow.

#[global] Instance WindowClass_eq_dec : EqDecision WindowClass.
Proof. solve_decision. Defined.

(** An attribute that [__init__] does not set: missing ([hasattr] is
    false), [None], or a window. *)
Inductive Attribute :=
| Missing
| IsNone
| Object (window : nat).

Record MenuBar := MkMenuBar {
  window_ssh : Attribute;
  window_ssh_keygen : Attribute;
  created : list WindowClass;      (* window [w] is the [w]-th built *)
  shown : list nat                 (* the windows on the screen *)
}.

Definition init : MenuBar := MkMenuBar Missing Missing [] [].

(** [window.show()]. *)
Definition show (w : nat) (shown : list nat) : list nat :=
  if bool_decide (w ∈ shown) then shown else shown ++ [w].

(** [show_ssh_client_window]. *)
Definition show_ssh_client_window (self : MenuBar) : MenuBar :=
  match window_ssh self with
  | Object _ => self
  | _ =>
      let w := length (created self) in
      MkMenuBar (Object w) (window_ssh_keygen self)
        (created self ++ [SSHClientWindow]) (show w (shown self))
  end.

(** [show_ssh_keygen_window]. *)
Definition show_ssh_keygen_window (self : MenuBar) : MenuBar :=
  match window_ssh_keygen self with
  | Object w =>
      MkMenuBar (window_ssh self) (Object w) (created self)
        (show w (shown self))
  | _ =>
      let w := length (created self) in
      MkMenuBar (window_ssh self) (Object w)
        (created self ++ [SSHKeygenWindow]) (show w (shown self))
  end.

(** [closeEvent] of window [w]: [closed] is sent, the function connected
    to it sets the attribute of the menu bar to [None], and the window
    leaves the screen. *)
Definition closeEvent (self : MenuBar) (w : nat) : MenuBar :=
  match created self !! w with
  | Some SSHClientWindow =>
      MkMenuBar IsNone (window_ssh_keygen self) (created self)
        (List.filter (fun w' => negb (w' =? w)%nat) (shown self))
  | Some SSHKeygenWindow =>
      MkMenuBar (window_ssh self) IsNone (created self)
        (List.filter (fun w' => negb (w' =? w)%nat) (shown self))
  | None => self
  end.

(** What the operator does: the two entries of the Tools menu, and the
    closing of a window that is on the screen. *)
Inductive Action :=
| ToolsSSH
| ToolsSSHKeygen
| CloseWindow (w : nat).

Definition handle (self : MenuBar) (a : Action) : MenuBar :=
  match a with
  | ToolsSSH => show_ssh_client_window self
  | ToolsSSHKeygen => show_ssh_keygen_window self
  | CloseWindow w =>
      if bool_decide (w ∈ shown self) then closeEvent self w else self
  end.

End Menu.

(** *** The tool windows *)

(** The attribute of the menu bar for a class of window. *)
Definition attribute_of (cls : Menu.WindowClass) (m : Menu.MenuBar)
  : Menu.Attribute :=
  match cls with
  | Menu.SSHClientWindow => Menu.window_ssh m
  | Menu.SSHKeygenWindow => Menu.window_ssh_keygen m
  end.

(** The windows of a class that are on the screen. *)
Definition on_screen (cls : Menu.WindowClass) (m : Menu.MenuBar)
  : list nat :=
  List.filter (fun w => bool_decide (Menu.created m !! w = Some cls))
    (Menu.shown m).

(** The windows are on the screen exactly as the attributes say. *)
Definition menu_invariant (m : Menu.MenuBar) : Prop :=
  (forall cls,
      on_screen cls m
      = match attribute_of cls m with
        | Menu.Object w => [w]
        | _ => []
        end)
  /\ (forall cls w,
        attribute_of cls m = Menu.Object w ->
        Menu.created m !! w = Some cls)
  /\ (forall w, w ∈ Menu.shown m -> (w < length (Menu.created m))%nat).

(* ===================================================================== *)
(** ** page.py: the texts [load_instance_details] cuts out of URLs *)
(* ===================================================================== *)

Module Details.

(** [url.split("/")[-1]], the text shown for the zone, the machine type,
    the network and the subnetwork. *)
Definition last_component (url : str) : str :=
  default [] (last (split 47%N url)).

(** ["/".join(licence.split("/")[5:])], the text shown for the image. *)
Definition image_of (licence : str) : str :=
  Py.join [47%N] (drop 5 (split 47%N licence)).

End Details.

(** The number of slashes of a text. *)
Definition slashes (text : str) : nat :=
  length (List.filter (fun c => (c =? 47)%N) text).

(* ===================================================================== *)
(** * Lemmas and theorems *)
(* ===================================================================== *)

(** ** Trimming *)








(** ** The read loop *)

Section ReadLoop.
Variable E : Pyte.Emulator.

Lemma screen_before_0 (st : Pyte.State E) (lines : list str) :
  screen_before E st lines 0 = st.
Proof. reflexivity. Qed.

Lemma screen_before_S (st : Pyte.State E) (l : str) (ls : list str) (i : nat) :
  screen_before E st (l :: ls) (S i)
  = screen_before E (next_screen E st l) ls i.
Proof. reflexivity. Qed.

(** A stream of non-empty lines followed by the end of file: one frame
    per line, then the loop is left normally. *)
Lemma read_loop_lines (lines : list str) (tail : ChannelFile) :
  at_end tail ->
  Forall (fun l => l <> []) lines ->
  forall st : Pyte.State E,
    read_loop E ((Ret <$> lines) ++ tail) st
    = MkRun (received <$> imap (frame_at E st lines) lines) (Ret tt).
Proof.
  intros Hend. induction 1 as [|l ls Hl _ IH]; intros st.
  - destruct tail as [|[[|c l]|e] tail']; try contradiction; reflexivity.
  - destruct l as [|c l]; [congruence |].
    cbn [fmap list_fmap read_loop app].
    unfold bind, call, emit. cbn [outcome emitted].
    fold (@fmap list _ _ _ (@Ret str) ls).
    rewrite IH. reflexivity.
Qed.

Lemma received_frames_received (fs : list str) (rest : list Signal) :
  received_frames ((received <$> fs) ++ rest) = fs ++ received_frames rest.
Proof.
  induction fs as [|f fs IH]; [reflexivity |].
  change (f :: received_frames ((received <$> fs) ++ rest)
          = f :: fs ++ received_frames rest).
  f_equal. exact IH.
Qed.

Lemma run_read_lines (lines : list str) (tail : ChannelFile)
    (args : gmap string Value) :
  at_end tail ->
  Forall (fun l => l <> []) lines ->
  SSHWorker_run E (SSHReadStdIOWorker (Some ((Ret <$> lines) ++ tail)) args)
  = MkRun ((received <$> imap (frame_at E (Pyte.initial E) lines) lines)
           ++ [completed (VBool true)]) (Ret tt).
Proof.
  intros Hend Hne.
  unfold SSHWorker_run, SSHWorker_work, SSHReadStdIOWorker_work.
  rewrite (read_loop_lines lines tail Hend Hne).
  reflexivity.
Qed.

End ReadLoop.

(** ** C1: chunk-invariance *)

(** What the read loop sends for the two chunks of the scenario. *)
Example scenario_C_in_the_loop :
  emitted (SSHWorker_run TerminalEmulator.emulator
             (SSHReadStdIOWorker (Some [Ret hello; Ret world]) ∅))
  = [received (lit "hello"); received (lit "world"); completed (VBool true)].
Proof. vm_compute. reflexivity. Qed.


(** *** The screen and the stream in the loop *)

Section ScreenAndStream.
Variable P : Pyte.Pair.










End ScreenAndStream.

(** The transition of the emulator of the specification, seen from the
    screen and from the stream: the stream moves on whatever the screen
    holds. *)
Lemma pair_step (s : TerminalEmulator.screen) (p : TerminalEmulator.stream)
    (c : char) :
  TerminalEmulator.step (TerminalEmulator.together s p) c
  = TerminalEmulator.together
      (Pyte.draw TerminalEmulator.pair p c s)
      (Pyte.parse TerminalEmulator.pair p c).
Proof.
  destruct s as [g r k], p as [m a].
  unfold TerminalEmulator.together, TerminalEmulator.pair.
  cbn [Pyte.draw Pyte.parse TerminalEmulator.cells
       TerminalEmulator.cursor_row TerminalEmulator.cursor_col fst snd].
  unfold TerminalEmulator.step, TerminalEmulator.screen_of,
    TerminalEmulator.stream_of, TerminalEmulator.together,
    TerminalEmulator.apply_sequence, TerminalEmulator.put,
    TerminalEmulator.line_feed.
  cbn [TerminalEmulator.mode TerminalEmulator.acc TerminalEmulator.grid
       TerminalEmulator.row TerminalEmulator.col fst snd
       TerminalEmulator.cells TerminalEmulator.cursor_row
       TerminalEmulator.cursor_col TerminalEmulator.blank_screen
       TerminalEmulator.fresh].
  destruct m;
    repeat match goal with
           | |- context [if ?b then _ else _] => destruct b
           end;
    reflexivity.
Qed.



(** ** C6: the rendered frame *)




(** ** C7: one frame per line, in order, then the completion *)

(** C7. For a stream that gives the non-empty lines [lines] and is then
    at its end, the run sends exactly one frame per line, frame number [i]
    being the rendering after line number [i] was fed, and the [completed]
    signal is the last thing sent. *)
Theorem C7_frames_in_order_then_completed
    (E : Pyte.Emulator) (lines : list str) (tail : ChannelFile)
    (args : gmap string Value) :
  Forall (fun l => l <> []) lines ->
  at_end tail ->
  let r := SSHWorker_run E
             (SSHReadStdIOWorker (Some ((Ret <$> lines) ++ tail)) args) in
  outcome r = Ret tt
  /\ emitted r
     = (received <$> received_frames (emitted r)) ++ [completed (VBool true)]
  /\ length (received_frames (emitted r)) = length lines
  /\ forall i line,
       lines !! i = Some line ->
       received_frames (emitted r) !! i
       = Some (frame E (Pyte.feed E
                          (screen_before E (Pyte.initial E) lines i) line)).
Proof.
  intros Hne Hend r. subst r.
  rewrite (run_read_lines E lines tail args Hend Hne).
  cbn [outcome emitted].
  rewrite received_frames_received. cbn [received_frames omap list_omap].
  rewrite app_nil_r.
  repeat split.
  - apply length_imap.
  - intros i line Hi. rewrite list_lookup_imap, Hi. reflexivity.
Qed.

Lemma C7_witness :
  Forall (fun l => l <> []) [hello; world]
  /\ at_end [Ret []]
  /\ outcome (SSHWorker_run TerminalEmulator.emulator
                (SSHReadStdIOWorker
                   (Some ((Ret <$> [hello; world]) ++ [Ret []])) ∅))
     = Ret tt.
Proof.
  assert (Hne : Forall (fun l : str => l <> []) [hello; world])
    by (repeat constructor; discriminate).
  assert (Hend : at_end [Ret []]) by exact I.
  split; [exact Hne |]. split; [exact Hend |].
  exact (proj1 (C7_frames_in_order_then_completed
                  TerminalEmulator.emulator [hello; world] [Ret []] ∅
                  Hne Hend)).
Defined.

(** ** C10: what carries over from one frame to the next *)





(** ** The cloud verb workers *)

Section CloudRun.
Variables (p : Process) (self : GoogleCloudWorker).

(** The body of a mutating worker, whatever the verb. *)
Lemma work_mutating (v : Verb) :
  class_of self = worker_class v ->
  work p self
  = (operation <- call (initiating_call v p self) ;;
     emit (submitted v) ;;
     on_client p self (fun _ => wait_for_extended_operation operation None) ;;
     emit (completed (VBool true)))%thread.
Proof.
  intros Hcls. unfold work. rewrite Hcls. destruct v; reflexivity.
Qed.

(** What [run] sends and how it ends, by the outcome of the two
    collaborator calls. *)
Lemma run_mutating (v : Verb) :
  class_of self = worker_class v ->
  run p self
  = match initiating_call v p self with
    | Raise e =>
        if is_GoogleAPICallError e
        then MkRun [failed e] (Ret tt) else MkRun [] (Raise e)
    | Ret operation =>
        match result operation 300 with
        | Ret _ => MkRun [submitted v; completed (VBool true)] (Ret tt)
        | Raise e =>
            if is_GoogleAPICallError e
            then MkRun [submitted v; failed e] (Ret tt)
            else MkRun [submitted v] (Raise e)
        end
    end.
Proof.
  intros Hcls. unfold run. rewrite (work_mutating v Hcls).
  unfold initiating_call, on_client, wait_for_extended_operation.
  destruct (client_of p self) as [c|e]; cbn [res_bind].
  - destruct (remote_call v c (args self)) as [op|e].
    + unfold try_except, bind, call, emit. cbn.
      destruct (result op 300) as [x|e]; cbn; [reflexivity |].
      destruct (is_GoogleAPICallError e); reflexivity.
    + unfold try_except, bind, call, emit. cbn.
      destruct (is_GoogleAPICallError e); reflexivity.
  - unfold try_except, bind, call, emit. cbn.
    destruct (is_GoogleAPICallError e); reflexivity.
Qed.

(** Every [work] sends its [completed] last and only when it returns, and
    sends no terminal notification before. *)
Lemma work_shape :
  (exists pre value,
      work p self = MkRun (pre ++ [completed value]) (Ret tt)
      /\ terminal_signals pre = [])
  \/ (exists pre e,
         work p self = MkRun pre (Raise e) /\ terminal_signals pre = []).
Proof.
  destruct self as [cls c a].
  destruct cls;
    unfold work, LoadInstanceListWorker_work, LoadInstanceDetailsWorker_work,
      CreateInstanceWorker_work, StartInstanceWorker_work,
      ResumeInstanceWorker_work, StopInstanceWorker_work,
      SuspendInstanceWorker_work, ResetInstanceWorker_work,
      DeleteInstanceWorker_work, SetInstanceTagsWorker_work,
      SetInstanceMetadataWorker_work, on_client,
      wait_for_extended_operation, bind, call, emit;
    cbn [class_of args outcome emitted];
    (destruct (client_of p _) as [cl|e]; cbn [res_bind outcome emitted];
     [| right; exists [], e; split; reflexivity]).
  1,2:
    match goal with
    | |- context [match ?x with Ret _ => _ | Raise _ => _ end] =>
        destruct x as [value|e]; cbn [outcome emitted app]
    end;
    [ left; exists [], value; split; reflexivity
    | right; exists [], e; split; reflexivity ].
  all:
    match goal with
    | |- context [match ?x with Ret _ => _ | Raise _ => _ end] =>
        destruct x as [op|e]; cbn [outcome emitted app]
    end;
    [| right; exists [], e; split; reflexivity];
    destruct (result op _) as [value|e]; cbn [outcome emitted app];
    [ left; eexists [_], _; split; reflexivity
    | right; eexists [_], e; split; reflexivity ].
Qed.

End CloudRun.

(** ** Terminal notifications of a run *)

Lemma terminal_signals_snoc (pre : list Signal) (s : Signal) :
  terminal_signals pre = [] -> is_terminal s = true ->
  terminal_signals (pre ++ [s]) = [s].
Proof.
  intros Hpre Hs. unfold terminal_signals in *.
  rewrite List.filter_app, Hpre. simpl. rewrite Hs. reflexivity.
Qed.

Lemma try_except_completes_last (catches : Exn -> bool) (body : Run unit) :
  completes_last body ->
  one_terminal_or_uncaught catches body
    (try_except body catches (fun e => emit (failed e))).
Proof.
  intros [(pre & value & -> & Hpre) | (pre & e & -> & Hpre)];
    unfold one_terminal_or_uncaught, try_except; cbn [outcome emitted].
  - split; [| reflexivity]. exists value. split.
    + apply terminal_signals_snoc; [exact Hpre | reflexivity].
    + apply last_snoc.
  - destruct (catches e); cbn [outcome emitted emit].
    + split; [| split; [apply last_snoc | reflexivity]].
      apply terminal_signals_snoc; [exact Hpre | reflexivity].
    + split; [exact Hpre | reflexivity].
Qed.

Lemma read_loop_no_terminal (E : Pyte.Emulator) (f : ChannelFile) :
  forall st, terminal_signals (emitted (read_loop E f st)) = [].
Proof.
  induction f as [|r f IH]; intros st; [reflexivity |].
  cbn [read_loop]. unfold bind, call, emit. cbn [outcome emitted].
  destruct r as [[|c line]|e]; cbn [outcome emitted app]; try reflexivity.
  exact (IH _).
Qed.

Lemma SSHWorker_work_shape (E : Pyte.Emulator) (self : SSHWorker) :
  completes_last (SSHWorker_work E self).
Proof.
  destruct self as [[c|] a | [f|] a];
    unfold SSHWorker_work, SSHConnectWorker_work, SSHReadStdIOWorker_work,
      bind, call, emit; cbn [outcome emitted].
  - destruct (connect c a) as [[]|e]; cbn [outcome emitted app].
    + left. exists [], (VBool true). split; reflexivity.
    + right. exists [], e. split; reflexivity.
  - right. eexists [], _. split; reflexivity.
  - pose proof (read_loop_no_terminal E f (Pyte.initial E)) as Hpre.
    destruct (read_loop E f (Pyte.initial E)) as [pre [[]|e]];
      cbn [outcome emitted] in *.
    + left. exists pre, (VBool true). split; [reflexivity | exact Hpre].
    + right. exists pre, e. split; [reflexivity | exact Hpre].
  - right. eexists [], _. split; reflexivity.
Qed.

(** ** C3: one terminal notification per submission *)

Example stuck_start_run :
  run (process_with (client_returning (Ret (Waiter.operation never))))
      (start_worker
         (process_with (client_returning (Ret (Waiter.operation never)))))
  = MkRun [started]
      (Raise (OperationTimeoutError "operation did not complete in time")).
Proof. vm_compute. reflexivity. Qed.

(** C3, as stated, fails: a start worker whose operation is still pending
    when the wait gives up sends [started] and then neither [completed] nor
    [failed]; the timeout error leaves [run] uncaught. *)
Lemma C3_timeout_sends_no_terminal :
  ~ exactly_one_terminal
      (run (process_with (client_returning (Ret (Waiter.operation never))))
           (start_worker
              (process_with
                 (client_returning (Ret (Waiter.operation never)))))).
Proof.
  unfold exactly_one_terminal. rewrite stuck_start_run.
  cbn. discriminate.
Qed.

(** C3, amended. For every cloud verb worker and every SSH worker, when
    [work] returns, exactly one terminal notification is sent, it is
    [completed] and it is the last signal; when [work] raises an error of
    a class [run] catches ([GoogleAPICallError] for the cloud workers;
    [socket.error], which is [OSError] and so includes the timeouts, or
    [SSHException] for the SSH workers), exactly one is sent, it is
    [failed] with that error and it is the last signal; when [work] raises
    any other error, no terminal notification is sent and the error
    leaves [run] uncaught.  So a timeout is turned into [failed] by an
    SSH worker and into nothing by a cloud worker. *)
Theorem C3_one_terminal_or_uncaught :
  (forall (p : Process) (self : GoogleCloudWorker),
      one_terminal_or_uncaught is_GoogleAPICallError
        (work p self) (run p self))
  /\ (forall (E : Pyte.Emulator) (self : SSHWorker),
         one_terminal_or_uncaught is_socket_error_or_SSHException
           (SSHWorker_work E self) (SSHWorker_run E self))
  /\ (forall (E : Pyte.Emulator) (self : SSHWorker) (message : string),
         outcome (SSHWorker_work E self)
         = Raise (OperationTimeoutError message) ->
         terminal_signals (emitted (SSHWorker_run E self))
         = [failed (OperationTimeoutError message)]
         /\ last (emitted (SSHWorker_run E self))
            = Some (failed (OperationTimeoutError message))
         /\ outcome (SSHWorker_run E self) = Ret tt)
  /\ (forall (p : Process) (self : GoogleCloudWorker) (message : string),
         outcome (work p self) = Raise (OperationTimeoutError message) ->
         terminal_signals (emitted (run p self)) = []
         /\ outcome (run p self) = Raise (OperationTimeoutError message)).
Proof.
  assert (Hcloud : forall (p : Process) (self : GoogleCloudWorker),
             one_terminal_or_uncaught is_GoogleAPICallError
               (work p self) (run p self))
    by (intros p self; apply try_except_completes_last, work_shape).
  assert (Hssh : forall (E : Pyte.Emulator) (self : SSHWorker),
             one_terminal_or_uncaught is_socket_error_or_SSHException
               (SSHWorker_work E self) (SSHWorker_run E self))
    by (intros E self;
        apply try_except_completes_last, SSHWorker_work_shape).
  split; [exact Hcloud |]. split; [exact Hssh |]. split.
  - intros E self message Hout. specialize (Hssh E self).
    unfold one_terminal_or_uncaught in Hssh. rewrite Hout in Hssh.
    exact Hssh.
  - intros p self message Hout. specialize (Hcloud p self).
    unfold one_terminal_or_uncaught in Hcloud. rewrite Hout in Hcloud.
    exact Hcloud.
Qed.

(** ** C2: a failing wait *)

(** C2, as stated, fails: when the operation never resolves, the wait of
    the start worker raises the timeout error, and the run sends no
    [failed] signal carrying it (it sends [started] and nothing else). *)
Lemma C2_timeout_not_notified :
  wait_for_extended_operation (Waiter.operation never) None
  = Raise (OperationTimeoutError "operation did not complete in time")
  /\ ~ In (failed (OperationTimeoutError "operation did not complete in time"))
          (emitted (run stuck_process (start_worker stuck_process))).
Proof.
  split.
  - vm_compute. reflexivity.
  - unfold stuck_process. rewrite stuck_start_run.
    cbn. intros [H | []]. discriminate H.
Qed.

(** C2, amended. For every mutating verb, when the initiating call
    returned an operation and the wait on it raises [e]: if [e] is a
    [GoogleAPICallError] (the error the remote side reported), the run
    sends the progress signal and then [failed] carrying [e]; otherwise,
    and so for the timeout error, [run] does not catch it: the progress
    signal is all that is sent and [e] leaves [run]. *)
Theorem C2_wait_failure
    (v : Verb) (p : Process) (self : GoogleCloudWorker)
    (operation : ExtendedOperation) (e : Exn) :
  class_of self = worker_class v ->
  initiating_call v p self = Ret operation ->
  wait_for_extended_operation operation None = Raise e ->
  (is_GoogleAPICallError e = true ->
   run p self = MkRun [submitted v; failed e] (Ret tt))
  /\ (is_GoogleAPICallError e = false ->
      run p self = MkRun [submitted v] (Raise e))
  /\ (forall message, e = OperationTimeoutError message ->
      run p self = MkRun [submitted v] (Raise e)).
Proof.
  intros Hcls Hcall Hwait.
  rewrite (run_mutating p self v Hcls), Hcall.
  unfold wait_for_extended_operation in Hwait. cbn in Hwait. rewrite Hwait.
  repeat split.
  - intros ->. reflexivity.
  - intros ->. reflexivity.
  - intros message ->. reflexivity.
Qed.

Lemma C2_witness :
  class_of (start_worker failing_process) = worker_class Start
  /\ initiating_call Start failing_process (start_worker failing_process)
     = Ret failing_operation
  /\ wait_for_extended_operation failing_operation None = Raise quota_error
  /\ run failing_process (start_worker failing_process)
     = MkRun [started; failed quota_error] (Ret tt).
Proof.
  assert (Hcls : class_of (start_worker failing_process) = worker_class Start)
    by reflexivity.
  assert (Hcall :
            initiating_call Start failing_process
              (start_worker failing_process) = Ret failing_operation)
    by (vm_compute; reflexivity).
  assert (Hwait :
            wait_for_extended_operation failing_operation None
            = Raise quota_error)
    by reflexivity.
  split; [exact Hcls |]. split; [exact Hcall |]. split; [exact Hwait |].
  exact (proj1 (C2_wait_failure Start failing_process
                  (start_worker failing_process) failing_operation
                  quota_error Hcls Hcall Hwait) eq_refl).
Defined.

(** ** C4: submitted, then success; no submitted when the call fails *)

(** C4, as stated, fails in its second half: when the initiating call of
    the start worker fails with an error that is not a
    [GoogleAPICallError], the run sends no failure notification (it sends
    nothing at all). *)
Lemma C4_call_failure_not_notified :
  initiating_call Start unreachable_process
    (start_worker unreachable_process) = Raise transport_error
  /\ ~ only_failure_notification transport_error
         (run unreachable_process (start_worker unreachable_process)).
Proof.
  split.
  - vm_compute. reflexivity.
  - unfold only_failure_notification. vm_compute. discriminate.
Qed.

(** C4, amended. For every mutating verb: when the initiating call and the
    wait both return, the run sends the progress signal and then
    [completed(True)], in that order and nothing else; when the initiating
    call raises [e], the progress signal is never sent, and the run sends
    [failed] carrying [e] and nothing else if [e] is a
    [GoogleAPICallError], and nothing at all otherwise, [e] then leaving
    [run] uncaught. *)
Theorem C4_submitted_then_completed
    (v : Verb) (p : Process) (self : GoogleCloudWorker) :
  class_of self = worker_class v ->
  (forall operation value,
      initiating_call v p self = Ret operation ->
      wait_for_extended_operation operation None = Ret value ->
      run p self = MkRun [submitted v; completed (VBool true)] (Ret tt))
  /\ (forall e,
         initiating_call v p self = Raise e ->
         ~ In (submitted v) (emitted (run p self))
         /\ run p self
            = if is_GoogleAPICallError e
              then MkRun [failed e] (Ret tt)
              else MkRun [] (Raise e)).
Proof.
  intros Hcls. rewrite (run_mutating p self v Hcls). split.
  - intros operation value -> Hwait.
    unfold wait_for_extended_operation in Hwait. cbn in Hwait.
    rewrite Hwait. reflexivity.
  - intros e ->. split; [| reflexivity].
    destruct (is_GoogleAPICallError e); cbn; [| tauto].
    intros [H | []]. destruct v; discriminate H.
Qed.

Lemma C4_witness :
  class_of (start_worker working_process) = worker_class Start
  /\ initiating_call Start working_process (start_worker working_process)
     = Ret done_operation
  /\ wait_for_extended_operation done_operation None = Ret VNone
  /\ run working_process (start_worker working_process)
     = MkRun [started; completed (VBool true)] (Ret tt).
Proof.
  assert (Hcls : class_of (start_worker working_process) = worker_class Start)
    by reflexivity.
  assert (Hcall :
            initiating_call Start working_process
              (start_worker working_process) = Ret done_operation)
    by (vm_compute; reflexivity).
  assert (Hwait : wait_for_extended_operation done_operation None = Ret VNone)
    by reflexivity.
  split; [exact Hcls |]. split; [exact Hcall |]. split; [exact Hwait |].
  exact (proj1 (C4_submitted_then_completed Start working_process
                  (start_worker working_process) Hcls)
           done_operation VNone Hcall Hwait).
Defined.

(** ** C5: the contract of the wait *)

Section Poll.
Variable h : Handle.

Lemma poll_final (k : nat) :
  forall tick left,
    (k <= left)%nat ->
    (forall j, (j < k)%nat -> is_final (status_at h (tick + j)) = false) ->
    is_final (status_at h (tick + k)) = true ->
    poll h tick left = ((tick + k)%nat, result_of (status_at h (tick + k))).
Proof.
  induction k as [|k IH]; intros tick left Hle Hbefore Hfinal.
  - rewrite Nat.add_0_r in *.
    destruct left; cbn [poll];
      destruct (status_at h tick); try discriminate Hfinal; reflexivity.
  - destruct left as [|left]; [lia |].
    assert (H0 : is_final (status_at h tick) = false).
    { specialize (Hbefore 0%nat). rewrite Nat.add_0_r in Hbefore.
      apply Hbefore. lia. }
    cbn [poll].
    replace (tick + S k)%nat with (S tick + k)%nat in * by lia.
    destruct (status_at h tick); try discriminate H0;
      (apply IH; [lia | | exact Hfinal];
       intros j Hj; replace (S tick + j)%nat with (tick + S j)%nat by lia;
       apply Hbefore; lia).
Qed.

Lemma poll_timeout (left : nat) :
  forall tick,
    (forall j, (j <= left)%nat -> is_final (status_at h (tick + j)) = false) ->
    poll h tick left = ((tick + left)%nat, Raise timeout_error).
Proof.
  induction left as [|left IH]; intros tick Hpending.
  - specialize (Hpending 0%nat (Nat.le_refl _)).
    rewrite Nat.add_0_r in *. cbn [poll].
    destruct (status_at h tick); try discriminate Hpending; reflexivity.
  - assert (H0 : is_final (status_at h tick) = false).
    { specialize (Hpending 0%nat). rewrite Nat.add_0_r in Hpending.
      apply Hpending. lia. }
    cbn [poll].
    replace (tick + S left)%nat with (S tick + left)%nat by lia.
    destruct (status_at h tick); try discriminate H0;
      (apply IH; intros j Hj;
       replace (S tick + j)%nat with (tick + S j)%nat by lia;
       apply Hpending; lia).
Qed.

Lemma poll_returns (left : nat) :
  forall tick t value,
    poll h tick left = (t, Ret value) ->
    exists k, (k <= left)%nat /\ t = (tick + k)%nat
              /\ status_at h t = Done
              /\ forall j, (j < k)%nat ->
                           is_final (status_at h (tick + j)) = false.
Proof.
  induction left as [|left IH]; intros tick t value Hpoll; cbn [poll] in Hpoll.
  - destruct (status_at h tick) eqn:Hs; try discriminate Hpoll.
    injection Hpoll as <- _. exists 0%nat.
    rewrite Nat.add_0_r. repeat split; [lia | exact Hs | intros j Hj; lia].
  - destruct (status_at h tick) eqn:Hs; try discriminate Hpoll.
    + apply IH in Hpoll as (k & Hk & -> & Hdone & Hbefore).
      exists (S k). repeat split; [lia | lia | | ].
      * replace (tick + S k)%nat with (S tick + k)%nat by lia. exact Hdone.
      * intros [|j] Hj; [rewrite Nat.add_0_r, Hs; reflexivity |].
        replace (tick + S j)%nat with (S tick + j)%nat by lia.
        apply Hbefore. lia.
    + apply IH in Hpoll as (k & Hk & -> & Hdone & Hbefore).
      exists (S k). repeat split; [lia | lia | | ].
      * replace (tick + S k)%nat with (S tick + k)%nat by lia. exact Hdone.
      * intros [|j] Hj; [rewrite Nat.add_0_r, Hs; reflexivity |].
        replace (tick + S j)%nat with (S tick + j)%nat by lia.
        apply Hbefore. lia.
    + injection Hpoll as <- _. exists 0%nat.
      rewrite Nat.add_0_r. repeat split; [lia | exact Hs | intros j Hj; lia].
Qed.

End Poll.

(** C5. The timeout defaults to 300.  With a timeout of [timeout] ticks
    the wait ends at the first tick at which the handle is done or failed,
    or when the timeout has elapsed, whichever comes first: it returns
    normally if the handle is done, raises the error the remote side
    reported if the handle has failed, and raises the timeout error if the
    handle is still not terminal when the time is up; and it returns
    normally only when the handle became done within the timeout. *)
Theorem C5_wait_contract (h : Handle) (timeout : nat) :
  let wait :=
    wait_for_extended_operation (operation h) (Some (Z.of_nat timeout)) in
  wait_for_extended_operation (operation h) None
  = wait_for_extended_operation (operation h) (Some 300)
  /\ (forall k,
         (k <= timeout)%nat -> not_final_before h k ->
         status_at h k = Done ->
         wait = Ret VNone /\ blocked_until h (Z.of_nat timeout) = k)
  /\ (forall k e,
         (k <= timeout)%nat -> not_final_before h k ->
         status_at h k = Error e ->
         wait = Raise e /\ blocked_until h (Z.of_nat timeout) = k)
  /\ (not_final_before h (S timeout) ->
      wait = Raise timeout_error
      /\ blocked_until h (Z.of_nat timeout) = timeout)
  /\ (forall value,
         wait = Ret value ->
         exists k, (k <= timeout)%nat /\ not_final_before h k
                   /\ status_at h k = Done).
Proof.
  intros wait. subst wait.
  unfold wait_for_extended_operation, operation, Waiter.wait, blocked_until.
  cbn [result default from_option id]. rewrite Nat2Z.id.
  split; [reflexivity |]. split; [| split; [| split]].
  - intros k Hk Hbefore Hdone.
    rewrite (poll_final h k 0 timeout Hk); cbn [Nat.add].
    + rewrite Hdone. split; reflexivity.
    + exact Hbefore.
    + rewrite Hdone. reflexivity.
  - intros k e Hk Hbefore Herr.
    rewrite (poll_final h k 0 timeout Hk); cbn [Nat.add].
    + rewrite Herr. split; reflexivity.
    + exact Hbefore.
    + rewrite Herr. reflexivity.
  - intros Hpending.
    rewrite (poll_timeout h timeout 0); cbn [Nat.add].
    + split; reflexivity.
    + intros j Hj. apply Hpending. lia.
  - intros value Hret.
    destruct (poll h 0 timeout) as [t r] eqn:Hpoll. cbn [snd] in Hret.
    subst r. apply poll_returns in Hpoll as (k & Hk & -> & Hdone & Hbefore).
    exists k. cbn [Nat.add] in *. repeat split; assumption.
Qed.

Lemma C5_witness :
  (2 <= 10)%nat
  /\ not_final_before done_after_two 2
  /\ status_at done_after_two 2 = Done
  /\ wait_for_extended_operation (operation done_after_two)
       (Some (Z.of_nat 10)) = Ret VNone
  /\ blocked_until done_after_two (Z.of_nat 10) = 2%nat.
Proof.
  assert (Hle : (2 <= 10)%nat) by lia.
  assert (Hbefore : not_final_before done_after_two 2).
  { intros [|[|j]] Hj; [reflexivity | reflexivity | lia]. }
  assert (Hdone : status_at done_after_two 2 = Done) by reflexivity.
  split; [exact Hle |]. split; [exact Hbefore |]. split; [exact Hdone |].
  exact (proj1 (proj2 (C5_wait_contract done_after_two 10))
           2%nat Hle Hbefore Hdone).
Defined.

(** ** C8: the arguments of a connect submission *)

(** The group keeps exactly one of the two buttons checked. *)
Lemma reachable_exclusive (self : ConnectPage) :
  Reachable self -> button_key self = negb (button_password self).
Proof.
  induction 1 as [|self a _ IH]; [reflexivity |].
  destruct a; cbn; try exact IH; reflexivity.
Qed.

(** C8. Whatever the operator did on the form before, the dictionary a
    click on Connect submits holds exactly one authentication method: the
    password with [key_filename] set to [None] when the password button is
    checked, the key path with [password] set to [None] when the key
    button is; and it holds the four timeouts. *)
Theorem C8_one_authentication_method
    (self : ConnectPage) (args : gmap string Value) :
  Reachable self ->
  button_connect_clicked self = Some args ->
  ((button_password self = true
    /\ args !! "password" = Some (VStr (input_password self))
    /\ args !! "key_filename" = Some VNone)
   \/ (button_key self = true
       /\ args !! "password" = Some VNone
       /\ args !! "key_filename" = Some (VStr (input_key self))))
  /\ args !! "timeout" = Some (VInt 5)
  /\ args !! "banner_timeout" = Some (VInt 5)
  /\ args !! "auth_timeout" = Some (VInt 5)
  /\ args !! "channel_timeout" = Some (VInt 5).
Proof.
  intros Hreach Hclick.
  pose proof (reachable_exclusive self Hreach) as Hexcl.
  unfold button_connect_clicked in Hclick.
  destruct (validate (input_host self)); try discriminate Hclick.
  destruct (validate (input_username self)); try discriminate Hclick.
  injection Hclick as <-.
  split; [| repeat split; reflexivity].
  destruct (button_password self); rewrite Hexcl; cbn [negb].
  - left. repeat split; reflexivity.
  - right. repeat split; reflexivity.
Qed.

Lemma C8_witness :
  Reachable filled_page
  /\ button_connect_clicked filled_page = Some filled_args
  /\ filled_args !! "timeout" = Some (VInt 5).
Proof.
  assert (Hreach : Reachable filled_page)
    by (unfold filled_page; repeat constructor).
  assert (Hclick : button_connect_clicked filled_page = Some filled_args)
    by reflexivity.
  split; [exact Hreach |]. split; [exact Hclick |].
  exact (proj1 (proj2 (C8_one_authentication_method
                         filled_page filled_args Hreach Hclick))).
Defined.

(** ** C9: the shared default client *)

(** C9. Importing the module leaves [default_client] bound to a client
    without credentials.  A worker built without a client argument is
    bound to the object [default_client] names, one built with a client
    to that client.  So two workers built without argument name the same
    object, and once [load_credentials] has run on it, both find the
    loaded library behind their own reference, although they were built
    before. *)
Theorem C9_default_client_shared
    (p : Process) (l : loc)
    (from_service_account_info : Value -> Res InstancesClient)
    (credentials : Value) (ic : InstancesClient)
    (cls1 cls2 : WorkerClass) :
  default_client p = Some l ->
  is_Some (objects p !! l) ->
  from_service_account_info credentials = Ret ic ->
  (exists l0, default_client module_init = Some l0
              /\ objects module_init !! l0 = Some (MkClient None))
  /\ google_cloud_client (init cls1 p None) = Some l
  /\ google_cloud_client (init cls2 p None) = Some l
  /\ (forall c, google_cloud_client (init cls1 p (Some c)) = Some c)
  /\ exists p',
       load_credentials from_service_account_info l credentials p = Ret p'
       /\ default_client p' = Some l
       /\ client_of p' (init cls1 p None) = Ret (MkClient (Some ic))
       /\ client_of p' (init cls2 p None) = Ret (MkClient (Some ic)).
Proof.
  intros Hdefault [c Hc] Hfrom.
  split; [exists 1%positive; split; reflexivity |].
  unfold init. cbn [google_cloud_client]. rewrite Hdefault.
  split; [reflexivity |]. split; [reflexivity |]. split; [reflexivity |].
  unfold load_credentials. rewrite Hfrom. cbn [res_bind].
  eexists. split; [reflexivity |]. cbn [default_client objects].
  split; [exact Hdefault |].
  unfold client_of. cbn [google_cloud_client objects mbind option_bind].
  rewrite lookup_alter, Hc. cbn.
  destruct (decide (l = l)); [| congruence].
  split; reflexivity.
Qed.

Lemma C9_witness :
  default_client module_init = Some 1%positive
  /\ is_Some (objects module_init !! 1%positive)
  /\ google_cloud_client (init StartInstanceWorker module_init None)
     = Some 1%positive
  /\ google_cloud_client (init StopInstanceWorker module_init None)
     = Some 1%positive.
Proof.
  assert (Hdefault : default_client module_init = Some 1%positive)
    by reflexivity.
  assert (Hlive : is_Some (objects module_init !! 1%positive))
    by (exists (MkClient None); reflexivity).
  assert (Hfrom : (fun _ : Value => Ret (client_returning (Ret done_operation))) VNone
            = Ret (client_returning (Ret done_operation)))
    by reflexivity.
  split; [exact Hdefault |]. split; [exact Hlive |].
  pose proof (C9_default_client_shared module_init 1%positive
                (fun _ => Ret (client_returning (Ret done_operation))) VNone (client_returning (Ret done_operation))
                StartInstanceWorker StopInstanceWorker
                Hdefault Hlive Hfrom) as (_ & H1 & H2 & _).
  split; [exact H1 | exact H2].
Defined.

(* ===================================================================== *)
(** * Further properties of the workers and the client *)
(* ===================================================================== *)

(** ** Calls that never reach the client library *)

Ltac unfold_work :=
  unfold run, work, LoadInstanceListWorker_work,
    LoadInstanceDetailsWorker_work,
    CreateInstanceWorker_work, StartInstanceWorker_work,
    ResumeInstanceWorker_work, StopInstanceWorker_work,
    SuspendInstanceWorker_work, ResetInstanceWorker_work,
    DeleteInstanceWorker_work, SetInstanceTagsWorker_work,
    SetInstanceMetadataWorker_work, on_client,
    list_instances, get_instance, create_instance, start_instance,
    resume_instance, stop_instance, suspend_instance, delete_instance,
    reset_instance, set_instance_tags, set_instance_metadata.

(** X1. A client without credentials: whatever the class of the worker
    and its arguments, the run sends no signal at all, and the error (the
    [AttributeError] of the missing library when the keywords fit, the
    [TypeError] of the call otherwise) leaves [run] uncaught. *)
Theorem X1_no_credentials_no_signal
    (p : Process) (self : GoogleCloudWorker) (c : GoogleCloudClient) :
  client_of p self = Ret c ->
  instances_client c = None ->
  emitted (run p self) = []
  /\ outcome (run p self)
     = if decide (keywords_match self)
       then Raise no_attribute else Raise bad_keywords.
Proof.
  intros Hc Hnone. unfold keywords_match.
  destruct self as [cls l a]. cbn [class_of args] in *.
  destruct cls; unfold_work; cbn [class_of args];
    rewrite Hc; cbn [res_bind];
    unfold check_kwargs, the_instances_client, params_of;
    rewrite Hnone;
    destruct (decide (dom a = _)); split; reflexivity.
Qed.

Lemma X1_witness :
  client_of module_init (start_worker module_init) = Ret (MkClient None)
  /\ instances_client (MkClient None) = None
  /\ emitted (run module_init (start_worker module_init)) = [].
Proof.
  assert (Hc : client_of module_init (start_worker module_init)
               = Ret (MkClient None)) by reflexivity.
  assert (Hnone : instances_client (MkClient None) = None) by reflexivity.
  split; [exact Hc |]. split; [exact Hnone |].
  exact (proj1 (X1_no_credentials_no_signal module_init
                  (start_worker module_init) (MkClient None) Hc Hnone)).
Defined.

(** X2. Arguments whose keys are not exactly the parameters of the client
    method: the call raises [TypeError] before the library is looked at, so
    whatever the client holds, the run sends no signal and the error leaves
    [run] uncaught. *)
Theorem X2_wrong_keywords_type_error
    (p : Process) (self : GoogleCloudWorker) (c : GoogleCloudClient) :
  client_of p self = Ret c ->
  ~ keywords_match self ->
  run p self = MkRun [] (Raise bad_keywords).
Proof.
  intros Hc Hkw. unfold keywords_match in Hkw.
  destruct self as [cls l a]. cbn [class_of args] in *.
  destruct cls; unfold_work; cbn [class_of args];
    rewrite Hc; cbn [res_bind];
    unfold check_kwargs; unfold params_of in Hkw;
    (destruct (decide (dom a = _)) as [Heq|_]; [contradiction |]);
    reflexivity.
Qed.

Lemma X2_witness :
  client_of working_process
    (set_args (init StartInstanceWorker working_process None) ∅)
  = Ret (MkClient (Some (client_returning (Ret done_operation))))
  /\ ~ keywords_match
         (set_args (init StartInstanceWorker working_process None) ∅)
  /\ run working_process
       (set_args (init StartInstanceWorker working_process None) ∅)
     = MkRun [] (Raise bad_keywords).
Proof.
  assert (Hc : client_of working_process
                 (set_args (init StartInstanceWorker working_process None) ∅)
               = Ret (MkClient
                        (Some (client_returning (Ret done_operation)))))
    by reflexivity.
  assert (Hkw : ~ keywords_match
                    (set_args
                       (init StartInstanceWorker working_process None) ∅)).
  { unfold keywords_match. cbn [args set_args class_of init params_of].
    rewrite dom_empty_L. intros H.
    assert (Hin : "project" ∈ (∅ : gset string))
      by (rewrite H; set_solver).
    set_solver. }
  split; [exact Hc |]. split; [exact Hkw |].
  exact (X2_wrong_keywords_type_error _ _ _ Hc Hkw).
Defined.

(** ** The read-only workers *)

(** X3. With credentials loaded and arguments that fit, the list worker
    asks the library for the instances of the project and zone of its
    arguments, and the details worker for the instance they name; the
    run sends [completed] carrying exactly what the library returned, or
    [failed] carrying the library's [GoogleAPICallError], and nothing
    else. *)
Theorem X3_read_only_workers
    (p : Process) (self : GoogleCloudWorker)
    (c : GoogleCloudClient) (ic : InstancesClient) :
  client_of p self = Ret c ->
  instances_client c = Some ic ->
  keywords_match self ->
  (class_of self = LoadInstanceListWorker ->
   run p self
   = deliver (ic_list ic [("project", arg (args self) "project");
                          ("zone", arg (args self) "zone")]))
  /\ (class_of self = LoadInstanceDetailsWorker ->
      run p self
      = deliver (ic_get ic [("project", arg (args self) "project");
                            ("zone", arg (args self) "zone");
                            ("instance", arg (args self) "instance_name")])).
Proof.
  intros Hc Hic Hkw. unfold keywords_match in Hkw.
  destruct self as [cls l a]. cbn [class_of args] in *.
  split; intros ->; unfold_work; cbn [class_of args];
    rewrite Hc; cbn [res_bind];
    unfold check_kwargs, the_instances_client; cbn [params_of] in Hkw;
    rewrite Hic;
    (destruct (decide (dom a = _)) as [_|Hne]; [| contradiction]);
    cbn [res_bind];
    match goal with
    | |- context [call ?r] => destruct r as [value|e]
    end;
    unfold try_except, bind, call, emit, deliver; cbn;
    try reflexivity; destruct (is_GoogleAPICallError e); reflexivity.
Qed.

Lemma X3_witness :
  let self := set_args (init LoadInstanceListWorker working_process None)
                (list_to_map [("project", VStr (lit "p"));
                              ("zone", VStr (lit "z"))]) in
  client_of working_process self
  = Ret (MkClient (Some (client_returning (Ret done_operation))))
  /\ keywords_match self
  /\ run working_process self = MkRun [completed (VList [])] (Ret tt).
Proof.
  intros self.
  assert (Hc : client_of working_process self
               = Ret (MkClient
                        (Some (client_returning (Ret done_operation)))))
    by reflexivity.
  assert (Hic : instances_client
                  (MkClient (Some (client_returning (Ret done_operation))))
                = Some (client_returning (Ret done_operation)))
    by reflexivity.
  assert (Hkw : keywords_match self) by (vm_compute; reflexivity).
  split; [exact Hc |]. split; [exact Hkw |].
  exact (proj1 (X3_read_only_workers working_process self _ _ Hc Hic Hkw)
           eq_refl).
Defined.

(** ** The read loop on a failing or ended stream *)

Lemma read_loop_error (E : Pyte.Emulator) (lines : list str) (e : Exn)
    (rest : ChannelFile) :
  Forall (fun l => l <> []) lines ->
  forall st : Pyte.State E,
    read_loop E ((Ret <$> lines) ++ Raise e :: rest) st
    = MkRun (received <$> imap (frame_at E st lines) lines) (Raise e).
Proof.
  induction 1 as [|l ls Hl _ IH]; intros st.
  - reflexivity.
  - destruct l as [|c l]; [congruence |].
    cbn [fmap list_fmap read_loop app].
    unfold bind, call, emit. cbn [outcome emitted].
    fold (@fmap list _ _ _ (@Ret str) ls).
    rewrite IH. reflexivity.
Qed.

(** X4. A stream that gives the non-empty lines [lines] and then fails
    with [e]: the run sends one frame per line read, in order; then, if
    [e] is a [socket.error] (an [OSError], a timeout of the read among
    them) or an [SSHException], [failed] carrying [e] as the last signal,
    and otherwise nothing, [e] leaving [run] uncaught.  In no case is
    [completed] sent. *)
Theorem X4_read_error_after_frames
    (E : Pyte.Emulator) (lines : list str) (e : Exn) (rest : ChannelFile)
    (args : gmap string Value) :
  Forall (fun l => l <> []) lines ->
  let frames := imap (frame_at E (Pyte.initial E) lines) lines in
  let r := SSHWorker_run E
             (SSHReadStdIOWorker
                (Some ((Ret <$> lines) ++ Raise e :: rest)) args) in
  r = (if is_socket_error_or_SSHException e
       then MkRun ((received <$> frames) ++ [failed e]) (Ret tt)
       else MkRun (received <$> frames) (Raise e))
  /\ (forall message,
         e = OperationTimeoutError message ->
         r = MkRun ((received <$> frames) ++ [failed e]) (Ret tt))
  /\ length (received_frames (emitted r)) = length lines
  /\ forall value, ~ In (completed value) (emitted r).
Proof.
  intros Hne frames r.
  assert (Hr : r = if is_socket_error_or_SSHException e
                   then MkRun ((received <$> frames) ++ [failed e]) (Ret tt)
                   else MkRun (received <$> frames) (Raise e)).
  { subst r frames.
    unfold SSHWorker_run, SSHWorker_work, SSHReadStdIOWorker_work.
    rewrite (read_loop_error E lines e rest Hne).
    unfold try_except, bind, emit. cbn [outcome emitted].
    destruct (is_socket_error_or_SSHException e); reflexivity. }
  split; [exact Hr |].
  split; [intros message He; rewrite Hr, He; reflexivity |].
  rewrite Hr.
  assert (Hnot : forall value fs, ~ In (completed value) (received <$> fs)).
  { intros value fs. induction fs as [|f fs IH]; cbn; [tauto |].
    intros [H | H]; [discriminate H | exact (IH H)]. }
  destruct (is_socket_error_or_SSHException e); cbn [emitted]; split.
  - rewrite received_frames_received. cbn. rewrite app_nil_r.
    apply length_imap.
  - intros value Hin. apply in_app_or in Hin as [Hin | [Hin | []]];
      [exact (Hnot _ _ Hin) | discriminate Hin].
  - rewrite <- (app_nil_r (received <$> frames)).
    rewrite received_frames_received. cbn. rewrite app_nil_r.
    apply length_imap.
  - intros value Hin. exact (Hnot _ _ Hin).
Qed.

Lemma X4_witness :
  Forall (fun l => l <> []) [hello]
  /\ SSHWorker_run TerminalEmulator.emulator
       (SSHReadStdIOWorker
          (Some ((Ret <$> [hello])
                 ++ [Raise (OperationTimeoutError "timed out")]))
          ∅)
     = MkRun [received (lit "hello");
              failed (OperationTimeoutError "timed out")]
         (Ret tt).
Proof.
  assert (Hne : Forall (fun l : str => l <> []) [hello])
    by (repeat constructor; discriminate).
  split; [exact Hne |].
  rewrite (proj1 (X4_read_error_after_frames TerminalEmulator.emulator
                    [hello] (OperationTimeoutError "timed out") [] ∅ Hne)).
  vm_compute. reflexivity.
Defined.

(** X5. The loop never reads past the end of the stream: whatever would
    follow the empty read (more lines, an error), the run is the one of
    the stream that ends there. *)
Theorem X5_nothing_read_past_the_end
    (E : Pyte.Emulator) (lines : list str) (rest : ChannelFile)
    (args : gmap string Value) :
  Forall (fun l => l <> []) lines ->
  SSHWorker_run E
    (SSHReadStdIOWorker (Some ((Ret <$> lines) ++ Ret [] :: rest)) args)
  = SSHWorker_run E (SSHReadStdIOWorker (Some (Ret <$> lines)) args).
Proof.
  intros Hne.
  pose proof (run_read_lines E lines (Ret [] :: rest) args I Hne) as Hend.
  pose proof (run_read_lines E lines [] args I Hne) as Hnil.
  rewrite app_nil_r in Hnil.
  exact (eq_trans Hend (eq_sym Hnil)).
Qed.

Lemma X5_witness :
  Forall (fun l => l <> []) [hello]
  /\ SSHWorker_run TerminalEmulator.emulator
       (SSHReadStdIOWorker
          (Some ((Ret <$> [hello]) ++ Ret [] :: [Ret world])) ∅)
     = SSHWorker_run TerminalEmulator.emulator
         (SSHReadStdIOWorker (Some (Ret <$> [hello])) ∅).
Proof.
  assert (Hne : Forall (fun l : str => l <> []) [hello])
    by (repeat constructor; discriminate).
  split; [exact Hne |].
  exact (X5_nothing_read_past_the_end TerminalEmulator.emulator
           [hello] [Ret world] ∅ Hne).
Defined.

(** ** The store of clients *)

(** X6. [load_credentials] on one client changes that client only: the
    class attribute [default_client] and every other client object stay
    as they are, so a worker bound to another client sees no change; and
    a later load replaces the library of an earlier one. *)
Theorem X6_load_credentials_local
    (p : Process) (l : loc)
    (from_service_account_info : Value -> Res InstancesClient)
    (credentials : Value) (ic : InstancesClient) :
  from_service_account_info credentials = Ret ic ->
  is_Some (objects p !! l) ->
  exists p',
    load_credentials from_service_account_info l credentials p = Ret p'
    /\ default_client p' = default_client p
    /\ objects p' !! l = Some (MkClient (Some ic))
    /\ (forall l', l' <> l -> objects p' !! l' = objects p !! l')
    /\ (forall self,
           google_cloud_client self <> Some l ->
           client_of p' self = client_of p self)
    /\ (forall ic2,
           exists p'',
             load_credentials (fun _ => Ret ic2) l credentials p' = Ret p''
             /\ objects p'' !! l = Some (MkClient (Some ic2))).
Proof.
  intros Hfrom [c Hc]. unfold load_credentials. rewrite Hfrom.
  cbn [res_bind]. eexists. split; [reflexivity |].
  cbn [default_client objects].
  split; [reflexivity |]. split; [| split; [| split]].
  - rewrite lookup_alter, Hc. cbn.
    destruct (decide (l = l)); [reflexivity | congruence].
  - intros l' Hne. rewrite lookup_alter_ne by congruence. reflexivity.
  - intros self Hself. unfold client_of. cbn [objects].
    destruct (google_cloud_client self) as [l'|]; [| reflexivity].
    cbn. rewrite lookup_alter_ne by congruence. reflexivity.
  - intros ic2. eexists. split; [reflexivity |]. cbn [objects].
    rewrite !lookup_alter, Hc. cbn.
    destruct (decide (l = l)); [reflexivity | congruence].
Qed.

Lemma X6_witness :
  (fun _ : Value => Ret (client_returning (Ret done_operation))) VNone
  = Ret (client_returning (Ret done_operation))
  /\ is_Some (objects module_init !! 1%positive)
  /\ default_client working_process = default_client module_init.
Proof.
  assert (Hfrom :
            (fun _ : Value => Ret (client_returning (Ret done_operation)))
              VNone
            = Ret (client_returning (Ret done_operation))) by reflexivity.
  assert (Hlive : is_Some (objects module_init !! 1%positive))
    by (exists (MkClient None); reflexivity).
  split; [exact Hfrom |]. split; [exact Hlive |].
  destruct (X6_load_credentials_local module_init 1%positive _ VNone _
              Hfrom Hlive) as (p' & Hload & Hdefault & _).
  unfold working_process, process_with. cbn [default_client module_init].
  change (default_client module_init) with (Some 1%positive).
  cbv beta iota. rewrite Hload. exact Hdefault.
Defined.

(** X7. [GoogleCloudClient()] never aliases: the new object is at a
    location no object had, it has no credentials, and the objects there
    were, as well as [default_client], are untouched. *)
Theorem X7_new_client_is_fresh (p : Process) :
  let l := fst (GoogleCloudClient_new p) in
  let p' := snd (GoogleCloudClient_new p) in
  objects p !! l = None
  /\ objects p' !! l = Some (MkClient None)
  /\ (forall l' c, objects p !! l' = Some c -> objects p' !! l' = Some c)
  /\ default_client p' = default_client p.
Proof.
  cbn. assert (Hfresh : objects p !! fresh (dom (objects p)) = None).
  { apply not_elem_of_dom. apply is_fresh. }
  split; [exact Hfresh |]. split; [apply lookup_insert_eq |].
  split; [| reflexivity].
  intros l' c Hl'. rewrite lookup_insert_ne; [exact Hl' |].
  intros <-. rewrite Hfresh in Hl'. discriminate Hl'.
Qed.

(* ===================================================================== *)
(** * The spinner (widget.py) *)
(* ===================================================================== *)

Section Spinner.
Import Widget.

(** X8. For line numbers inside [0, total), the distance of a line from
    the primary line is again inside [0, total), it is the number of
    steps from the line forward to the primary one around the circle,
    and it is 0 for the primary line only. *)
Theorem X8_line_distance_around_the_circle (current primary total : Z) :
  0 <= current < total ->
  0 <= primary < total ->
  let distance := line_count_distance_from_primary current primary total in
  0 <= distance < total
  /\ (current + distance) mod total = primary
  /\ (distance = 0 <-> current = primary).
Proof.
  intros Hc Hp. unfold line_count_distance_from_primary. cbv zeta.
  destruct (Z.ltb_spec (primary - current) 0) as [Hneg|Hpos].
  - split; [lia |]. split; [| lia].
    replace (current + (primary - current + total))
      with (primary + 1 * total) by lia.
    rewrite Z_mod_plus_full. apply Z.mod_small. lia.
  - split; [lia |]. split; [| lia].
    replace (current + (primary - current)) with primary by lia.
    apply Z.mod_small. lia.
Qed.

Lemma X8_witness :
  0 <= 17 < 20 /\ 0 <= 3 < 20
  /\ (17 + line_count_distance_from_primary 17 3 20) mod 20 = 3.
Proof.
  assert (Hc : 0 <= 17 < 20) by lia.
  assert (Hp : 0 <= 3 < 20) by lia.
  split; [exact Hc |]. split; [exact Hp |].
  exact (proj1 (proj2 (X8_line_distance_around_the_circle 17 3 20 Hc Hp))).
Defined.

Lemma rotate_with_counter (self : Spinner) (counter : Z) :
  rotate (with_counter self counter)
  = with_counter self
      (if counter + 1 >=? _number_of_lines self then 0 else counter + 1).
Proof. reflexivity. Qed.

Lemma with_counter_same (self : Spinner) :
  with_counter self (_current_counter self) = self.
Proof. destruct self; reflexivity. Qed.

Lemma next_counter_mod (n m : Z) :
  0 < n -> 0 <= m < n ->
  (if m + 1 >=? n then 0 else m + 1) = (m + 1) mod n.
Proof.
  intros Hn Hm. destruct (Z.geb_spec (m + 1) n) as [Hge|Hlt].
  - replace (m + 1) with n by lia. symmetry. apply Z_mod_same_full.
  - symmetry. apply Z.mod_small. lia.
Qed.

Lemma rotate_iter (self : Spinner) (k : nat) :
  0 <= _current_counter self < _number_of_lines self ->
  Nat.iter k rotate self
  = with_counter self
      ((_current_counter self + Z.of_nat k) mod _number_of_lines self).
Proof.
  intros Hc. induction k as [|k IH].
  - change (Nat.iter 0 rotate self) with self.
    rewrite Z.add_0_r, Z.mod_small by lia.
    symmetry. apply with_counter_same.
  - change (Nat.iter (S k) rotate self)
      with (rotate (Nat.iter k rotate self)).
    rewrite IH, rotate_with_counter. f_equal.
    rewrite next_counter_mod; [| lia | apply Z.mod_pos_bound; lia].
    rewrite Z.add_mod_idemp_l by lia. f_equal. lia.
Qed.

(** X9. With the counter inside [0, number_of_lines), a tick of the timer
    moves the counter one line forward around the circle and changes
    nothing else; the counter stays inside the range, and after
    [number_of_lines] ticks the spinner is as it was. *)
Theorem X9_rotate_cycles (self : Spinner) :
  0 <= _current_counter self < _number_of_lines self ->
  rotate self
  = with_counter self
      ((_current_counter self + 1) mod _number_of_lines self)
  /\ 0 <= _current_counter (rotate self) < _number_of_lines self
  /\ Nat.iter (Z.to_nat (_number_of_lines self)) rotate self = self.
Proof.
  intros Hc.
  assert (Hone : rotate self
                 = with_counter self
                     ((_current_counter self + 1) mod _number_of_lines self)).
  { rewrite <- (with_counter_same self) at 1.
    rewrite rotate_with_counter, next_counter_mod by lia. reflexivity. }
  split; [exact Hone |]. split.
  - rewrite Hone. cbn [_current_counter with_counter].
    apply Z.mod_pos_bound. lia.
  - rewrite (rotate_iter self _ Hc), Z2Nat.id by lia.
    rewrite <- (Z.mul_1_l (_number_of_lines self)) at 1.
    rewrite Z_mod_plus_full, Z.mod_small by lia.
    apply with_counter_same.
Qed.

Lemma X9_witness :
  0 <= _current_counter child_spinner < _number_of_lines child_spinner
  /\ Nat.iter 20 rotate child_spinner = child_spinner.
Proof.
  assert (Hc : 0 <= _current_counter child_spinner
               < _number_of_lines child_spinner) by (cbn; lia).
  split; [exact Hc |].
  exact (proj2 (proj2 (X9_rotate_cycles child_spinner Hc))).
Defined.

(** X10. [start] on a spinner that has no parent and is set to disable
    its parent raises [AttributeError]: its test reads the method
    [parentWidget] instead of calling it.  The call leaves the spinner
    shown and marked as spinning, with its timer as it was.  [stop] on
    such a spinner returns normally. *)
Theorem X10_start_without_parent_raises (self : Spinner) :
  parentWidget self = None ->
  _disable_parent_when_spinning self = true ->
  snd (start self) = Raise (AttributeError "'NoneType' object has no attribute")
  /\ _is_spinning (fst (start self)) = true
  /\ isVisible (fst (start self)) = true
  /\ timer_isActive (fst (start self)) = timer_isActive self
  /\ snd (stop self) = Ret tt.
Proof.
  intros Hparent Hflag. destruct self; cbn in Hparent, Hflag. subst.
  unfold start, stop, update_position, set_parent_enabled. cbn.
  repeat split; reflexivity.
Qed.

Lemma X10_witness :
  parentWidget orphan_spinner = None
  /\ _disable_parent_when_spinning orphan_spinner = true
  /\ snd (start orphan_spinner)
     = Raise (AttributeError "'NoneType' object has no attribute").
Proof.
  assert (Hparent : parentWidget orphan_spinner = None) by reflexivity.
  assert (Hflag : _disable_parent_when_spinning orphan_spinner = true)
    by reflexivity.
  split; [exact Hparent |]. split; [exact Hflag |].
  exact (proj1 (X10_start_without_parent_raises orphan_spinner Hparent Hflag)).
Defined.

(** X11. On a spinner that has a parent, or is not set to disable it,
    [start] returns normally and leaves the spinner shown, spinning, with
    its timer active; a second [start] changes nothing (the counter is
    not set back while the timer runs); and [stop] after [start] leaves
    it hidden, not spinning, with the timer stopped and the counter at 0,
    the parent enabled again if it was to be disabled. *)
Theorem X11_start_then_stop (self : Spinner) :
  parentWidget self <> None \/ _disable_parent_when_spinning self = false ->
  let started := fst (start self) in
  let stopped := fst (stop started) in
  snd (start self) = Ret tt
  /\ _is_spinning started = true /\ isVisible started = true
  /\ timer_isActive started = true
  /\ start started = (started, Ret tt)
  /\ snd (stop started) = Ret tt
  /\ _is_spinning stopped = false /\ isVisible stopped = false
  /\ timer_isActive stopped = false /\ _current_counter stopped = 0
  /\ (_disable_parent_when_spinning self = true ->
      parent_enabled <$> parentWidget stopped = Some true).
Proof.
  intros Hok.
  destruct self as [[parent|] center disable n counter spinning active
                    visible px py w h];
    cbn in Hok.
  - destruct parent as [pw ph en].
    destruct center, disable, active; cbn; repeat split;
      try reflexivity; try discriminate.
  - destruct Hok as [Hok | ->]; [congruence |].
    destruct center, active; cbn; repeat split;
      try reflexivity; try discriminate.
Qed.

Lemma X11_witness :
  (parentWidget child_spinner <> None
   \/ _disable_parent_when_spinning child_spinner = false)
  /\ snd (start child_spinner) = Ret tt.
Proof.
  assert (Hok : parentWidget child_spinner <> None
                \/ _disable_parent_when_spinning child_spinner = false)
    by (left; discriminate).
  split; [exact Hok |].
  exact (proj1 (X11_start_then_stop child_spinner Hok)).
Defined.

(** X12. [update_position] centres the spinner on its parent: twice the
    offset differs from the free room (parent size minus spinner size) by
    at most one, in each direction, and its size is kept; with centring
    off, the spinner is not moved. *)
Theorem X12_update_position_centres (self : Spinner) (parent : Parent) :
  parentWidget self = Some parent ->
  (_center_on_parent self = true ->
   let moved := update_position self in
   -1 <= parent_width parent - width self - 2 * x moved <= 1
   /\ -1 <= parent_height parent - height self - 2 * y moved <= 1
   /\ width moved = width self /\ height moved = height self)
  /\ (_center_on_parent self = false -> update_position self = self).
Proof.
  intros Hparent. split.
  - intros Hcenter. unfold update_position. rewrite Hparent, Hcenter.
    cbn. unfold half_difference.
    pose proof (Z.quot_rem' (parent_width parent - width self) 2) as Hx.
    pose proof (Z.quot_rem' (parent_height parent - height self) 2) as Hy.
    pose proof (Z.rem_bound_abs (parent_width parent - width self) 2) as Bx.
    pose proof (Z.rem_bound_abs (parent_height parent - height self) 2) as By.
    repeat split; try lia.
  - intros Hcenter. unfold update_position. rewrite Hparent, Hcenter.
    reflexivity.
Qed.

Lemma X12_witness :
  parentWidget child_spinner = Some (MkParent 101 80 true)
  /\ x (update_position child_spinner) = 30
  /\ -1 <= 101 - 40 - 2 * x (update_position child_spinner) <= 1.
Proof.
  assert (Hparent : parentWidget child_spinner = Some (MkParent 101 80 true))
    by reflexivity.
  split; [exact Hparent |]. split; [reflexivity |].
  exact (proj1 (proj1 (X12_update_position_centres child_spinner _ Hparent)
                  eq_refl)).
Defined.

End Spinner.

(* ===================================================================== *)
(** * The tags dialog (dialog.py) *)
(* ===================================================================== *)

Section Tags.
Import TagsDialog.

Lemma contains_true (x : str) (l : list str) :
  contains x l = true <-> x ∈ l.
Proof. unfold contains. apply bool_decide_eq_true. Qed.

Lemma contains_false (x : str) (l : list str) :
  contains x l = false <-> x ∉ l.
Proof. unfold contains. apply bool_decide_eq_false. Qed.

Lemma remove_first_found (x : str) (l : list str) :
  x ∈ l -> exists l', remove_first x l = Some l'.
Proof.
  induction l as [|y l IH]; intros Hin.
  - inversion Hin.
  - cbn. destruct (decide (y = x)) as [_|Hne]; [eauto |].
    apply elem_of_cons in Hin as [-> | Hin]; [congruence |].
    destruct (IH Hin) as (l' & ->). cbn. eauto.
Qed.

(** Taking the first occurrence of [x] out does not touch what a filter
    that rejects [x] lets through. *)
Lemma remove_first_filter (keep : str -> bool) (x : str) (l l' : list str) :
  keep x = false ->
  remove_first x l = Some l' ->
  List.filter keep l' = List.filter keep l.
Proof.
  intros Hx. revert l'. induction l as [|y l IH]; intros l' Hrm.
  - discriminate Hrm.
  - cbn in Hrm. destruct (decide (y = x)) as [->|Hne].
    + injection Hrm as <-. cbn. rewrite Hx. reflexivity.
    + destruct (remove_first x l) as [l0|]; [| discriminate Hrm].
      injection Hrm as <-. cbn. rewrite (IH l0 eq_refl). reflexivity.
Qed.

(** In a list without repetition, taking [x] out once takes it out. *)
Lemma remove_first_NoDup (x : str) (l l' : list str) :
  NoDup l ->
  remove_first x l = Some l' ->
  l' = List.filter (fun s => negb (bool_decide (s = x))) l.
Proof.
  intros Hnd. revert l'. induction Hnd as [|y l Hy Hnd IH]; intros l' Hrm.
  - discriminate Hrm.
  - cbn in Hrm. cbn [List.filter]. destruct (decide (y = x)) as [->|Hne].
    + injection Hrm as <-.
      rewrite bool_decide_eq_true_2 by reflexivity. cbn [negb].
      clear IH Hnd. induction l as [|z l IHl]; [reflexivity |].
      cbn [List.filter].
      rewrite bool_decide_eq_false_2; [cbn [negb]; f_equal |].
      * apply IHl. intros Hin. apply Hy. right. exact Hin.
      * intros ->. apply Hy. left.
    + rewrite bool_decide_eq_false_2 by exact Hne. cbn [negb].
      destruct (remove_first x l) as [l0|]; [| discriminate Hrm].
      injection Hrm as <-. f_equal. apply IH. reflexivity.
Qed.

Lemma filter_absent (x : str) (l : list str) :
  x ∉ l -> List.filter (fun s => negb (bool_decide (s = x))) l = l.
Proof.
  induction l as [|y l IH]; intros Hx; [reflexivity |].
  cbn [List.filter]. rewrite bool_decide_eq_false_2.
  - cbn [negb]. f_equal. apply IH. intros Hin. apply Hx. right. exact Hin.
  - intros ->. apply Hx. left.
Qed.

Lemma filter_filter_other (l : list str) :
  List.filter (fun s => negb (bool_decide (s = https_server)))
    (List.filter (fun s => negb (bool_decide (s = http_server))) l)
  = other_tags l.
Proof.
  unfold other_tags. induction l as [|y l IH]; [reflexivity |].
  cbn [List.filter].
  destruct (negb (bool_decide (y = http_server))); cbn [andb List.filter];
    [| exact IH].
  destruct (negb (bool_decide (y = https_server))); [f_equal |]; exact IH.
Qed.

Lemma NoDup_filter_bool (keep : str -> bool) (l : list str) :
  NoDup l -> NoDup (List.filter keep l).
Proof.
  induction 1 as [|y l Hy Hnd IH]; cbn; [constructor |].
  destruct (keep y); [| exact IH].
  constructor; [| exact IH].
  intros Hin. apply Hy. apply list_elem_of_In in Hin.
  apply List.filter_In in Hin as [Hin _]. apply list_elem_of_In. exact Hin.
Qed.

Lemma other_tags_spec (s : str) (l : list str) :
  s ∈ other_tags l <-> s ∈ l /\ s <> http_server /\ s <> https_server.
Proof.
  unfold other_tags. rewrite !list_elem_of_In, List.filter_In.
  rewrite andb_true_iff, !negb_true_iff, !bool_decide_eq_false. tauto.
Qed.

Lemma other_tags_app (l1 l2 : list str) :
  other_tags (l1 ++ l2) = other_tags l1 ++ other_tags l2.
Proof. unfold other_tags. apply List.filter_app. Qed.

Lemma other_tags_checked (http https : bool) :
  other_tags (checked_tags http https) = [].
Proof. destruct http, https; reflexivity. Qed.

Lemma checked_tags_spec (s : str) (http https : bool) :
  s ∈ checked_tags http https
  <-> (s = http_server /\ http = true) \/ (s = https_server /\ https = true).
Proof.
  destruct http, https; cbn;
    rewrite ?elem_of_cons, ?elem_of_nil; intuition discriminate.
Qed.

Lemma NoDup_checked_tags (http https : bool) :
  NoDup (checked_tags http https).
Proof.
  destruct http, https; cbn; repeat constructor;
    rewrite ?elem_of_cons, ?elem_of_nil; intuition discriminate.
Qed.

Lemma other_tags_idem (l : list str) : other_tags (other_tags l) = other_tags l.
Proof.
  unfold other_tags. induction l as [|y l IH]; [reflexivity |].
  cbn [List.filter].
  destruct (negb (bool_decide (y = http_server))
            && negb (bool_decide (y = https_server))) eqn:Hy;
    [| exact IH].
  cbn [List.filter]. rewrite Hy. f_equal. exact IH.
Qed.

(** The list [button_set_clicked] leaves, step by step. *)
Lemma button_set_clicked_items (t : Tags) (http https done : bool) :
  exists items1 items2,
    (items1 = items t \/ remove_first http_server (items t) = Some items1)
    /\ (items2 = items1 \/ remove_first https_server items1 = Some items2)
    /\ (http_server ∈ items t ->
        remove_first http_server (items t) = Some items1)
    /\ (https_server ∈ items1 ->
        remove_first https_server items1 = Some items2)
    /\ (http_server ∉ items t -> items1 = items t)
    /\ (https_server ∉ items1 -> items2 = items1)
    /\ button_set_clicked (MkDialog (Some t) http https done)
       = Ret (MkDialog
                (Some (MkTags (items2 ++ checked_tags http https)
                         (fingerprint t)))
                http https true).
Proof.
  unfold button_set_clicked. cbn [tags check_http_server check_https_server].
  assert (Hstep : forall x l,
             exists l1,
               (if contains x l then list_remove x l else Ret l) = Ret l1
               /\ (l1 = l \/ remove_first x l = Some l1)
               /\ (x ∈ l -> remove_first x l = Some l1)
               /\ (x ∉ l -> l1 = l)).
  { intros x l. destruct (contains x l) eqn:Hc.
    - apply contains_true in Hc.
      destruct (remove_first_found x l Hc) as (l1 & Hrm).
      exists l1. unfold list_remove. rewrite Hrm.
      repeat split; auto. intros Hno. contradiction.
    - apply contains_false in Hc. exists l.
      repeat split; auto. intros Hin. contradiction. }
  destruct (Hstep http_server (items t)) as (items1 & E1 & H1 & H1in & H1out).
  rewrite E1. cbn [res_bind].
  destruct (Hstep https_server items1) as (items2 & E2 & H2 & H2in & H2out).
  rewrite E2. cbn [res_bind].
  exists items1, items2.
  repeat split; try assumption.
  destruct http, https; cbn [checked_tags app];
    rewrite <- ?app_assoc, ?app_nil_r; reflexivity.
Qed.

(** Without repeated tags, what Set leaves is the other tags followed by
    the tags of the checked boxes. *)
Lemma set_tags_NoDup (t : Tags) (http https done : bool) :
  NoDup (items t) ->
  button_set_clicked (MkDialog (Some t) http https done)
  = Ret (MkDialog
           (Some (MkTags (other_tags (items t) ++ checked_tags http https)
                    (fingerprint t)))
           http https true).
Proof.
  intros Hnd.
  destruct (button_set_clicked_items t http https done)
    as (items1 & items2 & H1 & H2 & H1in & H2in & H1out & H2out & Hset).
  rewrite Hset.
  assert (E1 : items1
               = List.filter
                   (fun s => negb (bool_decide (s = http_server)))
                   (items t)).
  { destruct (decide (http_server ∈ items t)) as [Hin|Hout].
    - apply remove_first_NoDup; [exact Hnd | exact (H1in Hin)].
    - rewrite (H1out Hout). symmetry. apply filter_absent. exact Hout. }
  assert (Hnd1 : NoDup items1)
    by (rewrite E1; apply NoDup_filter_bool; exact Hnd).
  assert (E2 : items2 = other_tags (items t)).
  { rewrite <- filter_filter_other, <- E1.
    destruct (decide (https_server ∈ items1)) as [Hin|Hout].
    - apply remove_first_NoDup; [exact Hnd1 | exact (H2in Hin)].
    - rewrite (H2out Hout). symmetry. apply filter_absent. exact Hout. }
  rewrite E2. reflexivity.
Qed.

Lemma elem_of_set_tags (s : str) (l : list str) (http https : bool) :
  s ∈ other_tags l ++ checked_tags http https
  <-> (s ∈ l /\ s <> http_server /\ s <> https_server)
      \/ (s = http_server /\ http = true)
      \/ (s = https_server /\ https = true).
Proof. rewrite elem_of_app, other_tags_spec, checked_tags_spec. tauto. Qed.

Lemma NoDup_set_tags (l : list str) (http https : bool) :
  NoDup l -> NoDup (other_tags l ++ checked_tags http https).
Proof.
  intros Hnd. apply NoDup_app. split; [| split].
  - apply NoDup_filter_bool. exact Hnd.
  - intros s Hs Hin. apply other_tags_spec in Hs.
    apply checked_tags_spec in Hin. tauto.
  - apply NoDup_checked_tags.
Qed.

(** X13. Pressing Set never fails on a dialog that was given tags; it
    keeps the fingerprint and accepts the dialog.  The tags other than
    [http-server] and [https-server] stay, in their order, and a checked
    box puts its tag in.  If no tag was repeated, the result is exactly
    the other tags followed by the tags of the checked boxes: a tag is
    there if and only if its box is checked. *)
Theorem X13_set_tags (t : Tags) (http https : bool) :
  exists items',
    button_set_clicked (MkDialog (Some t) http https false)
    = Ret (MkDialog (Some (MkTags items' (fingerprint t))) http https true)
    /\ other_tags items' = other_tags (items t)
    /\ (http = true -> http_server ∈ items')
    /\ (https = true -> https_server ∈ items')
    /\ (NoDup (items t) ->
        items' = other_tags (items t) ++ checked_tags http https
        /\ NoDup items'
        /\ (http_server ∈ items' <-> http = true)
        /\ (https_server ∈ items' <-> https = true)).
Proof.
  destruct (button_set_clicked_items t http https false)
    as (items1 & items2 & H1 & H2 & H1in & H2in & H1out & H2out & Hset).
  exists (items2 ++ checked_tags http https).
  split; [exact Hset |].
  assert (Hother : other_tags items2 = other_tags (items t)).
  { transitivity (other_tags items1).
    - destruct H2 as [-> | H2]; [reflexivity |].
      apply (remove_first_filter _ https_server); [reflexivity | exact H2].
    - destruct H1 as [-> | H1]; [reflexivity |].
      apply (remove_first_filter _ http_server); [reflexivity | exact H1]. }
  split; [| split; [| split]].
  - rewrite other_tags_app, other_tags_checked, app_nil_r. exact Hother.
  - intros ->. apply elem_of_app. right.
    unfold checked_tags. apply elem_of_app. left. left.
  - intros ->. apply elem_of_app. right.
    unfold checked_tags. apply elem_of_app. right. left.
  - intros Hnd.
    pose proof (set_tags_NoDup t http https false Hnd) as Hclosed.
    rewrite Hset in Hclosed. injection Hclosed as ->.
    split; [reflexivity |]. split; [| split].
    + apply NoDup_set_tags. exact Hnd.
    + rewrite elem_of_set_tags. split.
      * intros [[_ [Hne _]] | [[_ Hin] | [Hin _]]];
          [congruence | exact Hin | discriminate Hin].
      * intros ->. right. left. split; reflexivity.
    + rewrite elem_of_set_tags. split.
      * intros [[_ [_ Hne]] | [[Hin _] | [_ Hin]]];
          [congruence | discriminate Hin | exact Hin].
      * intros ->. right. right. split; reflexivity.
Qed.

Lemma X13_witness :
  NoDup (items web_tags)
  /\ button_set_clicked (MkDialog (Some web_tags) false true false)
     = Ret (MkDialog
              (Some (MkTags [lit "db"; lit "internal"; https_server]
                       (fingerprint web_tags)))
              false true true).
Proof.
  assert (Hnd : NoDup (items web_tags))
    by (apply (bool_decide_unpack _); vm_compute; exact I).
  split; [exact Hnd |].
  destruct (X13_set_tags web_tags false true)
    as (items' & Hset & _ & _ & _ & Hclosed).
  rewrite Hset. destruct (Hclosed Hnd) as (-> & _). reflexivity.
Defined.

End Tags.

Section TagsRoundTrip.
Import TagsDialog.

(** The dialog as opened shows, for each of the two tags, whether the
    instance has it. *)
Lemma opened_tags_dialog_boxes (t : Tags) :
  opened_tags_dialog t
  = MkDialog (Some t) (contains http_server (items t))
      (contains https_server (items t)) false.
Proof.
  unfold opened_tags_dialog, update_widgets. cbn [tags accepted].
  destruct (Tags_bool t) eqn:Hb; [reflexivity |].
  destruct t as [[|s l] [f|]]; try discriminate Hb. reflexivity.
Qed.

(** X14. Opening the dialog on the tags of an instance (no tag repeated)
    and pressing Set without touching a box gives the instance the same
    tags again: the result is a rearrangement of the tags there were. *)
Theorem X14_open_then_set_keeps_the_tags (t : Tags) :
  NoDup (items t) ->
  exists items' http https,
    button_set_clicked (opened_tags_dialog t)
    = Ret (MkDialog (Some (MkTags items' (fingerprint t))) http https true)
    /\ items' ≡ₚ items t.
Proof.
  intros Hnd. rewrite opened_tags_dialog_boxes.
  rewrite (set_tags_NoDup t _ _ false Hnd).
  eexists _, _, _. split; [reflexivity |].
  apply NoDup_Permutation; [apply NoDup_set_tags; exact Hnd | exact Hnd |].
  intros s. rewrite elem_of_set_tags, !contains_true. split.
  - intros [[Hin _] | [[-> Hin] | [-> Hin]]]; assumption.
  - intros Hin.
    destruct (decide (s = http_server)) as [->|Hne1]; [right; left; tauto |].
    destruct (decide (s = https_server)) as [->|Hne2]; [right; right; tauto |].
    left. tauto.
Qed.

Lemma X14_witness :
  NoDup (items web_tags)
  /\ exists items' http https,
       button_set_clicked (opened_tags_dialog web_tags)
       = Ret (MkDialog (Some (MkTags items' (fingerprint web_tags)))
                http https true)
       /\ items' ≡ₚ items web_tags.
Proof.
  assert (Hnd : NoDup (items web_tags))
    by (apply (bool_decide_unpack _); vm_compute; exact I).
  split; [exact Hnd |].
  exact (X14_open_then_set_keeps_the_tags web_tags Hnd).
Defined.

(** X15. With no tag repeated, pressing Set a second time changes
    nothing. *)
Theorem X15_set_tags_twice
    (t : Tags) (http https : bool) (once : SetInstanceTagsDialog) :
  NoDup (items t) ->
  button_set_clicked (MkDialog (Some t) http https false) = Ret once ->
  button_set_clicked once = Ret once.
Proof.
  intros Hnd Hset. rewrite (set_tags_NoDup t http https false Hnd) in Hset.
  injection Hset as <-.
  rewrite set_tags_NoDup by (apply NoDup_set_tags; exact Hnd).
  cbn [items fingerprint].
  rewrite other_tags_app, other_tags_idem, other_tags_checked, app_nil_r.
  reflexivity.
Qed.

Lemma X15_witness :
  NoDup (items web_tags)
  /\ button_set_clicked (MkDialog (Some web_tags) false true false)
     = Ret (MkDialog
              (Some (MkTags [lit "db"; lit "internal"; https_server]
                       (fingerprint web_tags)))
              false true true)
  /\ button_set_clicked
       (MkDialog
          (Some (MkTags [lit "db"; lit "internal"; https_server]
                   (fingerprint web_tags)))
          false true true)
     = Ret (MkDialog
              (Some (MkTags [lit "db"; lit "internal"; https_server]
                       (fingerprint web_tags)))
              false true true).
Proof.
  assert (Hnd : NoDup (items web_tags))
    by (apply (bool_decide_unpack _); vm_compute; exact I).
  assert (Hset : button_set_clicked (MkDialog (Some web_tags) false true false)
                 = Ret (MkDialog
                          (Some (MkTags
                                   [lit "db"; lit "internal"; https_server]
                                   (fingerprint web_tags)))
                          false true true))
    by (vm_compute; reflexivity).
  split; [exact Hnd |]. split; [exact Hset |].
  exact (X15_set_tags_twice web_tags false true _ Hnd Hset).
Defined.

End TagsRoundTrip.

(* ===================================================================== *)
(** * The metadata dialog (dialog.py) *)
(* ===================================================================== *)

Section Metadata.
Import MetadataDialog.

Lemma dict_get_None (k : str) (d : Dict) :
  dict_get k d = None <-> k ∉ keys d.
Proof.
  induction d as [|[k' v'] d IH]; cbn.
  - split; [intros _ H; inversion H | reflexivity].
  - destruct (decide (k' = k)) as [->|Hne].
    + split; [discriminate | intros H; exfalso; apply H; left].
    + rewrite IH, not_elem_of_cons.
      split; [intros H; split; [congruence | exact H] | tauto].
Qed.

Lemma dict_set_new (k v : str) (d : Dict) :
  k ∉ keys d -> dict_set k v d = d ++ [(k, v)].
Proof.
  induction d as [|[k' v'] d IH]; cbn; [reflexivity |].
  rewrite not_elem_of_cons. intros [Hne Hk].
  destruct (decide (k' = k)); [congruence |]. rewrite (IH Hk). reflexivity.
Qed.

Lemma dict_get_set_eq (k v : str) (d : Dict) :
  dict_get k (dict_set k v d) = Some v.
Proof.
  induction d as [|[k' v'] d IH]; cbn.
  - destruct (decide (k = k)); [reflexivity | congruence].
  - destruct (decide (k' = k)) as [->|Hne]; cbn.
    + destruct (decide (k = k)); [reflexivity | congruence].
    + destruct (decide (k' = k)); [congruence | exact IH].
Qed.

Lemma dict_get_set_ne (k k' v : str) (d : Dict) :
  k <> k' -> dict_get k (dict_set k' v d) = dict_get k d.
Proof.
  intros Hne. induction d as [|[k0 v0] d IH]; cbn.
  - destruct (decide (k' = k)); [congruence | reflexivity].
  - destruct (decide (k0 = k')) as [->|Hne0]; cbn.
    + destruct (decide (k' = k)); [congruence | reflexivity].
    + destruct (decide (k0 = k)); [reflexivity | exact IH].
Qed.

Lemma keys_dict_set_old (k v : str) (d : Dict) :
  k ∈ keys d -> keys (dict_set k v d) = keys d.
Proof.
  induction d as [|[k' v'] d IH]; cbn; [intros H; inversion H |].
  intros Hin. destruct (decide (k' = k)) as [->|Hne]; [reflexivity |].
  cbn. f_equal. apply IH.
  apply elem_of_cons in Hin as [-> | Hin]; [congruence | exact Hin].
Qed.

Lemma dict_get_app_l (k : str) (d1 d2 : Dict) :
  k ∈ keys d1 -> dict_get k (d1 ++ d2) = dict_get k d1.
Proof.
  induction d1 as [|[k' v'] d1 IH]; cbn; [intros H; inversion H |].
  intros Hin. destruct (decide (k' = k)) as [->|Hne]; [reflexivity |].
  apply IH. apply elem_of_cons in Hin as [-> | Hin]; [congruence | exact Hin].
Qed.

Lemma findText_Some (text : str) (l : list str) (i : nat) :
  findText text l = Some i -> (i < length l)%nat.
Proof.
  revert i. induction l as [|t l IH]; intros i; cbn; [discriminate |].
  destruct (decide (t = text)).
  - intros [= <-]. lia.
  - destruct (findText text l) as [j|]; [| discriminate].
    cbn. intros [= <-]. specialize (IH j eq_refl). lia.
Qed.

Lemma keys_dict_set_incl (k k' v : str) (d : Dict) :
  k ∈ keys d -> k ∈ keys (dict_set k' v d).
Proof.
  intros Hin. destruct (decide (k' ∈ keys d)) as [Hold|Hnew].
  - rewrite keys_dict_set_old by exact Hold. exact Hin.
  - rewrite dict_set_new by exact Hnew. unfold keys. rewrite fmap_app.
    apply elem_of_app. left. exact Hin.
Qed.

Variable as_plain_text : str -> str.

(** Setting the index touches the index and the value field only. *)
Lemma setCurrentIndex_fields (d : SetInstanceMetadataDialog) (i : nat) :
  let d' := select_key_setCurrentIndex as_plain_text d i in
  metadata d' = metadata d /\ metadata_items d' = metadata_items d
  /\ accepted d' = accepted d
  /\ texts (select_key d') = texts (select_key d)
  /\ currentIndex (select_key d') = Some i.
Proof.
  unfold select_key_setCurrentIndex.
  destruct (decide (currentIndex (select_key d) = Some i)) as [Heq|Hne].
  - repeat split; try reflexivity. exact Heq.
  - unfold select_key_item_changed, input_value_setText.
    cbn [select_key metadata_items].
    destruct (dict_get _ _); repeat split; reflexivity.
Qed.

Lemma setCurrentIndex_keeps (d : SetInstanceMetadataDialog) (i : nat) :
  box_shows_keys d ->
  (i < length (texts (select_key d)))%nat ->
  box_shows_keys (select_key_setCurrentIndex as_plain_text d i).
Proof.
  intros (Htexts & Hnd & _) Hi.
  destruct (setCurrentIndex_fields d i) as (_ & Hitems & _ & Ht & Hidx).
  unfold box_shows_keys. rewrite Hitems, Ht, Hidx. tauto.
Qed.

(** Adding an item whose key was just entered into the dictionary. *)
Lemma addItem_new (d : SetInstanceMetadataDialog) (k v : str) :
  box_shows_keys d ->
  k ∉ keys (metadata_items d) ->
  let d' :=
    select_key_addItem as_plain_text
      (MkDialog (metadata d) (dict_set k v (metadata_items d))
         (select_key d) (input_value d) (accepted d)) k in
  box_shows_keys d'
  /\ metadata d' = metadata d
  /\ metadata_items d' = metadata_items d ++ [(k, v)]
  /\ accepted d' = accepted d
  /\ match currentIndex (select_key d) with
     | Some i =>
         currentIndex (select_key d') = Some i
         /\ input_value d' = input_value d
     | None =>
         currentIndex (select_key d') = Some 0%nat
         /\ input_value d' = as_plain_text v
     end.
Proof.
  intros (Htexts & Hnd & Hidx) Hk. cbv zeta.
  rewrite (dict_set_new k v _ Hk).
  assert (Hnd' : NoDup (keys (metadata_items d ++ [(k, v)]))).
  { unfold keys. rewrite fmap_app. apply NoDup_app.
    split; [exact Hnd |]. split; [| cbn; apply NoDup_singleton].
    intros s Hs Hin. cbn in Hin. apply list_elem_of_singleton in Hin.
    subst. exact (Hk Hs). }
  unfold select_key_addItem. cbn [select_key metadata metadata_items
                                  input_value accepted].
  destruct (currentIndex (select_key d)) as [i|] eqn:Hcur.
  - assert (Hsame :
              match texts (select_key d), @Some nat i with
              | [], None =>
                  select_key_setCurrentIndex as_plain_text
                    (MkDialog (metadata d) (metadata_items d ++ [(k, v)])
                       (MkCombo (texts (select_key d) ++ [k]) (Some i))
                       (input_value d) (accepted d)) 0
              | _, _ =>
                  MkDialog (metadata d) (metadata_items d ++ [(k, v)])
                    (MkCombo (texts (select_key d) ++ [k]) (Some i))
                    (input_value d) (accepted d)
              end
              = MkDialog (metadata d) (metadata_items d ++ [(k, v)])
                  (MkCombo (texts (select_key d) ++ [k]) (Some i))
                  (input_value d) (accepted d))
      by (destruct (texts (select_key d)); reflexivity).
    rewrite Hsame. unfold box_shows_keys. cbn.
    repeat split; try reflexivity.
    + rewrite Htexts. unfold keys. rewrite fmap_app. reflexivity.
    + exact Hnd'.
    + rewrite length_app. cbn. lia.
  - rewrite Hidx. rewrite Hidx in Htexts.
    assert (Hempty : metadata_items d = []).
    { destruct (metadata_items d); [reflexivity | discriminate Htexts]. }
    rewrite Hempty in *. cbn [app].
    unfold select_key_setCurrentIndex. cbn [select_key currentIndex].
    destruct (decide (None = Some 0%nat)) as [Habs|_]; [discriminate Habs |].
    unfold select_key_item_changed, input_value_setText, currentText.
    cbn. destruct (decide (k = k)); [| congruence].
    unfold box_shows_keys. cbn. repeat split; try reflexivity.
    + apply NoDup_singleton.
    + lia.
Qed.

(** The loop of [update_widgets] on items with distinct keys, none of
    them in the dictionary yet. *)
Lemma update_items_spec (its : list (str * str)) :
  forall d : SetInstanceMetadataDialog,
    box_shows_keys d ->
    NoDup (keys (metadata_items d ++ its)) ->
    let d' := fold_left (update_item as_plain_text) its d in
    box_shows_keys d'
    /\ metadata d' = metadata d
    /\ metadata_items d' = metadata_items d ++ its
    /\ accepted d' = accepted d
    /\ match currentIndex (select_key d), its with
       | None, (k, v) :: _ =>
           currentIndex (select_key d') = Some 0%nat
           /\ input_value d' = as_plain_text v
       | _, _ =>
           currentIndex (select_key d') = currentIndex (select_key d)
           /\ input_value d' = input_value d
       end.
Proof.
  induction its as [|[k v] its IH]; intros d Hbox Hnd; cbv zeta.
  - cbn [fold_left]. rewrite app_nil_r.
    split; [exact Hbox |]. do 3 (split; [reflexivity |]).
    destruct (currentIndex (select_key d)); split; reflexivity.
  - cbn [fold_left].
    assert (Hk : k ∉ keys (metadata_items d)).
    { pose proof Hnd as Hnd0. unfold keys in Hnd0. rewrite fmap_app in Hnd0.
      apply NoDup_app in Hnd0 as (_ & Hdisj & _).
      intros Hin. apply (Hdisj k Hin). left. }
    pose proof (addItem_new d k v Hbox Hk) as Hadd. cbv zeta in Hadd.
    change (select_key_addItem as_plain_text _ k)
      with (update_item as_plain_text d (k, v)) in Hadd.
    set (d1 := update_item as_plain_text d (k, v)) in *.
    destruct Hadd as (Hbox1 & Hm1 & Hitems1 & Hacc1 & Hcur1).
    assert (Hnd1 : NoDup (keys (metadata_items d1 ++ its)))
      by (rewrite Hitems1, <- app_assoc; exact Hnd).
    destruct (IH d1 Hbox1 Hnd1) as (Hbox' & Hm' & Hitems' & Hacc' & Hcur').
    split; [exact Hbox' |]. split; [congruence |].
    split; [rewrite Hitems', Hitems1, <- app_assoc; reflexivity |].
    split; [congruence |].
    destruct (currentIndex (select_key d)) as [i|].
    + destruct Hcur1 as [Hi Hv]. rewrite Hi in Hcur'.
      destruct Hcur' as [Hi' Hv']. split; congruence.
    + destruct Hcur1 as [Hi Hv]. rewrite Hi in Hcur'.
      destruct Hcur' as [Hi' Hv']. split; congruence.
Qed.

(** X16. Opening the dialog on the metadata of an instance (no key twice)
    and pressing Set without touching anything hands back the same
    metadata, provided the value field shows the first value as it is:
    that value is the one written back. *)
Theorem X16_open_then_set_keeps_metadata (m : Metadata) :
  NoDup (keys (items m)) ->
  (forall k v, head (items m) = Some (k, v) -> as_plain_text v = v) ->
  exists opened after,
    update_widgets as_plain_text (metadata_dialog_for m) = Ret opened
    /\ button_set_clicked opened = Ret after
    /\ metadata after = Some m
    /\ accepted after = true.
Proof.
  intros Hnd Hplain.
  set (d0 := metadata_dialog_for m).
  assert (Hbox0 : box_shows_keys d0).
  { unfold box_shows_keys. cbn. repeat split; try reflexivity. constructor. }
  destruct (update_items_spec (items m) d0 Hbox0 Hnd)
    as (Hbox & Hm & Hitems & Hacc & Hcur).
  set (opened := fold_left (update_item as_plain_text) (items m) d0) in *.
  cbn [metadata metadata_items currentIndex select_key d0
         metadata_dialog_for app] in Hm, Hitems, Hcur.
  assert (Hup : update_widgets as_plain_text (metadata_dialog_for m)
                = Ret opened) by reflexivity.
  clearbody opened. subst d0.
  assert (Hkey : match currentText (select_key opened) with
                 | [] => metadata_items opened
                 | _ :: _ =>
                     dict_set (currentText (select_key opened))
                       (input_value opened) (metadata_items opened)
                 end = items m).
  { destruct Hbox as (Htexts & _ & _). rewrite Hitems in *.
    unfold currentText. destruct (items m) as [|[k v] its] eqn:Hits.
    - destruct Hcur as [-> _]. reflexivity.
    - destruct Hcur as [-> Hv]. rewrite Htexts.
      change (default [] (keys ((k, v) :: its) !! 0%nat)) with k.
      destruct k as [|c k]; [reflexivity |].
      rewrite Hv, (Hplain (c :: k) v eq_refl). cbn [dict_set].
      case_decide; [reflexivity | congruence]. }
  exists opened. eexists. split; [exact Hup |].
  unfold button_set_clicked. rewrite Hm, Hkey.
  split; [reflexivity |]. cbn [metadata accepted].
  split; [| reflexivity]. destruct m; reflexivity.
Qed.

End Metadata.

Lemma X16_witness :
  NoDup (keys (MetadataDialog.items some_metadata))
  /\ (forall k v,
         head (MetadataDialog.items some_metadata) = Some (k, v) ->
         (fun text : str => text) v = v)
  /\ exists opened after,
       MetadataDialog.update_widgets (fun text => text)
         (metadata_dialog_for some_metadata) = Ret opened
       /\ MetadataDialog.button_set_clicked opened = Ret after
       /\ MetadataDialog.metadata after = Some some_metadata
       /\ MetadataDialog.accepted after = true.
Proof.
  assert (Hnd : NoDup (keys (MetadataDialog.items some_metadata)))
    by (apply (bool_decide_unpack _); vm_compute; exact I).
  assert (Hplain : forall k v,
             head (MetadataDialog.items some_metadata) = Some (k, v) ->
             (fun text : str => text) v = v)
    by (intros k v _; reflexivity).
  split; [exact Hnd |]. split; [exact Hplain |].
  exact (X16_open_then_set_keeps_metadata (fun text => text)
           some_metadata Hnd Hplain).
Defined.

Section MetadataTrace.
Import MetadataDialog.
Variable as_plain_text : str -> str.

Lemma nothing_added (d d' : SetInstanceMetadataDialog) :
  box_shows_keys d' ->
  metadata d' = metadata d ->
  accepted d' = accepted d ->
  metadata_items d' = metadata_items d ->
  only_blank_keys_added d d'.
Proof.
  intros Hbox Hm Hacc Hitems.
  split; [exact Hbox |]. split; [exact Hm |]. split; [exact Hacc |].
  exists []. rewrite Hitems, app_nil_r. reflexivity.
Qed.

Lemma setCurrentIndex_trace (d : SetInstanceMetadataDialog) (i : nat) :
  box_shows_keys d ->
  (i < length (texts (select_key d)))%nat ->
  only_blank_keys_added d (select_key_setCurrentIndex as_plain_text d i).
Proof.
  intros Hbox Hi.
  destruct (setCurrentIndex_fields as_plain_text d i)
    as (Hm & Hitems & Hacc & _ & _).
  apply nothing_added; try assumption.
  apply setCurrentIndex_keeps; assumption.
Qed.

Lemma setCurrentText_trace (d : SetInstanceMetadataDialog) (text : str) :
  box_shows_keys d ->
  only_blank_keys_added d (select_key_setCurrentText as_plain_text d text).
Proof.
  intros Hbox. unfold select_key_setCurrentText.
  destruct (findText text (texts (select_key d))) as [i|] eqn:Hfind.
  - apply setCurrentIndex_trace; [exact Hbox |].
    exact (findText_Some _ _ _ Hfind).
  - apply nothing_added; reflexivity || exact Hbox.
Qed.

Lemma only_blank_keys_added_trans (d1 d2 d3 : SetInstanceMetadataDialog) :
  only_blank_keys_added d1 d2 ->
  only_blank_keys_added d2 d3 ->
  only_blank_keys_added d1 d3.
Proof.
  intros (_ & Hm1 & Hacc1 & added1 & Hitems1)
         (Hbox & Hm2 & Hacc2 & added2 & Hitems2).
  split; [exact Hbox |]. split; [congruence |]. split; [congruence |].
  exists (added1 ++ added2). rewrite Hitems2, Hitems1.
  unfold blank_entries. rewrite fmap_app, app_assoc. reflexivity.
Qed.

Lemma handle_trace (d : SetInstanceMetadataDialog) (a : Action) :
  box_shows_keys d ->
  only_blank_keys_added d (handle as_plain_text d a).
Proof.
  intros Hbox. destruct a as [i|text|[key|]]; cbn [handle].
  - destruct (Nat.ltb_spec i (length (texts (select_key d)))) as [Hi|_].
    + apply setCurrentIndex_trace; assumption.
    + apply nothing_added; reflexivity || exact Hbox.
  - apply nothing_added; reflexivity || exact Hbox.
  - unfold button_add_key_clicked.
    destruct (dict_get key (metadata_items d)) as [value|] eqn:Hget.
    + apply setCurrentText_trace. exact Hbox.
    + apply dict_get_None in Hget.
      destruct (addItem_new as_plain_text d key [] Hbox Hget)
        as (Hbox1 & Hm1 & Hitems1 & Hacc1 & _).
      eapply only_blank_keys_added_trans;
        [| apply setCurrentText_trace; exact Hbox1].
      split; [exact Hbox1 |]. split; [exact Hm1 |]. split; [exact Hacc1 |].
      exists [key]. exact Hitems1.
  - apply nothing_added; reflexivity || exact Hbox.
Qed.

Lemma handle_all_trace (acts : list Action) :
  forall d : SetInstanceMetadataDialog,
    box_shows_keys d ->
    only_blank_keys_added d (fold_left (handle as_plain_text) acts d).
Proof.
  induction acts as [|a acts IH]; intros d Hbox; cbn [fold_left].
  - apply nothing_added; reflexivity || exact Hbox.
  - pose proof (handle_trace d a Hbox) as Hstep.
    eapply only_blank_keys_added_trans; [exact Hstep |].
    apply IH. exact (proj1 Hstep).
Qed.

(** X17. Whatever the operator does in the dialog before pressing Set
    (selecting keys, typing values, adding keys), Set stores a value for
    one key only, the one selected at that moment: no key of the
    instance is dropped, every other key of the instance keeps the value
    it had (text typed for a key and left behind by selecting another
    key is not stored), and the selected key gets the text of the value
    field. *)
Theorem X17_set_stores_the_selected_key_only
    (m : Metadata) (acts : list Action) :
  NoDup (keys (items m)) ->
  exists opened,
    update_widgets as_plain_text (metadata_dialog_for m) = Ret opened
    /\ let d := fold_left (handle as_plain_text) acts opened in
       let selected := currentText (select_key d) in
       exists after items',
         button_set_clicked d = Ret after
         /\ metadata after = Some (MkMetadata items' (fingerprint m))
         /\ accepted after = true
         /\ (forall k, k ∈ keys (items m) -> k ∈ keys items')
         /\ (forall k,
                k ∈ keys (items m) -> k <> selected ->
                dict_get k items' = dict_get k (items m))
         /\ (selected <> [] -> dict_get selected items' = Some (input_value d)).
Proof.
  intros Hnd.
  set (d0 := metadata_dialog_for m).
  assert (Hbox0 : box_shows_keys d0).
  { unfold box_shows_keys. cbn. repeat split; try reflexivity. constructor. }
  destruct (update_items_spec as_plain_text (items m) d0 Hbox0 Hnd)
    as (Hbox & Hm & Hitems & _ & _).
  set (opened := fold_left (update_item as_plain_text) (items m) d0) in *.
  cbn [metadata metadata_items d0 metadata_dialog_for app] in Hm, Hitems.
  assert (Hup : update_widgets as_plain_text (metadata_dialog_for m)
                = Ret opened) by reflexivity.
  clearbody opened. subst d0.
  exists opened. split; [exact Hup |]. cbv zeta.
  destruct (handle_all_trace acts opened Hbox)
    as (_ & Hm' & _ & added & Hitems').
  set (d := fold_left (handle as_plain_text) acts opened) in *.
  clearbody d. rewrite Hm in Hm'. rewrite Hitems in Hitems'.
  unfold button_set_clicked. rewrite Hm'. eexists _, _.
  split; [reflexivity |]. cbn [metadata accepted].
  split; [reflexivity |]. split; [reflexivity |].
  assert (Hin : forall k, k ∈ keys (items m) -> k ∈ keys (metadata_items d)).
  { intros k Hk. rewrite Hitems'. unfold keys. rewrite fmap_app.
    apply elem_of_app. left. exact Hk. }
  assert (Hget : forall k, k ∈ keys (items m) ->
                           dict_get k (metadata_items d)
                           = dict_get k (items m)).
  { intros k Hk. rewrite Hitems'. apply dict_get_app_l. exact Hk. }
  destruct (currentText (select_key d)) as [|c key]; split; [| split | | split].
  - exact Hin.
  - intros k Hk _. apply Hget. exact Hk.
  - congruence.
  - intros k Hk. apply keys_dict_set_incl, Hin. exact Hk.
  - intros k Hk Hne. rewrite dict_get_set_ne by exact Hne.
    apply Hget. exact Hk.
  - intros _. apply dict_get_set_eq.
Qed.

End MetadataTrace.

Lemma X17_witness :
  NoDup (keys (MetadataDialog.items some_metadata))
  /\ exists opened,
       MetadataDialog.update_widgets (fun text => text)
         (metadata_dialog_for some_metadata) = Ret opened
       /\ exists after items',
            MetadataDialog.button_set_clicked
              (fold_left (MetadataDialog.handle (fun text => text))
                 [MetadataDialog.TypeValue (lit "root:ssh-rsa BBBB");
                  MetadataDialog.SelectKey 1]
                 opened) = Ret after
            /\ MetadataDialog.metadata after
               = Some (MetadataDialog.MkMetadata items'
                         (MetadataDialog.fingerprint some_metadata))
            /\ MetadataDialog.dict_get (lit "ssh-keys") items'
               = Some (lit "admin:ssh-ed25519 AAAA").
Proof.
  assert (Hnd : NoDup (keys (MetadataDialog.items some_metadata)))
    by (apply (bool_decide_unpack _); vm_compute; exact I).
  split; [exact Hnd |].
  destruct (X17_set_stores_the_selected_key_only (fun text => text)
              some_metadata
              [MetadataDialog.TypeValue (lit "root:ssh-rsa BBBB");
               MetadataDialog.SelectKey 1] Hnd)
    as (opened & Hup & Hrest).
  exists opened. split; [exact Hup |].
  assert (Hopened : Ret opened
                    = MetadataDialog.update_widgets (fun text => text)
                        (metadata_dialog_for some_metadata))
    by (symmetry; exact Hup).
  vm_compute in Hopened. injection Hopened as ->.
  cbv zeta in Hrest.
  destruct Hrest as (after & items' & Hset & Hm & _ & _ & Hother & _).
  exists after, items'. split; [exact Hset |]. split; [exact Hm |].
  rewrite (Hother (lit "ssh-keys")).
  - reflexivity.
  - apply (bool_decide_unpack _). vm_compute. exact I.
  - vm_compute. discriminate.
Defined.

(* ===================================================================== *)
(** * The validators (dialog.py, window.py) *)
(* ===================================================================== *)

Section RegexMatcher.
Import Regex.

Lemma matches_void (s : str) : matches Void s <-> False.
Proof. split; [intros H; inversion H | tauto]. Qed.

Lemma matches_eps_iff (s : str) : matches Eps s <-> s = [].
Proof. split; [intros H; inversion H; reflexivity | intros ->; constructor]. Qed.

Lemma matches_class_iff (p : char -> bool) (s : str) :
  matches (Class p) s <-> exists c, s = [c] /\ p c = true.
Proof.
  split.
  - intros H. inversion H; subst. eauto.
  - intros (c & -> & Hc). constructor. exact Hc.
Qed.

Lemma matches_seq_iff (r1 r2 : re) (s : str) :
  matches (Seq r1 r2) s
  <-> exists s1 s2, s = s1 ++ s2 /\ matches r1 s1 /\ matches r2 s2.
Proof.
  split.
  - intros H. inversion H; subst. eauto.
  - intros (s1 & s2 & -> & H1 & H2). constructor; assumption.
Qed.

Lemma matches_alt_iff (r1 r2 : re) (s : str) :
  matches (Alt r1 r2) s <-> matches r1 s \/ matches r2 s.
Proof.
  split.
  - intros H. inversion H; subst; tauto.
  - intros [H | H]; [apply matches_alt_l | apply matches_alt_r]; exact H.
Qed.

Lemma matches_opt_iff (r : re) (s : str) :
  matches (Opt r) s <-> matches r s \/ s = [].
Proof. unfold Opt. rewrite matches_alt_iff, matches_eps_iff. tauto. Qed.

(** A non-empty match of a repetition starts with a non-empty match of
    the repeated pattern. *)
Lemma matches_star_cons (r : re) (c : char) (s : str) :
  matches (Star r) (c :: s) ->
  exists s1 s2, s = s1 ++ s2 /\ matches r (c :: s1) /\ matches (Star r) s2.
Proof.
  intros H. remember (Star r) as r' eqn:Hr. remember (c :: s) as t eqn:Ht.
  revert c s Hr Ht.
  induction H as [| | | | | |r0 s1 s2 H1 _ H2 IH2]; intros c' s' Hr Ht;
    try discriminate.
  injection Hr as ->. destruct s1 as [|c1 s1].
  - cbn in Ht. exact (IH2 c' s' eq_refl Ht).
  - cbn in Ht. injection Ht as -> <-. eauto.
Qed.

Lemma nullable_spec (r : re) : nullable r = true <-> matches r [].
Proof.
  induction r as [| |p|r1 IH1 r2 IH2|r1 IH1 r2 IH2|r IH]; cbn.
  - rewrite matches_void. split; [discriminate | tauto].
  - rewrite matches_eps_iff. tauto.
  - rewrite matches_class_iff.
    split; [discriminate | intros (c & Hc & _); discriminate Hc].
  - rewrite andb_true_iff, IH1, IH2, matches_seq_iff. split.
    + intros [H1 H2]. exists [], []. auto.
    + intros (s1 & s2 & Hs & H1 & H2). symmetry in Hs.
      apply app_eq_nil in Hs as [-> ->]. auto.
  - rewrite orb_true_iff, IH1, IH2, matches_alt_iff. tauto.
  - split; [intros _; constructor | reflexivity].
Qed.

Lemma after_spec (r : re) :
  forall (c : char) (s : str), matches (after c r) s <-> matches r (c :: s).
Proof.
  induction r as [| |p|r1 IH1 r2 IH2|r1 IH1 r2 IH2|r IH]; intros c s;
    cbn [after].
  - rewrite !matches_void. tauto.
  - rewrite matches_void, matches_eps_iff. split; [tauto | discriminate].
  - rewrite matches_class_iff. destruct (p c) eqn:Hc.
    + rewrite matches_eps_iff. split.
      * intros ->. eauto.
      * intros (c' & [= <- ->] & _). reflexivity.
    + rewrite matches_void. split; [tauto |].
      intros (c' & [= <- _] & Hc'). congruence.
  - assert (Hseq : matches (Seq (after c r1) r2) s
                   <-> exists s1 s2, s = s1 ++ s2
                                     /\ matches r1 (c :: s1) /\ matches r2 s2).
    { rewrite matches_seq_iff. split.
      - intros (s1 & s2 & Hs & H1 & H2). apply IH1 in H1. eauto.
      - intros (s1 & s2 & Hs & H1 & H2). apply IH1 in H1. eauto. }
    rewrite (matches_seq_iff r1 r2 (c :: s)).
    destruct (nullable r1) eqn:Hn.
    + rewrite matches_alt_iff, Hseq, IH2. split.
      * intros [(s1 & s2 & -> & H1 & H2) | H2].
        -- exists (c :: s1), s2. auto.
        -- apply nullable_spec in Hn. exists [], (c :: s). auto.
      * intros (s1 & s2 & Hs & H1 & H2). destruct s1 as [|c1 s1].
        -- cbn in Hs. subst. right. exact H2.
        -- cbn in Hs. injection Hs as <- ->. left. eauto.
    + rewrite Hseq. split.
      * intros (s1 & s2 & -> & H1 & H2). exists (c :: s1), s2. auto.
      * intros (s1 & s2 & Hs & H1 & H2). destruct s1 as [|c1 s1].
        -- apply nullable_spec in H1. congruence.
        -- cbn in Hs. injection Hs as <- ->. eauto.
  - rewrite !matches_alt_iff, IH1, IH2. tauto.
  - rewrite matches_seq_iff. split.
    + intros (s1 & s2 & -> & H1 & H2). apply IH in H1.
      apply (matches_star_more r (c :: s1) s2); assumption.
    + intros H. apply matches_star_cons in H as (s1 & s2 & -> & H1 & H2).
      apply IH in H1. eauto.
Qed.

(** The matcher decides the match. *)
Lemma fullmatch_spec (text : str) :
  forall r : re, fullmatch r text = true <-> matches r text.
Proof.
  unfold fullmatch. induction text as [|c text IH]; intros r; cbn [fold_left].
  - apply nullable_spec.
  - rewrite IH. apply after_spec.
Qed.

(** Repetitions of one class. *)
Lemma matches_star_class (p : char -> bool) (s : str) :
  matches (Star (Class p)) s <-> Forall (fun c => p c = true) s.
Proof.
  split.
  - intros H. remember (Star (Class p)) as r eqn:Hr.
    induction H as [| | | | | |r0 s1 s2 H1 _ H2 IH2]; try discriminate.
    + constructor.
    + injection Hr as ->. apply matches_class_iff in H1 as (c & -> & Hc).
      constructor; [exact Hc | exact (IH2 eq_refl)].
  - induction 1 as [|c s Hc _ IH]; [constructor |].
    apply (matches_star_more (Class p) [c] s); [| exact IH].
    constructor. exact Hc.
Qed.

Lemma matches_plus_class (p : char -> bool) (s : str) :
  matches (Plus (Class p)) s <-> s <> [] /\ Forall (fun c => p c = true) s.
Proof.
  unfold Plus. rewrite matches_seq_iff. split.
  - intros (s1 & s2 & -> & H1 & H2).
    apply matches_class_iff in H1 as (c & -> & Hc).
    apply matches_star_class in H2.
    split; [discriminate | constructor; assumption].
  - intros [Hne Hall]. destruct Hall as [|c s Hc Hall]; [contradiction |].
    exists [c], s. split; [reflexivity |]. split.
    + constructor. exact Hc.
    + apply matches_star_class. exact Hall.
Qed.

Lemma matches_upto_class (p : char -> bool) (n : nat) :
  forall s : str,
    matches (UpTo n (Class p)) s
    <-> (length s <= n)%nat /\ Forall (fun c => p c = true) s.
Proof.
  induction n as [|n IH]; intros s; cbn [UpTo].
  - rewrite matches_eps_iff. split.
    + intros ->. split; [reflexivity | constructor].
    + intros [Hlen _]. destruct s; [reflexivity | cbn in Hlen; lia].
  - rewrite matches_opt_iff, matches_seq_iff. split.
    + intros [(s1 & s2 & -> & H1 & H2) | ->].
      * apply matches_class_iff in H1 as (c & -> & Hc).
        apply IH in H2 as [Hlen Hall]. cbn.
        split; [lia | constructor; assumption].
      * split; [cbn; lia | constructor].
    + intros [Hlen Hall]. destruct Hall as [|c s Hc Hall]; [tauto |].
      left. exists [c], s. split; [reflexivity |]. split.
      * constructor. exact Hc.
      * apply IH. cbn in Hlen. split; [lia | exact Hall].
Qed.

End RegexMatcher.

Section Validators.
Import Regex.

Lemma bool_eq_by_iff (b1 b2 : bool) :
  (b1 = true <-> b2 = true) -> b1 = b2.
Proof. destruct b1, b2; intros [H1 H2]; auto; symmetry; auto. Qed.

Lemma forallb_Forall_true {A} (p : A -> bool) (s : list A) :
  forallb p s = true <-> Forall (fun c => p c = true) s.
Proof.
  induction s as [|c s IH]; cbn.
  - split; [constructor | reflexivity].
  - rewrite andb_true_iff, IH. split.
    + intros [Hc Hs]. constructor; assumption.
    + intros H. inversion H; subst. auto.
Qed.

Lemma acceptable_matches (pattern : re) (text : str) :
  acceptable pattern text = true <-> matches pattern text.
Proof. apply fullmatch_spec. Qed.

Lemma lower_label_char (c : char) : lower c = true -> label_char c = true.
Proof. unfold label_char. intros ->. rewrite orb_true_r. reflexivity. Qed.

Lemma lower_or_digit_spec (c : char) :
  lower_or_digit c = true <-> label_char c = true /\ c <> 45%N.
Proof.
  unfold lower_or_digit, label_char, lower, digit.
  destruct (N.eqb_spec c 45) as [-> | Hne].
  - cbn. split; [discriminate | intros [_ H]; congruence].
  - cbn [orb]. tauto.
Qed.

Lemma name_rule_spec (c : char) (rest : str) :
  name_rule (c :: rest) = true
  <-> lower c = true /\ (length rest <= 62)%nat
      /\ Forall (fun c' => label_char c' = true) rest
      /\ last (c :: rest) <> Some 45%N.
Proof.
  unfold name_rule.
  rewrite !andb_true_iff, Nat.leb_le, forallb_Forall_true, negb_true_iff,
    bool_decide_eq_false.
  tauto.
Qed.

(** The pattern of the instance name, by its language. *)
Lemma matches_label (s : str) :
  matches label_pattern s <-> name_rule s = true.
Proof.
  unfold label_pattern. rewrite matches_seq_iff. split.
  - intros (s1 & s2 & -> & H1 & H2).
    apply matches_class_iff in H1 as (c & -> & Hc).
    apply matches_opt_iff in H2 as [H2 | ->].
    + apply matches_seq_iff in H2 as (mid & l1 & -> & Hmid & Hl).
      apply matches_upto_class in Hmid as [Hlen Hall].
      apply matches_class_iff in Hl as (l & -> & Hl).
      apply lower_or_digit_spec in Hl as [Hl Hne].
      change ([c] ++ mid ++ [l]) with (c :: (mid ++ [l])).
      apply name_rule_spec. split; [exact Hc |]. split.
      { rewrite length_app. cbn. lia. }
      split.
      { apply Forall_app. split; [exact Hall |]. constructor; [exact Hl |].
        constructor. }
      change (c :: mid ++ [l]) with ((c :: mid) ++ [l]).
      rewrite last_snoc. congruence.
    + apply name_rule_spec. split; [exact Hc |]. split; [cbn; lia |].
      split; [constructor |]. cbn. intros [= ->]. discriminate Hc.
  - intros H. destruct s as [|c rest]; [discriminate |].
    apply name_rule_spec in H as (Hc & Hlen & Hall & Hlast).
    exists [c], rest. split; [reflexivity |]. split.
    { constructor. exact Hc. }
    apply matches_opt_iff.
    destruct rest as [|l mid _] using rev_ind; [right; reflexivity |].
    left. apply matches_seq_iff. exists mid, [l].
    split; [reflexivity |].
    apply Forall_app in Hall as [Hmid Hl]. inversion Hl; subst.
    rewrite length_app in Hlen. cbn in Hlen. split.
    + apply matches_upto_class. split; [lia | exact Hmid].
    + constructor. apply lower_or_digit_spec. split; [assumption |].
      change (c :: mid ++ [l]) with ((c :: mid) ++ [l]) in Hlast.
      rewrite last_snoc in Hlast. intros ->. apply Hlast. reflexivity.
Qed.

(** The repeated part of the host name pattern: labels, a dot before
    each. *)
Lemma matches_dot_labels (s : str) :
  matches (Star (Seq (Class (fun c => (c =? 46)%N)) label_pattern)) s
  <-> exists ls : list str,
        Forall (fun l => name_rule l = true) ls
        /\ s = concat (List.map (cons 46%N) ls).
Proof.
  split.
  - intros H.
    remember (Star (Seq (Class (fun c => (c =? 46)%N)) label_pattern))
      as r eqn:Hr.
    induction H as [| | | | | |r0 s1 s2 H1 _ H2 IH2]; try discriminate.
    + exists []. split; [constructor | reflexivity].
    + injection Hr as ->. destruct (IH2 eq_refl) as (ls & Hls & ->).
      apply matches_seq_iff in H1 as (d & l & -> & Hd & Hl).
      apply matches_class_iff in Hd as (c & -> & Hc).
      apply N.eqb_eq in Hc as ->. apply matches_label in Hl.
      exists (l :: ls). split; [constructor; assumption | reflexivity].
  - intros (ls & Hls & ->). induction Hls as [|l ls Hl _ IH]; cbn.
    + constructor.
    + apply (matches_star_more _ (46%N :: l)); [| exact IH].
      apply (matches_seq _ _ [46%N] l).
      * constructor. reflexivity.
      * apply matches_label. exact Hl.
Qed.

Lemma matches_hostname (s : str) :
  matches hostname_pattern s
  <-> exists (first : str) (rest : list str),
        rest <> []
        /\ Forall (fun l => name_rule l = true) (first :: rest)
        /\ s = first ++ concat (List.map (cons 46%N) rest).
Proof.
  unfold hostname_pattern, Plus. rewrite matches_seq_iff. split.
  - intros (first & s2 & -> & Hfirst & H2). apply matches_label in Hfirst.
    apply matches_seq_iff in H2 as (t1 & t2 & -> & Ht1 & Ht2).
    assert (Hne : t1 ++ t2 <> []).
    { apply matches_seq_iff in Ht1 as (d & l & -> & Hd & _).
      apply matches_class_iff in Hd as (c & -> & _). discriminate. }
    pose proof (matches_star_more _ _ _ Ht1 Ht2) as Hstar.
    apply matches_dot_labels in Hstar as (rest & Hrest & Heq).
    exists first, rest. split.
    { intros ->. cbn in Heq. contradiction. }
    split; [constructor; assumption |]. rewrite Heq. reflexivity.
  - intros (first & rest & Hne & Hall & ->). inversion Hall; subst.
    exists first, (concat (List.map (cons 46%N) rest)).
    split; [reflexivity |]. split; [apply matches_label; assumption |].
    destruct rest as [|l rest]; [contradiction |]. cbn.
    match goal with H : Forall _ (l :: rest) |- _ => inversion H; subst end.
    apply matches_seq_iff.
    exists (46%N :: l), (concat (List.map (cons 46%N) rest)).
    split; [reflexivity |]. split.
    + apply (matches_seq _ _ [46%N] l).
      * constructor. reflexivity.
      * apply matches_label. assumption.
    + apply matches_dot_labels. eauto.
Qed.

(** [split] and the text put together again. *)
Lemma split_piece (sep : char) (piece t : str) :
  Forall (fun c => c <> sep) piece ->
  split sep (piece ++ sep :: t) = piece :: split sep t.
Proof.
  induction 1 as [|c piece Hc _ IH]; cbn.
  - rewrite N.eqb_refl. reflexivity.
  - apply N.eqb_neq in Hc. rewrite Hc, IH. reflexivity.
Qed.

Lemma split_whole (sep : char) (piece : str) :
  Forall (fun c => c <> sep) piece -> split sep piece = [piece].
Proof.
  induction 1 as [|c piece Hc _ IH]; cbn.
  - reflexivity.
  - apply N.eqb_neq in Hc. rewrite Hc, IH. reflexivity.
Qed.

Lemma split_pieces (sep : char) (rest : list str) :
  forall first : str,
    Forall (Forall (fun c => c <> sep)) (first :: rest) ->
    split sep (first ++ concat (List.map (cons sep) rest)) = first :: rest.
Proof.
  induction rest as [|l rest IH]; intros first Hall; inversion Hall; subst.
  - cbn. rewrite app_nil_r. apply split_whole. assumption.
  - cbn. rewrite split_piece by assumption. f_equal. apply IH. assumption.
Qed.

Lemma split_inv (sep : char) (s : str) :
  exists (first : str) (rest : list str),
    split sep s = first :: rest
    /\ s = first ++ concat (List.map (cons sep) rest).
Proof.
  induction s as [|c s (first & rest & Hsplit & Heq)]; cbn.
  - exists [], []. split; reflexivity.
  - destruct (N.eqb_spec c sep) as [-> | Hne].
    + exists [], (first :: rest). rewrite Hsplit. split; [reflexivity |].
      cbn. f_equal. exact Heq.
    + exists (c :: first), rest. rewrite Hsplit. split; [reflexivity |].
      cbn. f_equal. exact Heq.
Qed.

Lemma name_rule_no_dot (l : str) :
  name_rule l = true -> Forall (fun c => c <> 46%N) l.
Proof.
  destruct l as [|c rest]; [discriminate |]. intros H.
  apply name_rule_spec in H as (Hc & _ & Hall & _).
  apply lower_label_char in Hc.
  assert (Hall' : Forall (fun c' => label_char c' = true) (c :: rest))
    by (constructor; assumption).
  eapply Forall_impl; [exact Hall' |]. intros c' Hc' ->. discriminate Hc'.
Qed.

Lemma hostname_rule_spec (text : str) :
  hostname_rule text = true
  <-> (2 <= length (labels text))%nat
      /\ Forall (fun l => name_rule l = true) (labels text).
Proof.
  unfold hostname_rule.
  rewrite andb_true_iff, Nat.leb_le, forallb_Forall_true. tauto.
Qed.

Lemma join_concat (sep : char) (rest : list str) :
  forall first : str,
    Py.join [sep] (first :: rest)
    = first ++ concat (List.map (cons sep) rest).
Proof.
  induction rest as [|l rest IH]; intros first.
  - cbn. rewrite app_nil_r. reflexivity.
  - change (Py.join [sep] (first :: l :: rest))
      with (first ++ [sep] ++ Py.join [sep] (l :: rest)).
    rewrite IH. reflexivity.
Qed.

Lemma label_pattern_rule (text : str) :
  acceptable label_pattern text = true <-> name_rule text = true.
Proof. rewrite acceptable_matches. apply matches_label.
Qed.

(** X18. The check of the instance name is the rule its warning states:
    the create dialog accepts a name exactly when it starts with a
    lowercase letter, goes on with at most 62 lowercase letters, digits
    or hyphens, and does not end with a hyphen. *)
Theorem X18_instance_name_rule (text : str) :
  acceptable label_pattern text = name_rule text.
Proof. apply bool_eq_by_iff, label_pattern_rule. Qed.

Lemma hostname_pattern_rule (text : str) :
  acceptable hostname_pattern text = true <-> hostname_rule text = true.
Proof.
  rewrite acceptable_matches, matches_hostname, hostname_rule_spec.
  unfold labels. split.
  - intros (first & rest & Hne & Hall & ->).
    rewrite split_pieces.
    + split; [| exact Hall]. destruct rest; [contradiction | cbn; lia].
    + eapply Forall_impl; [exact Hall |]. apply name_rule_no_dot.
  - intros [Hlen Hall].
    destruct (split_inv 46%N text) as (first & rest & Hsplit & Heq).
    rewrite Hsplit in Hlen, Hall. exists first, rest. split.
    + intros ->. cbn in Hlen. lia.
    + split; [exact Hall | exact Heq].
Qed.

(** X19. The check of the host name: a text is accepted exactly when,
    cut at its dots, it has at least two labels and every label follows
    the rule of the instance name. *)
Theorem X19_hostname_rule (text : str) :
  acceptable hostname_pattern text = hostname_rule text.
Proof. apply bool_eq_by_iff, hostname_pattern_rule. Qed.

(** X20. The check of the host name puts no bound on its length (the
    warning asks for 4 to 253 characters): for every [n] the name of
    [n + 2] labels [a], which has [2 * n + 3] characters, is accepted. *)
Theorem X20_hostname_length_not_checked (n : nat) :
  acceptable hostname_pattern (long_hostname n) = true
  /\ length (long_hostname n) = (2 * n + 3)%nat.
Proof.
  unfold long_hostname. replace (n + 2)%nat with (S (S n)) by lia.
  change (replicate (S (S n)) (lit "a"))
    with (lit "a" :: replicate (S n) (lit "a")).
  rewrite join_concat. split.
  - apply acceptable_matches, matches_hostname.
    exists (lit "a"), (replicate (S n) (lit "a")).
    split; [discriminate |]. split; [| reflexivity].
    constructor; [reflexivity |].
    apply Forall_forall. intros l Hl.
    apply elem_of_replicate in Hl as [-> _]. reflexivity.
  - rewrite length_app.
    assert (Hlen : forall k,
              length (concat (List.map (cons 46%N) (replicate k (lit "a"))))
              = (2 * k)%nat).
    { induction k as [|k IH]; [reflexivity |].
      cbn [replicate List.map concat]. rewrite length_app, IH. cbn. lia. }
    rewrite Hlen. cbn. lia.
Qed.

Lemma key_pattern_rule (text : str) :
  acceptable key_pattern text = true <-> key_rule text = true.
Proof. unfold key_pattern.
  rewrite acceptable_matches, matches_plus_class. unfold key_rule.
  destruct text as [|c text].
  - split; [intros [H _]; contradiction | discriminate].
  - rewrite forallb_Forall_true. split; [tauto |].
    intros H. split; [discriminate | exact H].
Qed.

(** X21. The check of a metadata key: a key is accepted exactly when it
    is not empty and has only letters, digits, underscores and
    hyphens. *)
Theorem X21_metadata_key_rule (text : str) :
  acceptable key_pattern text = key_rule text.
Proof. apply bool_eq_by_iff, key_pattern_rule. Qed.

(** X22. The validator of host and user name of the connect form gives
    [Acceptable] exactly for the texts its pattern, one or more
    characters that are not white space, matches as a whole. *)
Theorem X22_connect_form_validator (text : str) :
  Window.validate text = Window.Acceptable
  <-> acceptable no_space_pattern text = true.
Proof.
  unfold no_space_pattern.
  rewrite acceptable_matches, matches_plus_class. unfold Window.validate.
  destruct text as [|c text].
  - split; [discriminate | intros [H _]; contradiction].
  - destruct (forallb (fun c' => negb (Window.regex_space c')) (c :: text))
      eqn:Hall.
    + apply forallb_Forall_true in Hall. split; [| reflexivity].
      intros _. split; [discriminate | exact Hall].
    + split; [discriminate |]. intros [_ H].
      apply forallb_Forall_true in H. congruence.
Qed.

End Validators.

(* ===================================================================== *)
(** * The add-key dialog and the create dialog (dialog.py) *)
(* ===================================================================== *)

Section AddKey.
Import MetadataDialog.
Variable as_plain_text : str -> str.

Lemma add_key_handle_rule
    (d : AddKeyDialog.AddKeyDialog) (a : AddKeyDialog.Action) :
  (AddKeyDialog.accepted d = true ->
   key_rule (AddKeyDialog.input_key d) = true) ->
  AddKeyDialog.accepted (AddKeyDialog.handle d a) = true ->
  key_rule (AddKeyDialog.input_key (AddKeyDialog.handle d a)) = true.
Proof.
  intros Hd. unfold AddKeyDialog.handle.
  destruct (AddKeyDialog.accepted d) eqn:Hacc.
  - intros _. apply Hd. reflexivity.
  - destruct a as [text|]; cbn.
    + discriminate.
    + unfold AddKeyDialog.button_add_clicked.
      destruct (acceptable key_pattern (AddKeyDialog.input_key d)) eqn:Hk;
        cbn.
      * intros _. apply key_pattern_rule. exact Hk.
      * rewrite Hacc. discriminate.
Qed.

Lemma add_key_exec_rule (acts : list AddKeyDialog.Action) :
  forall d : AddKeyDialog.AddKeyDialog,
    (AddKeyDialog.accepted d = true ->
     key_rule (AddKeyDialog.input_key d) = true) ->
    AddKeyDialog.accepted (fold_left AddKeyDialog.handle acts d) = true ->
    key_rule (AddKeyDialog.input_key (fold_left AddKeyDialog.handle acts d))
    = true.
Proof.
  induction acts as [|a acts IH]; intros d Hd; cbn [fold_left].
  - exact Hd.
  - apply IH. apply add_key_handle_rule. exact Hd.
Qed.

Lemma addItem_items (d : SetInstanceMetadataDialog) (k : str) :
  metadata_items (select_key_addItem as_plain_text d k) = metadata_items d.
Proof.
  unfold select_key_addItem.
  destruct (texts (select_key d)), (currentIndex (select_key d));
    try reflexivity.
  match goal with
  | |- metadata_items (select_key_setCurrentIndex _ ?d' ?i) = _ =>
      exact (proj1 (proj2 (setCurrentIndex_fields as_plain_text d' i)))
  end.
Qed.

Lemma setCurrentText_items (d : SetInstanceMetadataDialog) (k : str) :
  metadata_items (select_key_setCurrentText as_plain_text d k)
  = metadata_items d.
Proof.
  unfold select_key_setCurrentText.
  destruct (findText k (texts (select_key d))) as [i|]; [| reflexivity].
  exact (proj1 (proj2 (setCurrentIndex_fields as_plain_text d i))).
Qed.

(** X23. A key that comes from the add-key dialog: whatever the operator
    typed and clicked there, when the dialog is not accepted the metadata
    dialog stays as it is, and when it is accepted the key is not empty
    and made of letters, digits, underscores and hyphens only, and the
    dictionary of the metadata dialog gets it with the empty value at its
    end unless it has the key already. *)
Theorem X23_added_key_follows_the_rule
    (self : SetInstanceMetadataDialog) (acts : list AddKeyDialog.Action) :
  let self' :=
    button_add_key_clicked as_plain_text self
      (AddKeyDialog.answer (AddKeyDialog.exec acts)) in
  match AddKeyDialog.answer (AddKeyDialog.exec acts) with
  | None => self' = self
  | Some key =>
      key_rule key = true
      /\ metadata_items self'
         = if decide (key ∈ keys (metadata_items self))
           then metadata_items self
           else metadata_items self ++ [(key, [])]
  end.
Proof.
  cbn zeta. unfold AddKeyDialog.answer.
  destruct (AddKeyDialog.accepted (AddKeyDialog.exec acts)) eqn:Hacc;
    [| reflexivity].
  split.
  - apply add_key_exec_rule; [discriminate | exact Hacc].
  - unfold button_add_key_clicked.
    set (key := AddKeyDialog.input_key (AddKeyDialog.exec acts)).
    rewrite setCurrentText_items.
    destruct (dict_get key (metadata_items self)) eqn:Hget.
    + rewrite decide_True; [reflexivity |].
      destruct (decide (key ∈ keys (metadata_items self))) as [Hin|Hnin];
        [exact Hin |].
      apply dict_get_None in Hnin. congruence.
    + apply dict_get_None in Hget. rewrite decide_False by exact Hget.
      rewrite addItem_items. cbn [metadata_items].
      apply dict_set_new. exact Hget.
Qed.

End AddKey.

Section CreateDialogSession.
Import CreateDialog.
Variable int_ : str -> Res Z.

Lemma pick_shows_table (table : list (str * str)) (cb : QComboBox)
    (i : nat) :
  shows_table table cb -> shows_table table (pick cb i).
Proof.
  intros [Hitems (j & Hj & Hlt)]. unfold pick.
  destruct (i <? length (items cb))%nat eqn:Hi.
  - unfold setCurrentIndex. rewrite Hi. split; [exact Hitems |].
    exists i. split; [reflexivity |].
    apply Nat.ltb_lt in Hi. rewrite Hitems in Hi. exact Hi.
  - split; [exact Hitems |]. exists j. split; assumption.
Qed.

Lemma currentData_of_table (table : list (str * str)) (cb : QComboBox) :
  shows_table table cb ->
  exists data, data ∈ table.*2 /\ currentData cb = VStr data.
Proof.
  intros [Hitems (i & Hi & Hlt)]. unfold currentData.
  rewrite Hi, Hitems. cbn [mbind option_bind].
  destruct (lookup_lt_is_Some_2 table i Hlt) as [[text data] Hlk].
  rewrite Hlk. exists data. split; [| reflexivity].
  apply list_elem_of_fmap. exists (text, data). split; [reflexivity |].
  eapply list_elem_of_lookup_2. exact Hlk.
Qed.

Lemma init_invariant : create_dialog_invariant int_ init.
Proof.
  unfold create_dialog_invariant, init, update_widgets, init_widgets.
  cbn [input_instance_machine_type input_instance_network_tier
       input_instance_image accepted instance_info].
  split; [| split; [| split; [| reflexivity]]];
    (split; [reflexivity |]); exists 1%nat;
    (split; [reflexivity | cbn; lia]).
Qed.

Lemma handle_invariant (d : CreateInstanceDialog) (a : Action) :
  create_dialog_invariant int_ d ->
  create_dialog_invariant int_ (handle int_ d a).
Proof.
  intros Hd. unfold handle. destruct (accepted d) eqn:Hacc; [exact Hd |].
  destruct Hd as (Hm & Ht & Hi & Hinfo). rewrite Hacc in Hinfo.
  destruct a as [text|text|text|text|i|i|i|];
    try (unfold create_dialog_invariant;
         cbn [input_instance_machine_type input_instance_network_tier
              input_instance_image accepted instance_info];
         rewrite ?Hacc;
         split; [| split; [| split]];
         try assumption; apply pick_shows_table; assumption).
  unfold button_create_clicked.
  destruct (acceptable label_pattern (input_instance_name d)) eqn:Hname;
    cbn [negb].
  2: { unfold create_dialog_invariant, warning.
       cbn [input_instance_machine_type input_instance_network_tier
            input_instance_image accepted instance_info].
       rewrite Hacc. auto. }
  destruct (match input_instance_hostname d with
            | [] => false
            | _ :: _ =>
                negb (acceptable hostname_pattern (input_instance_hostname d))
            end) eqn:Hhost.
  { unfold create_dialog_invariant, warning.
    cbn [input_instance_machine_type input_instance_network_tier
         input_instance_image accepted instance_info].
    rewrite Hacc. auto. }
  destruct (int_ (input_instance_disk_size d)) as [z|e] eqn:Hint;
    cbn [res_bind].
  2: { unfold create_dialog_invariant. rewrite Hacc. auto. }
  unfold create_dialog_invariant.
  cbn [input_instance_machine_type input_instance_network_tier
       input_instance_image accepted instance_info input_instance_name
       input_instance_hostname input_instance_disk_size].
  split; [exact Hm |]. split; [exact Ht |]. split; [exact Hi |].
  split; [apply label_pattern_rule; exact Hname |]. split.
  - destruct (input_instance_hostname d) as [|c rest] eqn:Hh;
      [left; reflexivity | right].
    apply hostname_pattern_rule. apply negb_false_iff. exact Hhost.
  - exists z. split; [exact Hint | reflexivity].
Qed.

Lemma exec_invariant (acts : list Action) :
  forall d : CreateInstanceDialog,
    create_dialog_invariant int_ d ->
    create_dialog_invariant int_ (fold_left (handle int_) acts d).
Proof.
  induction acts as [|a acts IH]; intros d Hd; cbn [fold_left].
  - exact Hd.
  - apply IH, handle_invariant, Hd.
Qed.

(** X24. The create dialog, whatever the operator typed, picked and
    clicked: as long as it is not accepted there is no dictionary; once it
    is accepted the name follows the rule of the instance name, the host
    name is empty (and passed on as [None]) or follows the rule of the
    host name, the disk size is what [int] made of the text, and machine
    type, network tier and image are identifiers of the three tables,
    never [None]. *)
Theorem X24_create_dialog_session (acts : list Action) :
  let d := exec int_ acts in
  if accepted d
  then
    name_rule (input_instance_name d) = true
    /\ (input_instance_hostname d = []
        \/ hostname_rule (input_instance_hostname d) = true)
    /\ exists z machine tier image,
         int_ (input_instance_disk_size d) = Ret z
         /\ machine ∈ INSTANCE_MACHINE_TYPES.*2
         /\ tier ∈ INSTANCE_NETWORK_TIERS.*2
         /\ image ∈ INSTANCE_IMAGES.*2
         /\ instance_info d
            = Some (list_to_map
                [("name", VStr (input_instance_name d));
                 ("description", VStr (input_instance_description d));
                 ("hostname",
                  match input_instance_hostname d with
                  | [] => VNone
                  | _ :: _ => VStr (input_instance_hostname d)
                  end);
                 ("machine_type", VStr machine);
                 ("network_tier", VStr tier);
                 ("disk_size", VInt z);
                 ("image", VStr image)])
  else instance_info d = None.
Proof.
  cbn zeta.
  pose proof (exec_invariant acts init init_invariant) as Hinv.
  fold (exec int_ acts) in Hinv.
  destruct Hinv as (Hm & Ht & Hi & Hinfo).
  destruct (accepted (exec int_ acts)); [| exact Hinfo].
  destruct Hinfo as (Hname & Hhost & z & Hint & Hinfo).
  split; [exact Hname |]. split; [exact Hhost |].
  apply currentData_of_table in Hm as (machine & Hmachine & Em).
  apply currentData_of_table in Ht as (tier & Htier & Et).
  apply currentData_of_table in Hi as (image & Himage & Ei).
  exists z, machine, tier, image.
  split; [exact Hint |]. split; [exact Hmachine |].
  split; [exact Htier |]. split; [exact Himage |].
  rewrite Hinfo. unfold info. rewrite Em, Et, Ei. reflexivity.
Qed.

End CreateDialogSession.

(* ===================================================================== *)
(** * The argument dictionaries of the instance page (page.py) *)
(* ===================================================================== *)

Section PageArguments.
Variable int_ : str -> Res Z.
Variable as_plain_text : str -> str.

Ltac keys_fit :=
  unfold keywords_match, page_worker;
  cbn [args set_args class_of init params_of];
  rewrite ?dom_union_L, ?dom_list_to_map_L, ?dom_insert_L, ?dom_empty_L;
  cbn [fmap list_fmap fst];
  apply (bool_decide_unpack _); vm_compute; exact I.

Lemma on_instance_fits (p : Process) (cls0 : WorkerClass)
    (self : Page.InstancePage) (cls : WorkerClass)
    (a : gmap string Value) :
  params_of cls0 = ["project"; "zone"; "instance_name"] ->
  Page.on_instance cls0 self = Ret (Some (cls, a)) ->
  keywords_match (page_worker p cls a).
Proof.
  intros Hparams. unfold Page.on_instance, Page.instance_name.
  destruct (Page.instance self); [| discriminate]. cbn [res_bind].
  intros [= <- <-].
  unfold keywords_match, page_worker.
  cbn [args set_args class_of init]. rewrite Hparams.
  rewrite ?dom_list_to_map_L, ?dom_insert_L, ?dom_empty_L.
  cbn [fmap list_fmap fst].
  apply (bool_decide_unpack _); vm_compute; exact I.
Qed.

(** X25. The instance page and the client agree on the keywords: whatever
    handler starts a worker, in whatever state of the page and after
    whatever the operator did in the dialog the handler opens, the
    dictionary it hands to [set_args] names exactly the parameters of the
    client method the [work] of that worker calls. *)
Theorem X25_page_arguments_fit
    (p : Process) (self : Page.InstancePage) (h : Handler)
    (cls : WorkerClass) (a : gmap string Value) :
  clicked int_ as_plain_text self h = Ret (Some (cls, a)) ->
  keywords_match (page_worker p cls a).
Proof.
  destruct h as [| |acts| | |yes|yes|yes|yes|operate|operate];
    cbn [clicked].
  - unfold Page.button_list_instances_clicked. intros [= <- <-]. keys_fit.
  - unfold Page.list_instances_item_changed.
    destruct (Page.currentItem self); [| discriminate].
    intros [= <- <-]. keys_fit.
  - unfold Page.button_create_instance_clicked.
    pose proof (exec_invariant int_ acts CreateDialog.init
                  (init_invariant int_)) as Hinv.
    fold (CreateDialog.exec int_ acts) in Hinv.
    destruct Hinv as (_ & _ & _ & Hinfo).
    destruct (CreateDialog.accepted (CreateDialog.exec int_ acts));
      [| discriminate].
    destruct Hinfo as (_ & _ & z & _ & ->). intros [= <- <-].
    unfold CreateDialog.info. keys_fit.
  - apply on_instance_fits. reflexivity.
  - apply on_instance_fits. reflexivity.
  - destruct yes; [| discriminate]. apply on_instance_fits. reflexivity.
  - destruct yes; [| discriminate]. apply on_instance_fits. reflexivity.
  - destruct yes; [| discriminate]. apply on_instance_fits. reflexivity.
  - destruct yes; [| discriminate]. apply on_instance_fits. reflexivity.
  - unfold Page.button_set_instance_tags_clicked.
    destruct (Page.instance self); [| discriminate].
    cbn zeta. destruct (TagsDialog.accepted _); [| discriminate].
    intros [= <- <-]. keys_fit.
  - unfold Page.button_set_instance_metadata_clicked.
    destruct (Page.instance self); [| discriminate].
    destruct (MetadataDialog.update_widgets _ _); [| discriminate].
    cbn [res_bind]. cbn zeta.
    destruct (MetadataDialog.accepted _); [| discriminate].
    intros [= <- <-]. keys_fit.
Qed.

End PageArguments.

Lemma X25_witness :
  clicked ascii_int (fun text => text) some_page
    (CreateInstance create_session)
  = Ret (Some (CreateInstanceWorker, create_args))
  /\ keywords_match (page_worker module_init CreateInstanceWorker create_args).
Proof.
  assert (H : clicked ascii_int (fun text => text) some_page
                (CreateInstance create_session)
              = Ret (Some (CreateInstanceWorker, create_args)))
    by (vm_compute; reflexivity).
  split; [exact H |].
  exact (X25_page_arguments_fit ascii_int (fun text => text) module_init
           some_page (CreateInstance create_session) CreateInstanceWorker
           create_args H).
Defined.

(* ===================================================================== *)
(** * The tool windows of the menu bar (menu.py) *)
(* ===================================================================== *)

Section ToolWindows.
Import Menu.

Lemma filter_filter_comm {A} (f g : A -> bool) (l : list A) :
  List.filter f (List.filter g l) = List.filter g (List.filter f l).
Proof.
  induction l as [|x l IH]; [reflexivity |]. cbn.
  destruct (f x) eqn:Hf, (g x) eqn:Hg; cbn; rewrite ?Hf, ?Hg, IH;
    reflexivity.
Qed.

Lemma show_new (w : nat) (l : list nat) : w ∉ l -> show w l = l ++ [w].
Proof.
  intros H. unfold show. rewrite bool_decide_eq_false_2 by exact H.
  reflexivity.
Qed.

Lemma show_old (w : nat) (l : list nat) : w ∈ l -> show w l = l.
Proof.
  intros H. unfold show. rewrite bool_decide_eq_true_2 by exact H.
  reflexivity.
Qed.

Lemma on_screen_elem (cls : WindowClass) (m : MenuBar) (w : nat) :
  w ∈ on_screen cls m <-> w ∈ shown m /\ created m !! w = Some cls.
Proof.
  unfold on_screen. rewrite !list_elem_of_In, filter_In.
  rewrite bool_decide_eq_true. reflexivity.
Qed.

(** A window just built and shown joins the windows of its class. *)
Lemma on_screen_new (a1 a2 a1' a2' : Attribute) (cr : list WindowClass)
    (sh : list nat) (c cls : WindowClass) :
  (forall w, w ∈ sh -> (w < length cr)%nat) ->
  on_screen cls (MkMenuBar a1' a2' (cr ++ [c]) (show (length cr) sh))
  = on_screen cls (MkMenuBar a1 a2 cr sh)
    ++ (if decide (c = cls) then [length cr] else []).
Proof.
  intros Hlt. rewrite show_new.
  2: { intros Hin. apply Hlt in Hin. lia. }
  unfold on_screen. cbn [created shown]. rewrite List.filter_app. f_equal.
  - apply filter_ext_in. intros w Hw. apply list_elem_of_In in Hw.
    apply Hlt in Hw. rewrite lookup_app_l by exact Hw. reflexivity.
  - cbn [List.filter]. rewrite list_lookup_middle by reflexivity.
    destruct (decide (c = cls)) as [-> | Hne].
    + rewrite bool_decide_eq_true_2 by reflexivity. reflexivity.
    + rewrite bool_decide_eq_false_2 by congruence. reflexivity.
Qed.

(** A window that leaves the screen leaves the windows of each class. *)
Lemma on_screen_close (a1 a2 a1' a2' : Attribute) (cr : list WindowClass)
    (sh : list nat) (w : nat) (cls : WindowClass) :
  on_screen cls
    (MkMenuBar a1' a2' cr (List.filter (fun w' => negb (w' =? w)%nat) sh))
  = List.filter (fun w' => negb (w' =? w)%nat)
      (on_screen cls (MkMenuBar a1 a2 cr sh)).
Proof. unfold on_screen. cbn [created shown]. apply filter_filter_comm. Qed.

Lemma init_menu_invariant : menu_invariant init.
Proof.
  split; [intros []; reflexivity |]. split.
  - intros [] w; discriminate.
  - intros w Hw. cbn in Hw. inversion Hw.
Qed.

Lemma new_window_invariant (m : MenuBar) (c : WindowClass) :
  menu_invariant m ->
  (forall w, attribute_of c m <> Object w) ->
  menu_invariant
    (MkMenuBar
       (match c with
        | SSHClientWindow => Object (length (created m))
        | SSHKeygenWindow => window_ssh m
        end)
       (match c with
        | SSHClientWindow => window_ssh_keygen m
        | SSHKeygenWindow => Object (length (created m))
        end)
       (created m ++ [c]) (show (length (created m)) (shown m))).
Proof.
  destruct m as [a1 a2 cr sh]. intros (H1 & H2 & H3) Hnone.
  cbn [created shown window_ssh window_ssh_keygen] in *.
  split; [| split].
  - intros cls. rewrite (on_screen_new a1 a2) by exact H3. rewrite (H1 cls).
    destruct c, cls; cbn [attribute_of window_ssh window_ssh_keygen] in *;
      try (rewrite app_nil_r; reflexivity).
    + destruct a1 as [| |w]; [reflexivity | reflexivity |].
      exfalso. exact (Hnone w eq_refl).
    + destruct a2 as [| |w]; [reflexivity | reflexivity |].
      exfalso. exact (Hnone w eq_refl).
  - intros cls w Hw. cbn [created].
    destruct c, cls; cbn [attribute_of window_ssh window_ssh_keygen] in *;
      try (injection Hw as <-; apply list_lookup_middle; reflexivity);
      apply lookup_app_l_Some; apply (H2 _ w); exact Hw.
  - intros w Hw. cbn [created shown] in *. rewrite length_app. cbn.
    rewrite show_new in Hw.
    2: { intros Hin. apply H3 in Hin. lia. }
    apply elem_of_app in Hw as [Hw | Hw].
    + apply H3 in Hw. lia.
    + apply list_elem_of_singleton in Hw. lia.
Qed.

Lemma handle_menu_invariant (m : MenuBar) (a : Action) :
  menu_invariant m -> menu_invariant (handle m a).
Proof.
  intros Hinv. destruct a as [| |w]; cbn [handle].
  - unfold show_ssh_client_window.
    destruct (window_ssh m) as [| |w] eqn:Hattr; [| | exact Hinv].
    + apply (new_window_invariant m SSHClientWindow Hinv).
      intros w. cbn. congruence.
    + apply (new_window_invariant m SSHClientWindow Hinv).
      intros w. cbn. congruence.
  - unfold show_ssh_keygen_window.
    destruct (window_ssh_keygen m) as [| |w] eqn:Hattr.
    + apply (new_window_invariant m SSHKeygenWindow Hinv).
      intros w. cbn. congruence.
    + apply (new_window_invariant m SSHKeygenWindow Hinv).
      intros w. cbn. congruence.
    + destruct m as [a1 a2 cr sh]. cbn [window_ssh_keygen] in Hattr.
      subst a2. cbn [window_ssh created shown].
      assert (Hw : w ∈ sh).
      { destruct Hinv as (H1 & _ & _).
        pose proof (H1 SSHKeygenWindow) as Hs.
        cbn [attribute_of window_ssh_keygen] in Hs.
        assert (Hin : w ∈ on_screen SSHKeygenWindow
                        (MkMenuBar a1 (Object w) cr sh))
          by (rewrite Hs; apply list_elem_of_singleton; reflexivity).
        apply on_screen_elem in Hin as [Hin _]. exact Hin. }
      rewrite show_old by exact Hw. exact Hinv.
  - destruct (bool_decide (w ∈ shown m)) eqn:Hshown; [| exact Hinv].
    apply bool_decide_eq_true in Hshown.
    destruct m as [a1 a2 cr sh]. destruct Hinv as (H1 & H2 & H3).
    cbn [created shown] in *. unfold closeEvent. cbn [created shown].
    destruct (lookup_lt_is_Some_2 cr w (H3 w Hshown)) as [c Hc].
    rewrite Hc.
    assert (Hon : w ∈ on_screen c (MkMenuBar a1 a2 cr sh))
      by (apply on_screen_elem; split; assumption).
    assert (Hother : forall cls w',
               cls <> c ->
               attribute_of cls (MkMenuBar a1 a2 cr sh) = Object w' ->
               w' <> w).
    { intros cls w' Hne Hattr ->. apply H2 in Hattr.
      cbn [created] in Hattr. congruence. }
    assert (Hfilter : forall l,
               (forall w', w' ∈ l -> w' <> w) ->
               List.filter (fun w' => negb (w' =? w)%nat) l = l).
    { intros l Hl. induction l as [|x l IH]; [reflexivity |]. cbn.
      assert (Hx : x <> w) by (apply Hl; left).
      apply Nat.eqb_neq in Hx. rewrite Hx. cbn. f_equal. apply IH.
      intros w' Hw'. apply Hl. right. exact Hw'. }
    assert (Hgone : forall l,
               (forall w', w' ∈ l -> w' = w) ->
               List.filter (fun w' => negb (w' =? w)%nat) l = []).
    { intros l Hl. induction l as [|x l IH]; [reflexivity |]. cbn.
      assert (Hx : x = w) by (apply Hl; left).
      apply Nat.eqb_eq in Hx. rewrite Hx. cbn. apply IH.
      intros w' Hw'. apply Hl. right. exact Hw'. }
    rewrite (H1 c) in Hon.
    destruct c; (split; [| split]).
    + intros cls. rewrite (on_screen_close a1 a2), (H1 cls).
      destruct cls; cbn [attribute_of window_ssh window_ssh_keygen] in *.
      * apply Hgone. intros w' Hw'. destruct a1 as [| |w0];
          try (inversion Hw'; fail).
        apply list_elem_of_singleton in Hw', Hon. congruence.
      * apply Hfilter. intros w' Hw'. destruct a2 as [| |w0];
          try (inversion Hw'; fail).
        apply list_elem_of_singleton in Hw' as ->.
        apply (Hother SSHKeygenWindow); [discriminate | reflexivity].
    + intros cls w'. destruct cls;
        cbn [attribute_of window_ssh window_ssh_keygen created];
        [discriminate |].
      intros Hattr. apply (H2 SSHKeygenWindow). exact Hattr.
    + intros w' Hw'. cbn [shown created] in *.
      apply list_elem_of_In, filter_In in Hw' as [Hw' _].
      apply list_elem_of_In in Hw'. apply H3. exact Hw'.
    + intros cls. rewrite (on_screen_close a1 a2), (H1 cls).
      destruct cls; cbn [attribute_of window_ssh window_ssh_keygen] in *.
      * apply Hfilter. intros w' Hw'. destruct a1 as [| |w0];
          try (inversion Hw'; fail).
        apply list_elem_of_singleton in Hw' as ->.
        apply (Hother SSHClientWindow); [discriminate | reflexivity].
      * apply Hgone. intros w' Hw'. destruct a2 as [| |w0];
          try (inversion Hw'; fail).
        apply list_elem_of_singleton in Hw', Hon. congruence.
    + intros cls w'. destruct cls;
        cbn [attribute_of window_ssh window_ssh_keygen created];
        [| discriminate].
      intros Hattr. apply (H2 SSHClientWindow). exact Hattr.
    + intros w' Hw'. cbn [shown created] in *.
      apply list_elem_of_In, filter_In in Hw' as [Hw' _].
      apply list_elem_of_In in Hw'. apply H3. exact Hw'.
Qed.

Lemma menu_invariant_always (acts : list Action) :
  forall m : MenuBar,
    menu_invariant m -> menu_invariant (fold_left handle acts m).
Proof.
  induction acts as [|a acts IH]; intros m Hm; cbn [fold_left].
  - exact Hm.
  - apply IH, handle_menu_invariant, Hm.
Qed.

(** X26. One window for each tool: after whatever the operator did with
    the two entries of the Tools menu and by closing windows that are on
    the screen, the windows of a class that are on the screen are the one
    window the attribute of the menu bar refers to, and none when the
    attribute is missing or [None]; and after [show_ssh_client_window]
    the attribute refers to a window that is on the screen. *)
Theorem X26_one_window_for_each_tool
    (acts : list Action) (cls : WindowClass) :
  let m := fold_left handle acts init in
  on_screen cls m
  = match attribute_of cls m with
    | Object w => [w]
    | _ => []
    end
  /\ exists w,
       window_ssh (show_ssh_client_window m) = Object w
       /\ w ∈ shown (show_ssh_client_window m).
Proof.
  cbn zeta.
  pose proof (menu_invariant_always acts init init_menu_invariant) as Hinv.
  split; [apply Hinv |].
  apply (handle_menu_invariant _ ToolsSSH) in Hinv. cbn [handle] in Hinv.
  destruct Hinv as (H1 & _ & _).
  pose proof (H1 SSHClientWindow) as Hs. cbn [attribute_of] in Hs.
  assert (Hobj : exists w,
             window_ssh (show_ssh_client_window (fold_left handle acts init))
             = Object w).
  { unfold show_ssh_client_window.
    destruct (window_ssh (fold_left handle acts init)) eqn:Hattr;
      cbn [window_ssh]; eauto. }
  destruct Hobj as [w Hw]. exists w. split; [exact Hw |].
  rewrite Hw in Hs.
  assert (Hin : w ∈ on_screen SSHClientWindow
                  (show_ssh_client_window (fold_left handle acts init)))
    by (rewrite Hs; apply list_elem_of_singleton; reflexivity).
  apply on_screen_elem in Hin as [Hin _]. exact Hin.
Qed.

End ToolWindows.

(* ===================================================================== *)
(** * The texts cut out of resource URLs (page.py) *)
(* ===================================================================== *)

Section UrlTexts.
Import Details.

Lemma split_no_sep (sep : char) (s : str) :
  Forall (Forall (fun c => c <> sep)) (split sep s).
Proof.
  induction s as [|c s IH]; cbn.
  - repeat constructor.
  - destruct (N.eqb_spec c sep) as [-> | Hne].
    + constructor; [constructor | exact IH].
    + destruct (split sep s) as [|piece pieces].
      * repeat constructor. exact Hne.
      * inversion IH; subst. constructor; [| assumption].
        constructor; assumption.
Qed.

Lemma split_length (s : str) :
  length (split 47%N s) = S (slashes s).
Proof.
  unfold slashes. induction s as [|c s IH]; cbn; [reflexivity |].
  destruct (c =? 47)%N.
  - cbn. rewrite IH. reflexivity.
  - destruct (split 47%N s); cbn in *; [discriminate IH | exact IH].
Qed.

Lemma join_split (sep : char) (s : str) : Py.join [sep] (split sep s) = s.
Proof.
  destruct (split_inv sep s) as (first & rest & -> & Heq).
  rewrite join_concat. symmetry. exact Heq.
Qed.

Lemma join_app (sep : char) (l1 l2 : list str) :
  l1 <> [] -> l2 <> [] ->
  Py.join [sep] (l1 ++ l2) = Py.join [sep] l1 ++ [sep] ++ Py.join [sep] l2.
Proof.
  intros H1 H2. destruct l1 as [|x l1]; [contradiction |].
  destruct l2 as [|y l2]; [contradiction |].
  change ((x :: l1) ++ y :: l2) with (x :: (l1 ++ y :: l2)).
  rewrite !join_concat, map_app, concat_app. cbn [List.map concat].
  rewrite <- !app_assoc. reflexivity.
Qed.

Lemma slashes_app (s t : str) : slashes (s ++ t) = (slashes s + slashes t)%nat.
Proof. unfold slashes. rewrite List.filter_app, length_app. reflexivity. Qed.

Lemma slashes_none (s : str) :
  Forall (fun c => c <> 47%N) s -> slashes s = 0%nat.
Proof.
  unfold slashes. induction 1 as [|c s Hc _ IH]; [reflexivity |]. cbn.
  apply N.eqb_neq in Hc. rewrite Hc. exact IH.
Qed.

Lemma slashes_join (l : list str) :
  Forall (Forall (fun c => c <> 47%N)) l ->
  slashes (Py.join [47%N] l) = (length l - 1)%nat.
Proof.
  destruct l as [|first rest]; [reflexivity |]. intros Hall.
  inversion Hall as [|? ? Hfirst Hrest]; subst.
  assert (Hconcat : slashes (concat (List.map (cons 47%N) rest))
                    = length rest).
  { clear Hall Hfirst. induction Hrest as [|x rest Hx _ IH]; [reflexivity |].
    cbn [List.map concat length].
    change (47%N :: x) with ([47%N] ++ x).
    rewrite !slashes_app, (slashes_none x Hx), IH. reflexivity. }
  rewrite join_concat, slashes_app, (slashes_none first Hfirst).
  cbn [length]. transitivity (length rest); [exact Hconcat | lia].
Qed.

(** X27. The text after the last slash: what [split("/")[-1]] shows of a
    URL has no slash, and the URL is that text after a prefix that is
    empty or ends with a slash; so a text without a slash is shown as it
    is. *)
Theorem X27_text_after_the_last_slash (url : str) :
  Forall (fun c => c <> 47%N) (last_component url)
  /\ exists prefix,
       url = prefix ++ last_component url
       /\ (prefix = [] \/ last prefix = Some 47%N).
Proof.
  unfold last_component.
  pose proof (split_no_sep 47%N url) as Hno.
  destruct (split_inv 47%N url) as (first & rest & Hsplit & Heq).
  rewrite Hsplit in *.
  apply Forall_cons in Hno as [Hfirst Hrest].
  destruct (decide (rest = [])) as [-> | Hne].
  - cbn. split; [exact Hfirst |].
    exists []. split; [| left; reflexivity].
    cbn in Heq. rewrite app_nil_r in Heq. exact Heq.
  - destruct (exists_last Hne) as (rest' & c & ->).
    change (first :: rest' ++ [c]) with ((first :: rest') ++ [c]).
    rewrite last_snoc. cbn [default from_option id].
    apply Forall_app in Hrest as [_ Hc].
    apply Forall_cons in Hc as [Hc _].
    split; [exact Hc |].
    exists (first ++ concat (List.map (cons 47%N) rest') ++ [47%N]).
    split.
    + rewrite Heq at 1.
      rewrite map_app, concat_app. cbn [List.map concat].
      rewrite <- !app_assoc. cbn. rewrite app_nil_r. reflexivity.
    + right. rewrite app_assoc. apply last_snoc.
Qed.

(** X28. The image shown: with five slashes or more in the licence URL,
    the text is what follows the fifth slash; with fewer, it is empty. *)
Theorem X28_image_after_the_fifth_slash (licence : str) :
  if (5 <=? slashes licence)%nat
  then exists prefix,
         licence = prefix ++ [47%N] ++ image_of licence
         /\ slashes prefix = 4%nat
  else image_of licence = [].
Proof.
  unfold image_of.
  pose proof (split_length licence) as Hlen.
  pose proof (split_no_sep 47%N licence) as Hno.
  pose proof (join_split 47%N licence) as Hjoin.
  destruct (5 <=? slashes licence)%nat eqn:Hfive.
  - apply Nat.leb_le in Hfive.
    exists (Py.join [47%N] (take 5 (split 47%N licence))). split.
    + rewrite <- join_app.
      * rewrite take_drop. symmetry. exact Hjoin.
      * intros Hnil. apply (f_equal length) in Hnil.
        rewrite length_take in Hnil. cbn [length] in Hnil. lia.
      * intros Hnil. apply (f_equal length) in Hnil.
        rewrite length_drop in Hnil. cbn [length] in Hnil. lia.
    + rewrite slashes_join.
      * rewrite length_take. lia.
      * apply Forall_take. exact Hno.
  - apply Nat.leb_gt in Hfive. rewrite drop_ge by lia. reflexivity.
Qed.

End UrlTexts.

(* ===================================================================== *)
(** * The fields of the connect form (window.py) *)
(* ===================================================================== *)

Lemma reachable_enabled (self : Window.ConnectPage) :
  Window.Reachable self ->
  Window.input_password_enabled self = Window.button_password self
  /\ Window.input_key_enabled self = Window.button_key self
  /\ Window.button_choose_key_enabled self = Window.button_key self.
Proof.
  induction 1 as [|self a _ (Hp & Hk & Hc)]; [repeat split; reflexivity |].
  destruct a; cbn; repeat split; first [assumption | reflexivity].
Qed.

(** X29. The fields follow the buttons: in every state of the connect
    form the operator can bring about, the password field is enabled
    exactly when the password button is checked, and the key field and
    its Choose button exactly when the key button is; so text typed into
    the field of a method is taken when that method is the selected one
    and leaves the field as it was otherwise. *)
Theorem X29_fields_follow_the_buttons (self : Window.ConnectPage) :
  Window.Reachable self ->
  Window.input_password_enabled self = Window.button_password self
  /\ Window.input_key_enabled self = Window.button_key self
  /\ Window.button_choose_key_enabled self = Window.button_key self
  /\ (forall text,
        Window.input_password (Window.handle self (Window.TypePassword text))
        = if Window.button_password self
          then text else Window.input_password self)
  /\ (forall text,
        Window.input_key (Window.handle self (Window.TypeKey text))
        = if Window.button_key self then text else Window.input_key self).
Proof.
  intros Hreach. destruct (reachable_enabled self Hreach) as (Hp & Hk & Hc).
  split; [exact Hp |]. split; [exact Hk |]. split; [exact Hc |].
  split; intros text; cbn; [rewrite Hp | rewrite Hk]; reflexivity.
Qed.

Lemma X29_witness :
  Window.Reachable filled_page
  /\ Window.input_key_enabled filled_page = Window.button_key filled_page.
Proof.
  assert (Hreach : Window.Reachable filled_page)
    by (unfold filled_page; repeat constructor).
  split; [exact Hreach |].
  exact (proj1 (proj2 (X29_fields_follow_the_buttons filled_page Hreach))).
Defined.
